(** * quickwit-ui: the read-only JSON viewer component [JsonEditor]

    A shallow embedding of [quickwit-ui/src/components/JsonEditor.tsx] in
    its two revisions (the line-count estimate and the measured content
    height), together with the parts of the JavaScript platform that the
    component calls: Number values (IEEE 754 binary64), [Math.min], the
    conversion of a Number to a String, [JSON.stringify] with a two-space
    gap, [JSON.parse], one-shot timers, and the Monaco handles the mount
    callbacks receive.  The file that holds the earlier revision begins
    with the shell script that installs the build tools; it is embedded
    as well, over a machine that answers its commands. *)

From Stdlib Require Import ZArith NArith QArith Qround List Bool Lia Floats Ascii String.
From Stdlib Require Uint63.
From stdpp Require Import gmap strings.

Set Warnings "-inexact-float,-register-all".
Local Open Scope Z_scope.
Import ListNotations.

(* ===================================================================== *)
(** * Strings                                                             *)
(* ===================================================================== *)

(** A JavaScript String is a sequence of UTF-16 code units. *)
Module Str.
Local Open Scope N_scope.

Abbreviation code_unit := N.
Abbreviation JsString := (list code_unit).

(** A String of characters below U+0100, from its Rocq literal. *)
Definition utf16 (s : string) : JsString :=
  map N_of_ascii (list_ascii_of_string s).

(** The Rocq string of a String of such characters. *)
Definition string_of_units (s : JsString) : string :=
  string_of_list_ascii (map ascii_of_N s).

End Str.

(* ===================================================================== *)
(** * Number values                                                       *)
(* ===================================================================== *)

(** A JavaScript Number is an IEEE 754 binary64 value: Rocq's primitive
    [float].  [Prim2SF] exposes sign, mantissa and exponent. *)
Module Number.
Import Str.

Abbreviation number := float.

(** Structural comparison of specification floats (same sign, mantissa and
    exponent), as opposed to the IEEE comparison [SFeqb]. *)
Definition SF_same (a b : spec_float) : bool :=
  match a, b with
  | S754_zero s1, S754_zero s2 => Bool.eqb s1 s2
  | S754_infinity s1, S754_infinity s2 => Bool.eqb s1 s2
  | S754_nan, S754_nan => true
  | S754_finite s1 m1 e1, S754_finite s2 m2 e2 =>
      Bool.eqb s1 s2 && Pos.eqb m1 m2 && Z.eqb e1 e2
  | _, _ => false
  end.

(** The Number value for a mathematical value (ECMA-262's conversion of
    a real to the nearest binary64, ties to even).  The rational is
    reduced first, so that equal rationals round alike by construction;
    the rounding itself is the division of the specification floats. *)
Definition round_Q (q : Q) : spec_float :=
  let r := Qred q in
  match Qnum r with
  | Z0 => S754_zero false
  | Zpos p => SFdiv prec emax (S754_finite false p 0) (S754_finite false (Qden r) 0)
  | Zneg p => SFdiv prec emax (S754_finite true p 0) (S754_finite false (Qden r) 0)
  end.

Definition Q10 : Q := 10 # 1.

(** The mathematical value [s * 10^t] of a decimal. *)
Definition Q_of_decimal (s : N) (t : Z) : Q :=
  match t with
  | Zneg p => Z.of_N s # (10 ^ p)%positive
  | _ => inject_Z (Z.of_N s * 10 ^ t)
  end.

(** The mathematical value [m * 2^e] of a finite binary64. *)
Definition Q_of_binary (m : positive) (e : Z) : Q :=
  match e with
  | Zneg p => Zpos m # (2 ^ p)%positive
  | _ => inject_Z (Zpos m * 2 ^ e)
  end.

(** ** Number::toString, radix 10 *)

(** The decimal digits of a natural number, most significant first, as
    code units. *)
Fixpoint digits_fuel (fuel : nat) (n : N) (acc : JsString) : JsString :=
  match fuel with
  | O => acc
  | S f =>
      let acc' := (48 + n mod 10)%N :: acc in
      if (n <? 10)%N then acc' else digits_fuel f (n / 10)%N acc'
  end.

Definition digits_of (n : N) : JsString :=
  digits_fuel (S (N.to_nat (N.log2 n))) n [].

(** Dropping the trailing zeros of the digit string [s], counting them
    into the exponent. *)
Fixpoint strip_zeros (fuel : nat) (s : N) (t : Z) : N * Z :=
  match fuel with
  | O => (s, t)
  | S f =>
      if (N.eqb s 0 || negb (N.eqb (s mod 10) 0))%bool then (s, t)
      else strip_zeros f (s / 10)%N (t + 1)
  end.

Definition normal_decimal (s : N) (t : Z) : N * Z :=
  strip_zeros (S (N.to_nat (N.log2 s))) s t.

(** The decimal exponent [n] with [10^(n-1) <= v < 10^n], found from a
    binary estimate and corrected upward and downward. *)
Fixpoint magnitude_up (fuel : nat) (v : Q) (n : Z) : Z :=
  match fuel with
  | O => n
  | S f => if Qle_bool (Qpower Q10 n) v then magnitude_up f v (n + 1) else n
  end.

Fixpoint magnitude_down (fuel : nat) (v : Q) (n : Z) : Z :=
  match fuel with
  | O => n
  | S f => if Qle_bool (Qpower Q10 (n - 1)) v then n else magnitude_down f v (n - 1)
  end.

Definition magnitude (m : positive) (e : Z) : Z :=
  let v := Q_of_binary m e in
  let l2 := Z.log2 (Zpos m) + e in
  let est := (l2 * 30103) / 100000 in
  magnitude_down 700 v (magnitude_up 700 v est).

(** Whether the decimal [s * 10^t] converts to the Number [x]. *)
Definition converts_to (x : spec_float) (d : N * Z) : bool :=
  SF_same (round_Q (Q_of_decimal (fst d) (snd d))) x.

(** The search of ECMA-262 [Number::toString] step 5: the least number of
    digits [k] for which some [k]-digit decimal converts to [x]; of the
    two [k]-digit neighbours of the exact value the closer one, and the
    even one on a tie. *)
Fixpoint shortest (fuel : nat) (x : spec_float) (v : Q) (n0 : Z) (k : Z)
  : option (N * Z) :=
  match fuel with
  | O => None
  | S f =>
      let t := n0 - k in
      let scaled := (v / Qpower Q10 t)%Q in
      let lo := Z.to_N (Qfloor scaled) in
      let hi := (lo + 1)%N in
      let dlo := normal_decimal lo t in
      let dhi := normal_decimal hi t in
      match converts_to x dlo, converts_to x dhi with
      | true, true =>
          match Qcompare (scaled + scaled) (inject_Z (Z.of_N lo + Z.of_N hi)) with
          | Lt => Some dlo
          | Gt => Some dhi
          | Eq => if N.even lo then Some dlo else Some dhi
          end
      | true, false => Some dlo
      | false, true => Some dhi
      | false, false => shortest f x v n0 (k + 1)
      end
  end.

(** The exact decimal expansion of [m * 2^e]. *)
Definition exact_decimal (m : positive) (e : Z) : N * Z :=
  match e with
  | Zneg p => normal_decimal (Npos m * 5 ^ Npos p) e
  | _ => normal_decimal (Npos m * 2 ^ Z.to_N e) 0
  end.

(** The digits [s] and the exponent [t] of the finite positive value
    [m * 2^e]: the result of the search over one to seventeen digits
    (seventeen always suffice for a binary64); the exact expansion, which
    converts to the value as well, makes the definition total. *)
Definition decimal_of (m : positive) (e : Z) : N * Z :=
  let x := S754_finite false m e in
  match shortest 17 x (Q_of_binary m e) (magnitude m e) 1 with
  | Some d => d
  | None => exact_decimal m e
  end.

Definition zeros (n : Z) : JsString := repeat 48%N (Z.to_nat n).

(** Steps 6 to 10 of [Number::toString]: [k] digits [ds] and the position
    [n] of the decimal point.  46 is the full stop, 101 the letter e, 43
    and 45 the signs. *)
Definition decimal_text (ds : JsString) (n : Z) : JsString :=
  let k := Z.of_nat (length ds) in
  if (-5 <=? n) && (n <=? 21) then
    if k <=? n then ds ++ zeros (n - k)
    else if 0 <? n then
      firstn (Z.to_nat n) ds ++ 46%N :: skipn (Z.to_nat n) ds
    else 48%N :: 46%N :: zeros (- n) ++ ds
  else
    let e := n - 1 in
    let sign := if 0 <=? e then 43%N else 45%N in
    let ex := digits_of (Z.to_N (Z.abs e)) in
    match ds with
    | [] => []
    | [d] => d :: 101%N :: sign :: ex
    | d :: rest => d :: 46%N :: rest ++ 101%N :: sign :: ex
    end.

Definition toString_units (x : number) : JsString :=
  match Prim2SF x with
  | S754_nan => utf16 "NaN"
  | S754_zero _ => utf16 "0"
  | S754_infinity s => (if s then [45%N] else []) ++ utf16 "Infinity"
  | S754_finite s m e =>
      let '(d, t) := decimal_of m e in
      let ds := digits_of d in
      (if s then [45%N] else []) ++ decimal_text ds (t + Z.of_nat (length ds))
  end.

Definition toString (x : number) : string :=
  string_of_units (toString_units x).

(** ** Math.min *)

Definition is_neg_zero (x : number) : bool := is_zero x && get_sign x.
Definition is_pos_zero (x : number) : bool := is_zero x && negb (get_sign x).

(** One turn of the loop of [Math.min] over the coerced arguments. *)
Definition min_step (lowest x : number) : number :=
  if is_neg_zero x && is_pos_zero lowest then neg_zero
  else if (x <? lowest)%float then x
  else lowest.

(** [Math.min(...args)] on arguments already coerced to Number: NaN if any
    argument is NaN, else the least one, starting from +Infinity and with
    -0 below +0. *)
Definition Math_min (coerced : list number) : number :=
  if existsb is_nan coerced then nan
  else fold_left min_step coerced infinity.

(** [ToNumber] of the result of an optional call: [undefined] is NaN. *)
Definition ToNumber_opt (v : option number) : number :=
  match v with
  | Some x => x
  | None => nan
  end.

End Number.

(* ===================================================================== *)
(** * The host: DOM elements, editor handles, timers, themes              *)
(* ===================================================================== *)

Module Host.
Import Str Number.

(** A thrown JavaScript value. *)
Inductive JsError :=
| TypeError (msg : string)
| SyntaxError (msg : string).

(** The completion of a JavaScript call: a value, or a throw. *)
Inductive completion (A : Type) :=
| Normal (a : A)
| Throw (e : JsError).
Arguments Normal {A} a.
Arguments Throw {A} e.

Definition elem_ref := nat.
Definition editor_ref := nat.
Definition timer_id := nat.

(** The container element of an editor.  Of the element only the inline
    [style.height] is modelled, as the last string assigned to it (the
    empty string while none was assigned); whether the style engine
    accepts the string is outside the model. *)
Record Element := { style_height : string }.

(** Monaco's text model, of which the component reads the line count. *)
Record TextModel := { lineCount : number }.

(** What an editor handle answers: [getDomNode()] (nullable), [getModel()]
    (nullable), [getContentHeight()], and whether the instance has been
    disposed by the unmount of its host component. *)
Record Editor := {
  domNode : option elem_ref;
  model : option TextModel;
  contentHeight : number;
  disposed : bool
}.

(** The arrow function handed to [setTimeout] in the measured-height
    revision, as the closure of its two captured variables. *)
Inductive Callback :=
| ResizeCallback (editor : editor_ref) (editorElement : elem_ref).

Record Timer := {
  timer_ident : timer_id;
  timer_due : Z;
  timer_callback : Callback
}.

(** Monaco's [IStandaloneThemeData]. *)
Record ThemeData := {
  theme_base : string;
  theme_inherit : bool;
  theme_rules : list (string * string);
  theme_colors : list (string * string)
}.

(** The calls the component makes on its collaborators, in order. *)
Inductive Event :=
| EvGetDomNode (ed : editor_ref)
| EvGetModel (ed : editor_ref)
| EvGetLineCount (ed : editor_ref)
| EvGetContentHeight (ed : editor_ref)
| EvSetStyleHeight (el : elem_ref) (v : string)
| EvLayout (ed : editor_ref) (on_disposed : bool)
| EvSetTimeout (id : timer_id) (delay : Z)
| EvDefineTheme (name : string).

Record World := {
  elements : gmap nat Element;
  editors : gmap nat Editor;
  timers : list Timer;
  next_timer : timer_id;
  clock : Z;
  themes : gmap string ThemeData;
  trace : list Event
}.

Definition with_elements (f : gmap nat Element -> gmap nat Element) (w : World) : World :=
  {| elements := f (elements w); editors := editors w; timers := timers w;
     next_timer := next_timer w; clock := clock w; themes := themes w;
     trace := trace w |}.

Definition with_editors (f : gmap nat Editor -> gmap nat Editor) (w : World) : World :=
  {| elements := elements w; editors := f (editors w); timers := timers w;
     next_timer := next_timer w; clock := clock w; themes := themes w;
     trace := trace w |}.

Definition with_timers (f : list Timer -> list Timer) (w : World) : World :=
  {| elements := elements w; editors := editors w; timers := f (timers w);
     next_timer := next_timer w; clock := clock w; themes := themes w;
     trace := trace w |}.

Definition with_themes (f : gmap string ThemeData -> gmap string ThemeData) (w : World) : World :=
  {| elements := elements w; editors := editors w; timers := timers w;
     next_timer := next_timer w; clock := clock w; themes := f (themes w);
     trace := trace w |}.

Definition log (e : Event) (w : World) : World :=
  {| elements := elements w; editors := editors w; timers := timers w;
     next_timer := next_timer w; clock := clock w; themes := themes w;
     trace := trace w ++ [e] |}.

(** ** The monad of host calls: state and exceptions *)

Definition M (A : Type) : Type := World -> completion A * World.

Definition ret {A} (a : A) : M A := fun w => (Normal a, w).

Definition bind {A B} (c : M A) (k : A -> M B) : M B :=
  fun w =>
    match c w with
    | (Normal a, w') => k a w'
    | (Throw e, w') => (Throw e, w')
    end.

Definition throw {A} (e : JsError) : M A := fun w => (Throw e, w).

Notation "'let*' x := c 'in' k" := (bind c (fun x => k))
  (at level 10, x name, c at level 100, k at level 200, only parsing).
Notation "'do' c 'then' k" := (bind c (fun _ => k))
  (at level 10, c at level 100, k at level 200, only parsing).

(** A call through a handle that names no editor is a [TypeError]. *)
Definition the_editor (ed : editor_ref) : M Editor :=
  fun w =>
    match editors w !! ed with
    | Some e => (Normal e, w)
    | None => (Throw (TypeError "editor is undefined"), w)
    end.

(** [editor.getDomNode()] *)
Definition getDomNode (ed : editor_ref) : M (option elem_ref) :=
  let* e := the_editor ed in
  fun w => (Normal (domNode e), log (EvGetDomNode ed) w).

(** [editor.getModel()] *)
Definition getModel (ed : editor_ref) : M (option TextModel) :=
  let* e := the_editor ed in
  fun w => (Normal (model e), log (EvGetModel ed) w).

(** [model.getLineCount()] *)
Definition getLineCount (ed : editor_ref) (m : TextModel) : M number :=
  fun w => (Normal (lineCount m), log (EvGetLineCount ed) w).

(** [editor.getContentHeight()] *)
Definition getContentHeight (ed : editor_ref) : M number :=
  let* e := the_editor ed in
  fun w => (Normal (contentHeight e), log (EvGetContentHeight ed) w).

(** [editor.layout()] *)
Definition layout (ed : editor_ref) : M unit :=
  let* e := the_editor ed in
  fun w => (Normal tt, log (EvLayout ed (disposed e)) w).

(** [element.style.height = v] *)
Definition set_style_height (el : elem_ref) (v : string) : M unit :=
  fun w =>
    (Normal tt,
     log (EvSetStyleHeight el v)
         (with_elements (fun els => <[el := {| style_height := v |}]> els) w)).

(** [setTimeout(cb, delay)]: queues a one-shot timer and returns its id. *)
Definition setTimeout (cb : Callback) (delay : Z) : M timer_id :=
  fun w =>
    let id := next_timer w in
    (Normal id,
     log (EvSetTimeout id delay)
       {| elements := elements w; editors := editors w;
          timers := timers w ++ [{| timer_ident := id;
                                    timer_due := clock w + delay;
                                    timer_callback := cb |}];
          next_timer := S id; clock := clock w; themes := themes w;
          trace := trace w |}).

(** [monaco.editor.defineTheme(name, data)]: an upsert into the registry
    shared by all editors. *)
Definition defineTheme (name : string) (data : ThemeData) : M unit :=
  fun w =>
    (Normal tt,
     log (EvDefineTheme name) (with_themes (fun ts => <[name := data]> ts) w)).

End Host.

(* ===================================================================== *)
(** * JavaScript values and JSON                                          *)
(* ===================================================================== *)

Module JSON.
Import Str Number Host.
Local Open Scope N_scope.

(** The values [content] may hold.  An ordinary object is the list of its
    own enumerable properties in the order OrdinaryOwnPropertyKeys lists
    them.  A cyclic structure is a tree one of whose leaves refers back
    to an enclosing object or array ([JsCircular]); [JsThrowing e] is an
    object whose [toJSON] method throws [e]. *)
Inductive JsValue :=
| JsUndefined
| JsNull
| JsBool (b : bool)
| JsNumber (x : number)
| JsStr (s : JsString)
| JsBigInt (z : Z)
| JsSymbol
| JsFunction
| JsArray (items : list JsValue)
| JsObject (props : list (JsString * JsValue))
| JsCircular
| JsThrowing (e : JsError).

(** ** QuoteJSONString *)

Definition is_leading_surrogate (c : code_unit) : bool :=
  (0xD800 <=? c) && (c <=? 0xDBFF).
Definition is_trailing_surrogate (c : code_unit) : bool :=
  (0xDC00 <=? c) && (c <=? 0xDFFF).

Definition hex_digit (n : N) : code_unit :=
  if n <? 10 then 48 + n else 87 + n.

(** [\uXXXX] with four lowercase hexadecimal digits. *)
Definition unicode_escape (c : code_unit) : JsString :=
  [92; 117; hex_digit (c / 4096 mod 16); hex_digit (c / 256 mod 16);
   hex_digit (c / 16 mod 16); hex_digit (c mod 16)].

(** The two-character escapes of the table of QuoteJSONString. *)
Definition short_escape (c : code_unit) : option code_unit :=
  if c =? 8 then Some 98          (* backspace: b *)
  else if c =? 9 then Some 116    (* tab: t *)
  else if c =? 10 then Some 110   (* line feed: n *)
  else if c =? 12 then Some 102   (* form feed: f *)
  else if c =? 13 then Some 114   (* carriage return: r *)
  else if c =? 34 then Some 34    (* quotation mark *)
  else if c =? 92 then Some 92    (* reverse solidus *)
  else None.

(** The body of a quoted string, by code points: a leading surrogate
    followed by a trailing one is a pair and is copied; a surrogate alone
    is escaped. *)
Fixpoint quote_body (s : JsString) : JsString :=
  match s with
  | [] => []
  | c :: rest =>
      match short_escape c with
      | Some x => 92 :: x :: quote_body rest
      | None =>
          if c <? 32 then unicode_escape c ++ quote_body rest
          else if is_leading_surrogate c then
            match rest with
            | d :: rest' =>
                if is_trailing_surrogate d then c :: d :: quote_body rest'
                else unicode_escape c ++ quote_body rest
            | [] => unicode_escape c
            end
          else if is_trailing_surrogate c then unicode_escape c ++ quote_body rest
          else c :: quote_body rest
      end
  end.

Definition QuoteJSONString (s : JsString) : JsString :=
  34 :: quote_body s ++ [34].

(** ** JSON.stringify *)

Fixpoint join (sep : JsString) (parts : list JsString) : JsString :=
  match parts with
  | [] => []
  | [p] => p
  | p :: rest => p ++ sep ++ join sep rest
  end.

(** The text of an array or an object from its serialized members. *)
Definition wrap (open close : code_unit) (gap stepback indent : JsString)
    (partial : list JsString) : JsString :=
  match partial with
  | [] => [open; close]
  | _ =>
      match gap with
      | [] => open :: join [44] partial ++ [close]
      | _ => open :: 10 :: indent ++ join (44 :: 10 :: indent) partial
               ++ 10 :: stepback ++ [close]
      end
  end.

(** The partial list of an array: each element serialized, [undefined]
    as null. *)
Section Partial.
Variable ser : JsValue -> completion (option JsString).
Variable gap : JsString.

Fixpoint serialize_elements (l : list JsValue) : completion (list JsString) :=
  match l with
  | [] => Normal []
  | x :: rest =>
      match ser x with
      | Throw e => Throw e
      | Normal strP =>
          match serialize_elements rest with
          | Throw e => Throw e
          | Normal partial =>
              Normal (match strP with
                      | None => utf16 "null"
                      | Some t => t
                      end :: partial)
          end
      end
  end.

(** The partial list of an object: a member for each property whose
    value does not serialize to [undefined]. *)
Fixpoint serialize_members (l : list (JsString * JsValue)) : completion (list JsString) :=
  match l with
  | [] => Normal []
  | p :: rest =>
      let '(P, x) := p in
      match ser x with
      | Throw e => Throw e
      | Normal strP =>
          match serialize_members rest with
          | Throw e => Throw e
          | Normal partial =>
              Normal (match strP with
                      | None => partial
                      | Some t =>
                          (QuoteJSONString P ++ 58 ::
                             match gap with [] => t | _ => 32 :: t end)
                          :: partial
                      end)
          end
      end
  end.
End Partial.

(** SerializeJSONProperty, SerializeJSONArray and SerializeJSONObject:
    [None] is [undefined]. [indent] is the indentation of the enclosing
    level. *)
Fixpoint serialize (gap indent : JsString) (v : JsValue) {struct v}
  : completion (option JsString) :=
  match v with
  | JsUndefined | JsSymbol | JsFunction => Normal None
  | JsNull => Normal (Some (utf16 "null"))
  | JsBool true => Normal (Some (utf16 "true"))
  | JsBool false => Normal (Some (utf16 "false"))
  | JsNumber x =>
      if is_finite x then Normal (Some (toString_units x))
      else Normal (Some (utf16 "null"))
  | JsStr s => Normal (Some (QuoteJSONString s))
  | JsBigInt _ => Throw (TypeError "Do not know how to serialize a BigInt")
  | JsCircular => Throw (TypeError "Converting circular structure to JSON")
  | JsThrowing e => Throw e
  | JsArray items =>
      let stepback := indent in
      let indent := indent ++ gap in
      match serialize_elements (serialize gap indent) items with
      | Throw e => Throw e
      | Normal partial => Normal (Some (wrap 91 93 gap stepback indent partial))
      end
  | JsObject props =>
      let stepback := indent in
      let indent := indent ++ gap in
      match serialize_members (serialize gap indent) gap props with
      | Throw e => Throw e
      | Normal partial => Normal (Some (wrap 123 125 gap stepback indent partial))
      end
  end.

(** [JSON.stringify(value, null, space)] for a numeric [space]: the gap is
    [min(10, space)] spaces. *)
Definition JSON_stringify (value : JsValue) (space : nat) : completion (option JsString) :=
  serialize (repeat 32 (Nat.min 10 space)) [] value.

(** ** JSON.parse *)

(** The Number value of the decimal literal [d * 10^t], negated for a
    literal with a leading minus sign. *)
Definition number_of_decimal (neg : bool) (d : N) (t : Z) : number :=
  let x := SF2Prim (round_Q (Q_of_decimal d t)) in
  if neg then (- x)%float else x.

Definition is_ws (c : code_unit) : bool :=
  (c =? 9) || (c =? 10) || (c =? 13) || (c =? 32).

Fixpoint skip_ws (s : JsString) : JsString :=
  match s with
  | c :: rest => if is_ws c then skip_ws rest else s
  | [] => []
  end.

Definition is_digit (c : code_unit) : bool := (48 <=? c) && (c <=? 57).

Fixpoint take_digits (s : JsString) : JsString * JsString :=
  match s with
  | c :: rest =>
      if is_digit c then let '(ds, r) := take_digits rest in (c :: ds, r)
      else ([], s)
  | [] => ([], [])
  end.

Definition digits_value (ds : JsString) : N :=
  fold_left (fun a c => 10 * a + (c - 48)) ds 0.

(** The fraction of a JSONNumber, if any: a full stop and at least one
    digit. *)
Definition parse_fraction (s : JsString) : option (JsString * JsString) :=
  match s with
  | 46 :: r =>
      let '(f, r') := take_digits r in
      match f with
      | [] => None
      | _ => Some (f, r')
      end
  | _ => Some ([], s)
  end.

(** The exponent part, if any: e or E, an optional sign, at least one
    digit. *)
Definition parse_exponent (s : JsString) : option (Z * JsString) :=
  match s with
  | c :: r =>
      if (c =? 101) || (c =? 69) then
        let '(eneg, r1) := match r with
                           | 45 :: r' => (true, r')
                           | 43 :: r' => (false, r')
                           | _ => (false, r)
                           end in
        let '(ds, r2) := take_digits r1 in
        match ds with
        | [] => None
        | _ => let e := Z.of_N (digits_value ds) in
               Some (if eneg then (- e)%Z else e, r2)
        end
      else Some (0%Z, s)
  | [] => Some (0%Z, s)
  end.

(** The unsigned part of a JSONNumber as a decimal [d * 10^t]: an
    integer part without a leading zero (unless it is the single digit
    0), an optional fraction, an optional exponent. *)
Definition parse_decimal (s : JsString) : option (N * Z * JsString) :=
  let '(int, s2) := take_digits s in
  match int with
  | [] => None
  | c :: more =>
      if (c =? 48) && negb (Nat.eqb (length more) 0) then None
      else
        match parse_fraction s2 with
        | None => None
        | Some (f, s3) =>
            match parse_exponent s3 with
            | None => None
            | Some (e, s4) =>
                Some (digits_value (int ++ f), (e - Z.of_nat (length f))%Z, s4)
            end
        end
  end.

(** JSONNumber: an optional minus sign and the unsigned part. *)
Definition parse_number (s : JsString) : option (number * JsString) :=
  let '(neg, s1) := match s with
                    | c :: r => if c =? 45 then (true, r) else (false, s)
                    | [] => (false, s)
                    end in
  match parse_decimal s1 with
  | Some (d, t, r) => Some (number_of_decimal neg d t, r)
  | None => None
  end.

Definition hex_value (c : code_unit) : option N :=
  if is_digit c then Some (c - 48)
  else if (97 <=? c) && (c <=? 102) then Some (c - 87)
  else if (65 <=? c) && (c <=? 70) then Some (c - 55)
  else None.

Definition hex4 (a b c d : code_unit) : option code_unit :=
  match hex_value a, hex_value b, hex_value c, hex_value d with
  | Some x, Some y, Some z, Some w => Some (4096 * x + 256 * y + 16 * z + w)
  | _, _, _, _ => None
  end.

(** The character a single-character escape stands for. *)
Definition unescape (c : code_unit) : option code_unit :=
  if c =? 34 then Some 34
  else if c =? 47 then Some 47
  else if c =? 92 then Some 92
  else if c =? 98 then Some 8
  else if c =? 102 then Some 12
  else if c =? 110 then Some 10
  else if c =? 114 then Some 13
  else if c =? 116 then Some 9
  else None.

Definition push (c : code_unit) (r : option (JsString * JsString))
  : option (JsString * JsString) :=
  match r with
  | Some (s, rest) => Some (c :: s, rest)
  | None => None
  end.

(** The characters of a JSONString after its opening quotation mark, up
    to and including the closing one. *)
Fixpoint parse_string (s : JsString) : option (JsString * JsString) :=
  match s with
  | [] => None
  | c :: rest =>
      if c =? 34 then Some ([], rest)
      else if c =? 92 then
        match rest with
        | [] => None
        | e :: rest1 =>
            if e =? 117 then
              match rest1 with
              | h1 :: h2 :: h3 :: h4 :: rest2 =>
                  match hex4 h1 h2 h3 h4 with
                  | Some u => push u (parse_string rest2)
                  | None => None
                  end
              | _ => None
              end
            else
              match unescape e with
              | Some u => push u (parse_string rest1)
              | None => None
              end
        end
      else if c <? 32 then None
      else push c (parse_string rest)
  end.

(** ** Ordinary objects: the order of own property keys *)

Fixpoint string_eqb (a b : JsString) : bool :=
  match a, b with
  | [], [] => true
  | x :: a', y :: b' => (x =? y) && string_eqb a' b'
  | _, _ => false
  end.

(** An array index is a canonical numeric string below [2^32 - 1]. *)
Definition array_index (k : JsString) : option N :=
  match k with
  | [] => None
  | [48] => Some 0
  | c :: _ =>
      if forallb is_digit k && negb (c =? 48) && (digits_value k <? 4294967295)
      then Some (digits_value k)
      else None
  end.

(** Whether key [k] is listed before key [k'] whatever the order of their
    creation: array indices ascending, and before all other keys. *)
Definition key_before (k k' : JsString) : bool :=
  match array_index k, array_index k' with
  | Some i, Some j => i <? j
  | Some _, None => true
  | None, _ => false
  end.

(** CreateDataProperty on the list of own properties in the order of
    OrdinaryOwnPropertyKeys: an existing key keeps its place and takes
    the new value; a new array index goes to its place among the
    indices; any other new key goes last. *)
Fixpoint define_property (k : JsString) (v : JsValue)
    (props : list (JsString * JsValue)) : list (JsString * JsValue) :=
  match props with
  | [] => [(k, v)]
  | (k', v') :: rest =>
      if string_eqb k k' then (k', v) :: rest
      else if key_before k k' then (k, v) :: props
      else (k', v') :: define_property k v rest
  end.

Definition object_of_members (members : list (JsString * JsValue)) : JsValue :=
  JsObject (fold_left (fun props m => define_property (fst m) (snd m) props) members []).

(** ** The parser *)

(** [s] without its prefix [p], if it has it. *)
Fixpoint strip_prefix (p s : JsString) : option JsString :=
  match p, s with
  | [], _ => Some s
  | a :: p', b :: s' => if a =? b then strip_prefix p' s' else None
  | _ :: _, [] => None
  end.

Definition literal (v : JsValue) (r : option JsString) : option (JsValue * JsString) :=
  match r with
  | Some r' => Some (v, r')
  | None => None
  end.

(** JSONValue, with the element list of an array and the member list of
    an object; each call skips the white space before its first token.
    The first character decides: n, t, f (110, 116, 102) a literal, the
    quotation mark (34) a string, the brackets (91, 123) an array or an
    object, anything else a number. *)
Fixpoint parse_value (fuel : nat) (s : JsString) {struct fuel}
  : option (JsValue * JsString) :=
  match fuel with
  | O => None
  | S f =>
      match skip_ws s with
      | [] => None
      | c :: r =>
          if c =? 110 then literal JsNull (strip_prefix (utf16 "ull") r)
          else if c =? 116 then literal (JsBool true) (strip_prefix (utf16 "rue") r)
          else if c =? 102 then literal (JsBool false) (strip_prefix (utf16 "alse") r)
          else if c =? 34 then
            match parse_string r with
            | Some (str, r') => Some (JsStr str, r')
            | None => None
            end
          else if c =? 91 then
            match skip_ws r with
            | [] => None
            | c' :: r' =>
                if c' =? 93 then Some (JsArray [], r')
                else
                  match parse_elements f r with
                  | Some (items, r'') => Some (JsArray items, r'')
                  | None => None
                  end
            end
          else if c =? 123 then
            match skip_ws r with
            | [] => None
            | c' :: r' =>
                if c' =? 125 then Some (JsObject [], r')
                else
                  match parse_members f r with
                  | Some (members, r'') => Some (object_of_members members, r'')
                  | None => None
                  end
            end
          else
            match parse_number (c :: r) with
            | Some (x, r') => Some (JsNumber x, r')
            | None => None
            end
      end
  end
with parse_elements (fuel : nat) (s : JsString) {struct fuel}
  : option (list JsValue * JsString) :=
  match fuel with
  | O => None
  | S f =>
      match parse_value f s with
      | Some (v, r) =>
          match skip_ws r with
          | [] => None
          | c :: r' =>
              if c =? 44 then
                match parse_elements f r' with
                | Some (vs, r'') => Some (v :: vs, r'')
                | None => None
                end
              else if c =? 93 then Some ([v], r')
              else None
          end
      | None => None
      end
  end
with parse_members (fuel : nat) (s : JsString) {struct fuel}
  : option (list (JsString * JsValue) * JsString) :=
  match fuel with
  | O => None
  | S f =>
      match skip_ws s with
      | [] => None
      | q :: r =>
          if q =? 34 then
            match parse_string r with
            | Some (k, r1) =>
                match skip_ws r1 with
                | [] => None
                | colon :: r2 =>
                    if colon =? 58 then
                      match parse_value f r2 with
                      | Some (v, r3) =>
                          match skip_ws r3 with
                          | [] => None
                          | c :: r4 =>
                              if c =? 44 then
                                match parse_members f r4 with
                                | Some (ms, r5) => Some ((k, v) :: ms, r5)
                                | None => None
                                end
                              else if c =? 125 then Some ([(k, v)], r4)
                              else None
                          end
                      | None => None
                      end
                    else None
                end
            | None => None
            end
          else None
      end
  end.

(** [JSON.parse(text)]: one JSONValue between white space, else a
    SyntaxError. *)
Definition JSON_parse (text : JsString) : completion JsValue :=
  match parse_value (S (length text)) text with
  | Some (v, rest) =>
      match skip_ws rest with
      | [] => Normal v
      | _ => Throw (SyntaxError "Unexpected non-whitespace character after JSON")
      end
  | None => Throw (SyntaxError "Unexpected token in JSON")
  end.

(** ** JSON-representable values *)

Definition is_code_unit (c : N) : bool := c <? 65536.

(** The keys of an ordinary object, as it lists them: no key twice, and
    no key after one it is to be listed before. *)
Fixpoint keys_ok (ks : list JsString) : bool :=
  match ks with
  | [] => true
  | k :: rest =>
      forallb (fun k' => negb (string_eqb k k') && negb (key_before k' k)) rest
      && keys_ok rest
  end.

(** The values JSON can represent: null, booleans, finite Numbers,
    Strings, and arrays and ordinary objects of such values. *)
Fixpoint representable (v : JsValue) : bool :=
  match v with
  | JsNull | JsBool _ => true
  | JsNumber x => is_finite x
  | JsStr s => forallb is_code_unit s
  | JsArray items => forallb representable items
  | JsObject props =>
      keys_ok (map fst props)
      && forallb (fun p => let '(k, x) := p in
                           forallb is_code_unit k && representable x) props
  | _ => false
  end.

(** The value with every negative zero replaced by the positive one. *)
Fixpoint positive_zeros (v : JsValue) : JsValue :=
  match v with
  | JsNumber x => JsNumber (if is_neg_zero x then 0%float else x)
  | JsArray items => JsArray (map positive_zeros items)
  | JsObject props =>
      JsObject (map (fun p => let '(k, x) := p in (k, positive_zeros x)) props)
  | _ => v
  end.

Fixpoint no_negative_zero (v : JsValue) : bool :=
  match v with
  | JsNumber x => negb (is_neg_zero x)
  | JsArray items => forallb no_negative_zero items
  | JsObject props => forallb (fun p => let '(k, x) := p in no_negative_zero x) props
  | _ => true
  end.

End JSON.

(* ===================================================================== *)
(** * The component                                                       *)
(* ===================================================================== *)

Module Component.
Import Str Number Host JSON.
Local Open Scope string_scope.

(** The [options] object literal passed to [Editor]. *)
Record EditorOptions := {
  readOnly : bool;
  fontFamily : string;
  overviewRulerBorder : bool;
  overviewRulerLanes : option Z;
  minimap_enabled : bool;
  scrollbar_alwaysConsumeMouseWheel : bool;
  renderLineHighlight : string;
  fontSize : Z;
  fixedOverflowWidgets : bool;
  scrollBeyondLastLine : bool;
  automaticLayout : bool;
  wordWrap : string;
  wrappingIndent : string
}.

(** The props of the [Editor] element the component returns; [value] is
    [None] where [JSON.stringify] answers [undefined]. *)
Record EditorProps := {
  language : string;
  value : option JsString;
  beforeMount : M unit;
  onMount : editor_ref -> M unit;
  options : EditorOptions;
  theme : string
}.

(** The template literal [`${height}px`]. *)
Definition px (height : number) : string := toString height ++ "px".

End Component.

(** ** Revision [JsonEditor.tsx]: the measured content height *)

Module MeasuredHeight.
Import Str Number Host JSON Component.
Local Open Scope string_scope.

(** The body of the arrow function given to [setTimeout]. *)
Definition resize (editor : editor_ref) (editorElement : elem_ref) : M unit :=
  let* h := getContentHeight editor in
  let height := Math_min [800%float; h] in
  do set_style_height editorElement (px height) then
  layout editor.

(** [onMount], the function [useCallback] memoises for the value of
    [resizeOnMount]. *)
Definition onMount (resizeOnMount : bool) (editor : editor_ref) : M unit :=
  if negb resizeOnMount then ret tt
  else
    let* editorElement := getDomNode editor in
    match editorElement with
    | None => ret tt
    | Some editorElement =>
        let* _ := setTimeout (ResizeCallback editor editorElement) 10 in
        ret tt
    end.

Section JsonEditor.

(** [EDITOR_THEME] is imported from [../utils/theme]. *)
Variable EDITOR_THEME : ThemeData.

Definition beforeMount : M unit :=
  defineTheme "quickwit-light" EDITOR_THEME.

Definition editor_options : EditorOptions :=
  {| readOnly := true;
     fontFamily := "monospace";
     overviewRulerBorder := false;
     overviewRulerLanes := Some 0%Z;
     minimap_enabled := false;
     scrollbar_alwaysConsumeMouseWheel := false;
     renderLineHighlight := "gutter";
     fontSize := 12;
     fixedOverflowWidgets := true;
     scrollBeyondLastLine := false;
     automaticLayout := true;
     wordWrap := "on";
     wrappingIndent := "advanced" |}.

(** [JsonEditor({content, resizeOnMount})]: the serialization is
    evaluated while the props are built, outside any handler. *)
Definition JsonEditor (content : JsValue) (resizeOnMount : bool)
  : completion EditorProps :=
  match JSON_stringify content 2 with
  | Throw e => Throw e
  | Normal text =>
      Normal {| language := "json";
                value := text;
                Component.beforeMount := beforeMount;
                Component.onMount := onMount resizeOnMount;
                options := editor_options;
                theme := "quickwit-light" |}
  end.

End JsonEditor.
End MeasuredHeight.

(** ** The earlier revision: the line-count estimate *)

Module LineCount.
Import Str Number Host JSON Component.
Local Open Scope string_scope.

Definition onMount (resizeOnMount : bool) (editor : editor_ref) : M unit :=
  if negb resizeOnMount then ret tt
  else
    let* editorElement := getDomNode editor in
    match editorElement with
    | None => ret tt
    | Some editorElement =>
        (* editor.getModel()?.getLineCount() *)
        let* m := getModel editor in
        let* lines :=
          match m with
          | Some m => let* n := getLineCount editor m in ret (Some n)
          | None => ret None
          end in
        let height := Math_min [800%float; (18.81 * ToNumber_opt lines)%float] in
        do set_style_height editorElement (px height) then
        layout editor
    end.

Section JsonEditor.

Variable EDITOR_THEME : ThemeData.

Definition beforeMount : M unit :=
  defineTheme "quickwit-light" EDITOR_THEME.

Definition editor_options : EditorOptions :=
  {| readOnly := true;
     fontFamily := "monospace";
     overviewRulerBorder := false;
     overviewRulerLanes := None;
     minimap_enabled := false;
     scrollbar_alwaysConsumeMouseWheel := false;
     renderLineHighlight := "gutter";
     fontSize := 12;
     fixedOverflowWidgets := true;
     scrollBeyondLastLine := false;
     automaticLayout := true;
     wordWrap := "on";
     wrappingIndent := "indent" |}.

Definition JsonEditor (content : JsValue) (resizeOnMount : bool)
  : completion EditorProps :=
  match JSON_stringify content 2 with
  | Throw e => Throw e
  | Normal text =>
      Normal {| language := "json";
                value := text;
                Component.beforeMount := beforeMount;
                Component.onMount := onMount resizeOnMount;
                options := editor_options;
                theme := "quickwit-light" |}
  end.

End JsonEditor.
End LineCount.

(* ===================================================================== *)
(** * The event loop and the life of an editor                            *)
(* ===================================================================== *)

Module Loop.
Import Str Number Host JSON Component.

(** Calling a queued closure. *)
Definition call (cb : Callback) : M unit :=
  match cb with
  | ResizeCallback editor editorElement => MeasuredHeight.resize editor editorElement
  end.

Definition find_timer (id : timer_id) (ts : list Timer) : option Timer :=
  List.find (fun t => Nat.eqb (timer_ident t) id) ts.

Definition drop_timer (id : timer_id) (ts : list Timer) : list Timer :=
  List.filter (fun t => negb (Nat.eqb (timer_ident t) id)) ts.

(** Time passes. *)
Definition advance (ms : Z) (w : World) : World :=
  {| elements := elements w; editors := editors w; timers := timers w;
     next_timer := next_timer w; clock := (clock w + ms)%Z; themes := themes w;
     trace := trace w |}.

(** The loop's turn for timer [id]: a queued timer that is due leaves the
    queue (it is one-shot) and its callback is called; a timer that is
    not due, or not queued, does nothing. *)
Definition run_timer (id : timer_id) : M unit :=
  fun w =>
    match find_timer id (timers w) with
    | Some t =>
        if (timer_due t <=? clock w)%Z
        then call (timer_callback t) (with_timers (drop_timer id) w)
        else (Normal tt, w)
    | None => (Normal tt, w)
    end.

(** The widget's own layout pass: the content height it reports changes. *)
Definition settle (ed : editor_ref) (h : number) (w : World) : World :=
  with_editors
    (alter (fun e => {| domNode := domNode e; model := model e;
                        contentHeight := h; disposed := disposed e |}) ed) w.

(** The host unmounts the component: the wrapper disposes the editor.
    The component registers no cleanup and kept no timer id, so the timer
    queue is as it was. *)
Definition unmount (ed : editor_ref) (w : World) : World :=
  with_editors
    (alter (fun e => {| domNode := domNode e; model := model e;
                        contentHeight := contentHeight e; disposed := true |}) ed) w.

(** The wrapper's mount sequence: [beforeMount(monaco)], the creation of
    the editor instance (here: the state [created] it starts in), then
    [onMount(editor)]. *)
Definition mount (props : EditorProps) (created : Editor) : M editor_ref :=
  do beforeMount props then
  let* ed := (fun w =>
    let ed := fresh (dom (editors w)) in
    (Normal ed, with_editors (fun eds => <[ed := created]> eds) w)) in
  do onMount props ed then
  ret ed.

(** One turn of the single-threaded event loop: a callback of some
    mounted instance of the component, a timer, or a move of the
    surroundings. *)
Inductive Turn :=
| CallBeforeMount
| CallOnMountMeasured (resizeOnMount : bool) (ed : editor_ref)
| CallOnMountLineCount (resizeOnMount : bool) (ed : editor_ref)
| TurnTimer (id : timer_id)
| TurnSettle (ed : editor_ref) (h : number)
| TurnUnmount (ed : editor_ref)
| TurnAdvance (ms : Z).

Definition is_registration (t : Turn) : bool :=
  match t with
  | CallBeforeMount => true
  | _ => false
  end.

Section Schedule.

Variable EDITOR_THEME : ThemeData.

Definition turn (t : Turn) (w : World) : World :=
  match t with
  | CallBeforeMount => snd (MeasuredHeight.beforeMount EDITOR_THEME w)
  | CallOnMountMeasured r ed => snd (MeasuredHeight.onMount r ed w)
  | CallOnMountLineCount r ed => snd (LineCount.onMount r ed w)
  | TurnTimer id => snd (run_timer id w)
  | TurnSettle ed h => settle ed h w
  | TurnUnmount ed => unmount ed w
  | TurnAdvance ms => advance ms w
  end.

(** The turns of a schedule, one after the other. *)
Definition run_schedule (schedule : list Turn) (w : World) : World :=
  fold_left (fun w t => turn t w) schedule w.

End Schedule.

End Loop.

(* ===================================================================== *)
(** * Predicates and sample states used in the statements                 *)
(* ===================================================================== *)

Module Statements.
Import Str Number Host JSON Component Loop.

(** A shift record with no bit shifted out. *)
Abbreviation exact_record m := {| shr_m := m; shr_r := false; shr_s := false |}.

(** The value of a digit string read after the value [a]. *)
Definition dv (a : N) (ds : JsString) : N :=
  fold_left (fun a c => 10 * a + (c - 48))%N ds a.

(** What may follow a number in a text: nothing, a comma, a line feed or
    a closing bracket. *)
Definition number_end (rest : JsString) : Prop :=
  match rest with
  | [] => True
  | c :: _ => c = 44%N \/ c = 10%N \/ c = 93%N \/ c = 125%N
  end.

(** A text that begins with a token of a value. *)
Definition value_start (t : JsString) : Prop :=
  match t with
  | [] => False
  | c :: _ => is_ws c = false /\ c <> 93%N
  end.

(** The text [t] reads back as the value [v] (with positive zeros), with
    fuel for its length and before any text that ends a number. *)
Definition reads_back (v : JsValue) (t : JsString) : Prop :=
  value_start t /\
  forall fuel rest,
    (length t <= fuel)%nat -> number_end rest ->
    parse_value fuel (t ++ rest) = Some (positive_zeros v, rest).

(** The member text of a property reads back as the property. *)
Definition member_reads_back (p : JsString * JsValue) (m : JsString) : Prop :=
  exists t, m = QuoteJSONString (fst p) ++ 58%N :: 32%N :: t /\
            reads_back (snd p) t /\ forallb is_code_unit (fst p) = true.

(** A height the ceiling allows: not above 800, and at most 800 unless it
    is NaN. *)
Definition capped (h : number) : Prop :=
  (800 <? h)%float = false /\ (is_nan h = true \/ (h <=? 800)%float = true).

(** An assignment to a height is of a capped number of pixels. *)
Definition sizing_event_capped (ev : Event) : Prop :=
  match ev with
  | EvSetStyleHeight _ v => exists h, v = px h /\ capped h
  | _ => True
  end.

(** A world with three editors on one element: one with a model of three
    lines, one without a DOM node, one without a model. *)
Definition world0 : World :=
  {| elements := {[ 7%nat := {| style_height := EmptyString |} ]};
     editors := {[ 1%nat := {| domNode := Some 7%nat;
                               model := Some {| lineCount := 3%float |};
                               contentHeight := 7000%float;
                               disposed := false |} ;
                   2%nat := {| domNode := None; model := None;
                               contentHeight := 0%float; disposed := false |} ;
                   3%nat := {| domNode := Some 7%nat; model := None;
                               contentHeight := 56.5%float; disposed := false |} ]};
     timers := []; next_timer := 0%nat; clock := 0; themes := ∅; trace := [] |}.

(** A small content: [{"a": 1, "b": [1, 2, 3]}]. *)
Definition sample_content : JsValue :=
  JsObject [(utf16 "a", JsNumber 1%float);
            (utf16 "b", JsArray [JsNumber 1%float; JsNumber 2%float; JsNumber 3%float])].

(** [n] calls of [c] in a row. *)
Fixpoint repeat_call (n : nat) (c : M unit) (w : World) : World :=
  match n with
  | O => w
  | S k => repeat_call k c (snd (c w))
  end.

End Statements.

(* ===================================================================== *)
(** * What JSON keeps of a value, and the shape of its text               *)
(* ===================================================================== *)

Module Rendering.
Import Str Number Host JSON.
Local Open Scope N_scope.

(** The values [JSON.stringify] answers [undefined] for: they give no
    text of their own, no member in an object, and [null] in an array. *)
Definition omitted (v : JsValue) : bool :=
  match v with
  | JsUndefined | JsSymbol | JsFunction => true
  | _ => false
  end.

(** What is left of a value in its JSON text: a Number that is not
    finite is null, an omitted element of an array is null, and a
    property with an omitted value is gone. *)
Fixpoint json_image (v : JsValue) : JsValue :=
  match v with
  | JsNumber x => if is_finite x then JsNumber x else JsNull
  | JsArray items =>
      JsArray (map (fun x => if omitted x then JsNull else json_image x) items)
  | JsObject props =>
      JsObject (flat_map (fun p => if omitted (snd p) then []
                                   else [(fst p, json_image (snd p))]) props)
  | _ => v
  end.

(** The first value, in the order of the elements and of the properties,
    that cannot be serialized, with what it throws. *)
Fixpoint first_throw (v : JsValue) : option JsError :=
  match v with
  | JsBigInt _ => Some (TypeError "Do not know how to serialize a BigInt")
  | JsCircular => Some (TypeError "Converting circular structure to JSON")
  | JsThrowing e => Some e
  | JsArray items =>
      fold_right (fun x later => match first_throw x with
                                 | Some e => Some e
                                 | None => later
                                 end) None items
  | JsObject props =>
      fold_right (fun p later => match first_throw (snd p) with
                                 | Some e => Some e
                                 | None => later
                                 end) None props
  | _ => None
  end.

(** A value as the language has it: every String a sequence of code
    units, every object with its keys in the order it lists them. *)
Fixpoint well_formed (v : JsValue) : bool :=
  match v with
  | JsStr s => forallb is_code_unit s
  | JsArray items => forallb well_formed items
  | JsObject props =>
      keys_ok (map fst props)
      && forallb (fun p => forallb is_code_unit (fst p) && well_formed (snd p)) props
  | _ => true
  end.

(** The line feeds of a text; the text has one line more. *)
Definition line_feeds (t : JsString) : nat := length (List.filter (N.eqb 10) t).

(** A text without control characters. *)
Definition plain (t : JsString) : bool := forallb (fun c => 32 <=? c) t.

(** A text of characters below U+0080. *)
Definition basic (t : JsString) : bool := forallb (fun c => c <? 128) t.

(** The lines a value takes with a gap: one for a value that is not a
    container or is an empty one, and for the others an opening and a
    closing line around the lines of the elements or of the members that
    are kept. *)
Fixpoint json_lines (v : JsValue) : nat :=
  match v with
  | JsArray items =>
      match items with
      | [] => 1
      | _ => 2 + list_sum (map json_lines items)
      end
  | JsObject props =>
      if forallb (fun p => omitted (snd p)) props then 1%nat
      else (2 + list_sum (map (fun p => if omitted (snd p) then 0 else json_lines (snd p))
                            props))%nat
  | _ => 1
  end.

(** A content that JSON cannot hold as it is. *)
Definition mixed_content : JsValue :=
  JsObject [(utf16 "a", JsNumber nan);
            (utf16 "f", JsFunction);
            (utf16 "l", JsArray [JsUndefined; JsNumber (-0)%float])].

End Rendering.

(* ===================================================================== *)
(** * Heights, elements and timers along a schedule                       *)
(* ===================================================================== *)

Module Sizing.
Import Str Number Host JSON Component Loop.

(** The Number value of a count of lines. *)
Definition count (n : nat) : number := of_uint63 (Uint63.of_Z (Z.of_nat n)).

(** The call left the height of [el] as the string [v]. *)
Definition sized (el : elem_ref) (v : string) (r : completion unit * World) : Prop :=
  fst r = Normal tt /\ elements (snd r) !! el = Some {| style_height := v |}.

(** No editor has the element as its DOM node, and no queued timer has
    captured it. *)
Definition unsized (el : elem_ref) (w : World) : Prop :=
  map_Forall (fun _ e => domNode e <> Some el) (editors w) /\
  Forall (fun t => match timer_callback t with
                   | ResizeCallback _ el' => el' <> el
                   end) (timers w).

Definition is_assignment (ev : Event) : bool :=
  match ev with
  | EvSetStyleHeight _ _ => true
  | _ => false
  end.

Definition is_timeout (ev : Event) : bool :=
  match ev with
  | EvSetTimeout _ _ => true
  | _ => false
  end.

(** How many heights were assigned, and how many timers were set. *)
Definition assignments (tr : list Event) : nat := length (List.filter is_assignment tr).
Definition timeouts (tr : list Event) : nat := length (List.filter is_timeout tr).

(** A turn that is not a mount callback of the line-count revision. *)
Definition measured_turn (t : Turn) : bool :=
  match t with
  | CallOnMountLineCount _ _ => false
  | _ => true
  end.

(** From [w] to [w'] no more heights were assigned than timers left the
    queue or were set. *)
Definition balance (w w' : World) : Prop :=
  (assignments (trace w') + length (timers w') + timeouts (trace w)
   <= assignments (trace w) + length (timers w) + timeouts (trace w'))%nat.

(** A world with one editor on the element 7, its model of [L] lines. *)
Definition world_of_lines (L : number) : World :=
  {| elements := {[ 7%nat := {| style_height := EmptyString |} ]};
     editors := {[ 1%nat := {| domNode := Some 7%nat;
                               model := Some {| lineCount := L |};
                               contentHeight := 0%float;
                               disposed := false |} ]};
     timers := []; next_timer := 0%nat; clock := 0; themes := ∅; trace := [] |}.

End Sizing.

(* ===================================================================== *)
(** * The script that installs the build tools                            *)
(* ===================================================================== *)

(** The shell script that comes before the component in its file: three
    installers and a check for Python, each reporting in color, and a
    summary.  The script has no [set -e]; a function goes on after a
    command that fails. *)
Module Shell.
Local Open Scope string_scope.

(** The commands of the script whose outcome is the machine's, each
    named after its source line.  How such a command behaves (what it
    prints, how it exits, what it leaves on the machine) is not the
    script's: it is the [exec] of the section below, which is given the
    command and the shell's variables, from which the words [$PB_REL],
    [$HOME] and the search [PATH] come. *)
Inductive Command :=
| apt_get_update
    (* sudo apt-get update *)
| apt_get_install_cmake
    (* sudo apt-get install -y cmake > /dev/null 2>&1 *)
| cmake_version
    (* $(cmake --version) *)
| command_v_python3
    (* command -v python3 &> /dev/null *)
| ln_s_python3_python
    (* sudo ln -s /usr/bin/python3 /usr/bin/python *)
| curl_protoc_zip
    (* curl -LO $PB_REL/download/v3.15.8/protoc-3.15.8-linux-x86_64.zip > /dev/null 2>&1 *)
| unzip_protoc_zip
    (* unzip protoc-3.15.8-linux-x86_64.zip -d $HOME/.local > /dev/null 2>&1 *)
| protoc_version
    (* $(protoc --version) *)
| rm_protoc_zip
    (* rm -f protoc-3.15.8-linux-x86_64.zip *)
| rustup_toolchain_install_nightly
    (* rustup toolchain install nightly > /dev/null 2>&1 *)
| rustup_component_add_rustfmt
    (* rustup component add rustfmt --toolchain nightly > /dev/null 2>&1 *)
| rustup_toolchain_list
    (* $(rustup toolchain list) *)
| rustup_component_list_grep_rustfmt.
    (* $(rustup component list --toolchain nightly | grep rustfmt) *)

(** What a finished command leaves to the shell. *)
Record Outcome := { stdout : string; status : nat }.

(** The variables of the script; the three flags hold [true] or [false],
    the names of the commands the last test runs. *)
Record Vars := {
  SUCCESS_COLOR : string;
  ERROR_COLOR : string;
  RESET_COLOR : string;
  cmakeInstalled : bool;
  protocInstalled : bool;
  rustupToolchainNightlyInstalled : bool;
  PB_REL : string;
  PATH : string;
  HOME : string
}.

(** What the script does that can be seen: a line written by [echo]
    (with [-e] or without), and a command run, with what it answered. *)
Inductive Action :=
| Echo (escapes : bool) (line : string)
| Ran (c : Command) (answer : Outcome).

(** [[ text =~ "literal" ]]: the quoted pattern matches as a string,
    anywhere in the text. *)
Fixpoint contains (literal text : string) : bool :=
  String.prefix literal text
  || match text with
     | EmptyString => false
     | String _ rest => contains literal rest
     end.

Definition newline : ascii := ascii_of_nat 10.

(** Command substitution drops the trailing newlines of the output. *)
Fixpoint strip_newlines (s : string) : string :=
  match s with
  | EmptyString => EmptyString
  | String c rest =>
      match strip_newlines rest with
      | EmptyString => if Ascii.eqb c newline then EmptyString else String c EmptyString
      | r => String c r
      end
  end.

(** The state of a run: the variables, the machine the commands act on,
    and what was done so far. *)
Record State (Machine : Type) := {
  vars : Vars;
  machine : Machine;
  actions : list Action
}.
Arguments vars {Machine} s.
Arguments machine {Machine} s.
Arguments actions {Machine} s.

Section Machine.

Variable Machine : Type.
Variable exec : Command -> Vars -> Machine -> Outcome * Machine.

Definition Sh (A : Type) : Type := State Machine -> A * State Machine.

Definition ret {A} (a : A) : Sh A := fun s => (a, s).

Definition bind {A B} (c : Sh A) (k : A -> Sh B) : Sh B :=
  fun s => let '(a, s') := c s in k a s'.

Notation "'let*' x := c 'in' k" := (bind c (fun x => k))
  (at level 10, x name, c at level 100, k at level 200, only parsing).
Notation "'do' c 'then' k" := (bind c (fun _ => k))
  (at level 10, c at level 100, k at level 200, only parsing).

Definition get : Sh Vars := fun s => (vars s, s).

Definition assign (f : Vars -> Vars) : Sh unit :=
  fun s => (tt, {| vars := f (vars s); machine := machine s; actions := actions s |}).

Definition act (a : Action) : Sh unit :=
  fun s => (tt, {| vars := vars s; machine := machine s; actions := actions s ++ [a] |}).

(** [echo -e "..."] and [echo "..."] *)
Definition echo_e (line : string) : Sh unit := act (Echo true line).
Definition echo (line : string) : Sh unit := act (Echo false line).

(** A command of the machine, run to its end. *)
Definition run (c : Command) : Sh Outcome :=
  fun s =>
    let '(o, m) := exec c (vars s) (machine s) in
    (o, {| vars := vars s; machine := m; actions := actions s ++ [Ran c o] |}).

(** ["$(command)"] *)
Definition substitute (c : Command) : Sh string :=
  let* o := run c in
  ret (strip_newlines (stdout o)).

(** ["${SUCCESS_COLOR}...${RESET_COLOR}"] and ["${ERROR_COLOR}...${RESET_COLOR}"] *)
Definition success (v : Vars) (text : string) : string :=
  SUCCESS_COLOR v ++ text ++ RESET_COLOR v.
Definition error (v : Vars) (text : string) : string :=
  ERROR_COLOR v ++ text ++ RESET_COLOR v.

Definition set_cmakeInstalled (b : bool) (v : Vars) : Vars :=
  {| SUCCESS_COLOR := SUCCESS_COLOR v; ERROR_COLOR := ERROR_COLOR v;
     RESET_COLOR := RESET_COLOR v;
     cmakeInstalled := b; protocInstalled := protocInstalled v;
     rustupToolchainNightlyInstalled := rustupToolchainNightlyInstalled v;
     PB_REL := PB_REL v; PATH := PATH v; HOME := HOME v |}.

Definition set_protocInstalled (b : bool) (v : Vars) : Vars :=
  {| SUCCESS_COLOR := SUCCESS_COLOR v; ERROR_COLOR := ERROR_COLOR v;
     RESET_COLOR := RESET_COLOR v;
     cmakeInstalled := cmakeInstalled v; protocInstalled := b;
     rustupToolchainNightlyInstalled := rustupToolchainNightlyInstalled v;
     PB_REL := PB_REL v; PATH := PATH v; HOME := HOME v |}.

Definition set_rustupToolchainNightlyInstalled (b : bool) (v : Vars) : Vars :=
  {| SUCCESS_COLOR := SUCCESS_COLOR v; ERROR_COLOR := ERROR_COLOR v;
     RESET_COLOR := RESET_COLOR v;
     cmakeInstalled := cmakeInstalled v; protocInstalled := protocInstalled v;
     rustupToolchainNightlyInstalled := b;
     PB_REL := PB_REL v; PATH := PATH v; HOME := HOME v |}.

Definition set_PB_REL (x : string) (v : Vars) : Vars :=
  {| SUCCESS_COLOR := SUCCESS_COLOR v; ERROR_COLOR := ERROR_COLOR v;
     RESET_COLOR := RESET_COLOR v;
     cmakeInstalled := cmakeInstalled v; protocInstalled := protocInstalled v;
     rustupToolchainNightlyInstalled := rustupToolchainNightlyInstalled v;
     PB_REL := x; PATH := PATH v; HOME := HOME v |}.

Definition set_PATH (x : string) (v : Vars) : Vars :=
  {| SUCCESS_COLOR := SUCCESS_COLOR v; ERROR_COLOR := ERROR_COLOR v;
     RESET_COLOR := RESET_COLOR v;
     cmakeInstalled := cmakeInstalled v; protocInstalled := protocInstalled v;
     rustupToolchainNightlyInstalled := rustupToolchainNightlyInstalled v;
     PB_REL := PB_REL v; PATH := x; HOME := HOME v |}.

(** The first lines of the script: the color codes and the flags. *)
Definition initialize (v : Vars) : Vars :=
  {| SUCCESS_COLOR := "\e[32m"; ERROR_COLOR := "\e[31m"; RESET_COLOR := "\e[0m";
     cmakeInstalled := false; protocInstalled := false;
     rustupToolchainNightlyInstalled := false;
     PB_REL := PB_REL v; PATH := PATH v; HOME := HOME v |}.

Definition install_cmake : Sh unit :=
  do echo_e "Installing CMake..." then
  let* _ := run apt_get_update in
  let* _ := run apt_get_install_cmake in
  let* version := substitute cmake_version in
  let* v := get in
  if contains "cmake version" version then
    do echo_e (success v "CMake installed successfully.") then
    assign (set_cmakeInstalled true)
  else
    echo_e (error v "CMake installation failed. Please install it manually.").

Definition configure_python_environment : Sh unit :=
  let* found := run command_v_python3 in
  let* v := get in
  if Nat.eqb (status found) 0 then
    do echo_e (success v "Python 3 is installed") then
    let* _ := run ln_s_python3_python in
    ret tt
  else
    echo_e (error v "Python 3 is not installed. Please install it manually.").

Definition install_protoc : Sh unit :=
  do echo_e "Installing protoc..." then
  do assign (set_PB_REL "https://github.com/protocolbuffers/protobuf/releases") then
  let* _ := run curl_protoc_zip in
  let* _ := run unzip_protoc_zip in
  do assign (fun v => set_PATH (PATH v ++ ":" ++ HOME v ++ "/.local/bin") v) then
  let* version := substitute protoc_version in
  let* v := get in
  do (if contains "libprotoc 3.15.8" version then
        do echo_e (success v "protoc installed successfully.") then
        assign (set_protocInstalled true)
      else
        echo_e (error v "protoc installation failed. Please install it manually.")) then
  let* _ := run rm_protoc_zip in
  ret tt.

Definition install_rustup_toolchain_nightly : Sh unit :=
  do echo_e "Installing Rustup nightly toolchain..." then
  let* _ := run rustup_toolchain_install_nightly in
  let* _ := run rustup_component_add_rustfmt in
  let* toolchains := substitute rustup_toolchain_list in
  let* both :=
    if contains "nightly" toolchains then
      let* components := substitute rustup_component_list_grep_rustfmt in
      ret (contains "installed" components)
    else ret false in
  let* v := get in
  if both then
    do echo_e (success v "Rustup nightly toolchain and rustfmt installed successfully.") then
    assign (set_rustupToolchainNightlyInstalled true)
  else
    echo_e (error v "Rustup nightly toolchain and/or rustfmt installation failed. Please install them manually.").

(** The lines after the success message. *)
Definition useful_commands : list string :=
  [ "Useful commands:";
    "  - make test-all: Starts necessary Docker services and runs all tests.";
    "  - make -k test-all docker-compose-down: The same as above, but tears down the Docker services after running all the tests.";
    "  - make fmt: Runs formatter (requires the nightly toolchain to be installed by running rustup toolchain install nightly).";
    "  - make fix: Runs formatter and clippy checks.";
    "  - make typos: Runs the spellcheck tool over the codebase (install by running cargo install typos).";
    "  - make build-docs: Builds docs.";
    "  - make docker-compose-up: Starts Docker services.";
    "  - make docker-compose-down: Stops Docker services.";
    "  - make docker-compose-logs: Shows Docker logs." ].

Fixpoint echo_all (lines : list string) : Sh unit :=
  match lines with
  | [] => ret tt
  | l :: rest => do echo l then echo_all rest
  end.

(** The script, from its first line to its last. *)
Definition script : Sh unit :=
  do assign initialize then
  do install_cmake then
  do configure_python_environment then
  do install_protoc then
  do install_rustup_toolchain_nightly then
  let* v := get in
  if cmakeInstalled v && protocInstalled v && rustupToolchainNightlyInstalled v then
    do echo_e (success v "All tools installed successfully.") then
    echo_all useful_commands
  else
    echo_e (error v "One or more tools failed to install. Please check the output for errors and install the failed tools manually.").

End Machine.
End Shell.

(** ** What a run shows *)

(** ** What a run shows *)

Module Transcript.
Import Shell.

#[global] Instance Command_eq_dec : EqDecision Command.
Proof. solve_decision. Defined.

(** The commands run, in order. *)
Definition commands (l : list Action) : list Command :=
  flat_map (fun a => match a with Ran c _ => [c] | Echo _ _ => [] end) l.

(** What the command answered, the first time it was run. *)
Fixpoint answer_to (c : Command) (l : list Action) : option Outcome :=
  match l with
  | [] => None
  | Ran c' o :: rest => if bool_decide (c' = c) then Some o else answer_to c rest
  | Echo _ _ :: rest => answer_to c rest
  end.

(** What a command substitution gave for the command; nothing if the
    command was not run. *)
Definition heard (c : Command) (l : list Action) : string :=
  match answer_to c l with
  | Some o => strip_newlines (stdout o)
  | None => EmptyString
  end.

(** Whether the command was run and succeeded. *)
Definition succeeded (c : Command) (l : list Action) : bool :=
  match answer_to c l with
  | Some o => Nat.eqb (status o) 0
  | None => false
  end.

(** Whether [echo -e] wrote the line. *)
Definition said (line : string) (l : list Action) : bool :=
  existsb (fun a => match a with
                    | Echo true t => String.eqb t line
                    | _ => false
                    end) l.

(** How many times [echo -e] wrote the line. *)
Definition times (line : string) (l : list Action) : nat :=
  length (List.filter (fun a => match a with
                                | Echo true t => String.eqb t line
                                | _ => false
                                end) l).

(** A line in the color of success, and one in the color of failure. *)
Definition green (text : string) : string := "\e[32m" ++ text ++ "\e[0m".
Definition red (text : string) : string := "\e[31m" ++ text ++ "\e[0m".

(** The variables hold the color codes the script starts with. *)
Definition colored (v : Vars) : Prop :=
  SUCCESS_COLOR v = "\e[32m" /\ ERROR_COLOR v = "\e[31m" /\ RESET_COLOR v = "\e[0m".

(** The four tests, on what the commands answered. *)
Definition cmake_ok (version : Outcome) : bool :=
  contains "cmake version" (strip_newlines (stdout version)).
Definition python_ok (found : Outcome) : bool := Nat.eqb (status found) 0.
Definition protoc_ok (version : Outcome) : bool :=
  contains "libprotoc 3.15.8" (strip_newlines (stdout version)).
Definition nightly_ok (toolchains : Outcome) : bool :=
  contains "nightly" (strip_newlines (stdout toolchains)).
Definition rustfmt_ok (components : Outcome) : bool :=
  contains "installed" (strip_newlines (stdout components)).

(** What each part of the script does, from what its commands answer. *)
Definition cmake_part (update install version : Outcome) : list Action :=
  [ Echo true "Installing CMake..."; Ran apt_get_update update;
    Ran apt_get_install_cmake install; Ran cmake_version version;
    Echo true (if cmake_ok version then green "CMake installed successfully."
               else red "CMake installation failed. Please install it manually.") ].

Definition python_part (found link : Outcome) : list Action :=
  Ran command_v_python3 found ::
  (if python_ok found
   then [ Echo true (green "Python 3 is installed"); Ran ln_s_python3_python link ]
   else [ Echo true (red "Python 3 is not installed. Please install it manually.") ]).

Definition protoc_part (curl unzip version rm : Outcome) : list Action :=
  [ Echo true "Installing protoc..."; Ran curl_protoc_zip curl; Ran unzip_protoc_zip unzip;
    Ran protoc_version version;
    Echo true (if protoc_ok version then green "protoc installed successfully."
               else red "protoc installation failed. Please install it manually.");
    Ran rm_protoc_zip rm ].

Definition rustup_part (install add toolchains components : Outcome) : list Action :=
  [ Echo true "Installing Rustup nightly toolchain...";
    Ran rustup_toolchain_install_nightly install; Ran rustup_component_add_rustfmt add;
    Ran rustup_toolchain_list toolchains ]
  ++ (if nightly_ok toolchains
      then [ Ran rustup_component_list_grep_rustfmt components ] else [])
  ++ [ Echo true (if nightly_ok toolchains && rustfmt_ok components
                  then green "Rustup nightly toolchain and rustfmt installed successfully."
                  else red "Rustup nightly toolchain and/or rustfmt installation failed. Please install them manually.") ].

Definition summary_part (all : bool) : list Action :=
  if all
  then Echo true (green "All tools installed successfully.") :: map (Echo false) useful_commands
  else [ Echo true (red "One or more tools failed to install. Please check the output for errors and install the failed tools manually.") ].

(** What the commands of a run answered, in the order of the script; the
    link and the components are answered only if they are asked for. *)
Record Answers := {
  a_update : Outcome; a_install_cmake : Outcome; a_cmake : Outcome;
  a_python : Outcome; a_link : Outcome;
  a_curl : Outcome; a_unzip : Outcome; a_protoc : Outcome; a_rm : Outcome;
  a_install_nightly : Outcome; a_add_rustfmt : Outcome;
  a_toolchains : Outcome; a_components : Outcome
}.

(** Everything the script does, from what its commands answer. *)
Definition transcript (a : Answers) : list Action :=
  cmake_part (a_update a) (a_install_cmake a) (a_cmake a)
  ++ python_part (a_python a) (a_link a)
  ++ protoc_part (a_curl a) (a_unzip a) (a_protoc a) (a_rm a)
  ++ rustup_part (a_install_nightly a) (a_add_rustfmt a) (a_toolchains a) (a_components a)
  ++ summary_part (cmake_ok (a_cmake a) && protoc_ok (a_protoc a)
                   && (nightly_ok (a_toolchains a) && rustfmt_ok (a_components a))).

(** The state after a part of the script: the actions it adds, and the
    variables it leaves. *)
Definition leaves {Machine : Type} (s s' : State Machine) (new : list Action)
    (cmake protoc rustup : bool) : Prop :=
  actions s' = (actions s ++ new)%list /\
  colored (vars s') /\
  cmakeInstalled (vars s') = cmake /\
  protocInstalled (vars s') = protoc /\
  rustupToolchainNightlyInstalled (vars s') = rustup.

(** A machine that has cmake, protoc and a nightly toolchain with
    rustfmt, and no python3; it has no state of its own. *)
Definition answers (c : Command) (_ : Vars) (m : unit) : Outcome * unit :=
  (match c with
   | cmake_version =>
       {| stdout := "cmake version 3.18.4" ++ String newline EmptyString; status := 0 |}
   | protoc_version =>
       {| stdout := "libprotoc 3.15.8" ++ String newline EmptyString; status := 0 |}
   | rustup_toolchain_list =>
       {| stdout := "stable-x86_64-unknown-linux-gnu (default)" ++ String newline
                      ("nightly-x86_64-unknown-linux-gnu" ++ String newline EmptyString);
          status := 0 |}
   | rustup_component_list_grep_rustfmt =>
       {| stdout := "rustfmt-x86_64-unknown-linux-gnu (installed)"
                      ++ String newline EmptyString;
          status := 0 |}
   | command_v_python3 => {| stdout := EmptyString; status := 1 |}
   | _ => {| stdout := EmptyString; status := 0 |}
   end, m).

(** A machine that also keeps, for each command it is given, the
    variables it is given with. *)
Definition logged {Machine : Type} (exec : Command -> Vars -> Machine -> Outcome * Machine)
    (c : Command) (v : Vars) (m : Machine * list (Command * Vars))
    : Outcome * (Machine * list (Command * Vars)) :=
  let '(o, m') := exec c v (fst m) in
  (o, (m', (snd m ++ [(c, v)])%list)).

(** The commands the script runs after [PB_REL=...] (line 40) and after
    [export PATH=...] (line 43). *)
Definition after_line_40 (c : Command) : bool :=
  match c with
  | apt_get_update | apt_get_install_cmake | cmake_version
  | command_v_python3 | ln_s_python3_python => false
  | _ => true
  end.

Definition after_line_43 (c : Command) : bool :=
  match c with
  | apt_get_update | apt_get_install_cmake | cmake_version
  | command_v_python3 | ln_s_python3_python
  | curl_protoc_zip | unzip_protoc_zip => false
  | _ => true
  end.

(** The words of the environment a command of the script reads. *)
Definition env (v : Vars) : string * string * string := (PB_REL v, PATH v, HOME v).

(** The environment of a command of the script started with [v0]. *)
Definition env_at (v0 : Vars) (c : Command) : string * string * string :=
  (if after_line_40 c then "https://github.com/protocolbuffers/protobuf/releases"
   else PB_REL v0,
   if after_line_43 c then (PATH v0 ++ ":" ++ HOME v0 ++ "/.local/bin")%string else PATH v0,
   HOME v0).


(** What a part of the script adds to the log and to the actions: the
    commands logged are the commands run, each with the environment of
    its place in the script. *)
Definition follows {Machine : Type} (v0 : Vars)
    (s s' : State (Machine * list (Command * Vars))) : Prop :=
  exists (new_log : list (Command * Vars)) (new : list Action),
    snd (machine s') = (snd (machine s) ++ new_log)%list /\
    actions s' = (actions s ++ new)%list /\
    map (fun p => (fst p, env (snd p))) new_log
    = map (fun c => (c, env_at v0 c)) (commands new).

End Transcript.

(* ===================================================================== *)
(** * Properties                                                          *)
(* ===================================================================== *)

Import Str Number Host JSON Component Loop Statements.

(** ** Binary digits *)

Lemma digits2_bounds (p : positive) :
  2 ^ (Zpos (digits2_pos p) - 1) <= Zpos p < 2 ^ Zpos (digits2_pos p).
Proof.
  induction p as [p IH|p IH|]; simpl digits2_pos.
  - rewrite Pos2Z.inj_succ.
    replace (Z.succ (Zpos (digits2_pos p)) - 1) with (Z.succ (Zpos (digits2_pos p) - 1)) by lia.
    rewrite !Z.pow_succ_r by lia. lia.
  - rewrite Pos2Z.inj_succ.
    replace (Z.succ (Zpos (digits2_pos p)) - 1) with (Z.succ (Zpos (digits2_pos p) - 1)) by lia.
    rewrite !Z.pow_succ_r by lia. lia.
  - simpl. lia.
Qed.

Lemma digits2_unique (p : positive) (d : Z) :
  2 ^ (d - 1) <= Zpos p < 2 ^ d -> 0 < d -> Zpos (digits2_pos p) = d.
Proof.
  intros [Hlo Hhi] Hd. pose proof (digits2_bounds p) as [Blo Bhi].
  set (k := Zpos (digits2_pos p)) in *.
  assert (0 < k) by (subst k; lia).
  destruct (Z.lt_trichotomy k d) as [Hlt|[Heq|Hgt]]; [|exact Heq|].
  - assert (2 ^ k <= 2 ^ (d - 1)) by (apply Z.pow_le_mono_r; lia). lia.
  - assert (2 ^ d <= 2 ^ (k - 1)) by (apply Z.pow_le_mono_r; lia). lia.
Qed.

Lemma digits2_shift (m : positive) (j : Z) (q : positive) :
  0 <= j -> Zpos q = Zpos m * 2 ^ j ->
  Zpos (digits2_pos q) = Zpos (digits2_pos m) + j.
Proof.
  intros Hj Hq. apply digits2_unique; [|lia].
  pose proof (digits2_bounds m) as [Blo Bhi].
  rewrite Hq.
  replace (Zpos (digits2_pos m) + j - 1) with ((Zpos (digits2_pos m) - 1) + j) by lia.
  rewrite !Z.pow_add_r by lia.
  assert (0 < 2 ^ j) by (apply Z.pow_pos_nonneg; lia).
  split; nia.
Qed.

(** ** Rounding an exactly representable value *)


Lemma iter_pos_shr_1_exact (j : positive) :
  forall m q : positive,
    Zpos q = Zpos m * 2 ^ Zpos j ->
    SpecFloat.iter_pos shr_1 j (exact_record (Zpos q)) = exact_record (Zpos m).
Proof.
  induction j as [j IH|j IH|]; intros m q Hq.
  - (* 2j+1 *)
    assert (Hp : 0 < 2 ^ Zpos j) by (apply Z.pow_pos_nonneg; lia).
    replace (Zpos j~1) with (Zpos j + Zpos j + 1) in Hq by lia.
    rewrite !Z.pow_add_r in Hq by lia. change (2 ^ 1) with 2 in Hq.
    simpl SpecFloat.iter_pos.
    destruct q as [q|q|]; try lia.
    change (shr_1 (exact_record (Zpos q~0))) with (exact_record (Zpos q)).
    rewrite (IH (Z.to_pos (Zpos m * 2 ^ Zpos j)) q).
    + apply IH. rewrite Z2Pos.id by nia. reflexivity.
    + rewrite Z2Pos.id by nia. nia.
  - assert (Hp : 0 < 2 ^ Zpos j) by (apply Z.pow_pos_nonneg; lia).
    replace (Zpos j~0) with (Zpos j + Zpos j) in Hq by lia.
    rewrite Z.pow_add_r in Hq by lia.
    simpl SpecFloat.iter_pos.
    rewrite (IH (Z.to_pos (Zpos m * 2 ^ Zpos j)) q).
    + apply IH. rewrite Z2Pos.id by nia. reflexivity.
    + rewrite Z2Pos.id by nia. nia.
  - change (2 ^ 1) with 2 in Hq. simpl SpecFloat.iter_pos.
    destruct q as [q|q|]; try lia.
    replace q with m by lia. reflexivity.
Qed.

Lemma bounded_canonical (m : positive) (e : Z) :
  bounded prec emax m e = true ->
  fexp prec emax (Zpos (digits2_pos m) + e) = e /\ e <= emax - prec.
Proof.
  unfold bounded, canonical_mantissa. intros H.
  apply andb_true_iff in H as [H1 H2].
  apply Z.eqb_eq in H1. apply Z.leb_le in H2. split; assumption.
Qed.

Lemma binary_round_aux_exact (m q : positive) (e j : Z) :
  bounded prec emax m e = true ->
  0 <= j ->
  Zpos q = Zpos m * 2 ^ j ->
  binary_round_aux prec emax false (Zpos q) (e - j) loc_Exact = S754_finite false m e.
Proof.
  intros Hb Hj Hq. destruct (bounded_canonical m e Hb) as [Hc He].
  pose proof (digits2_shift m j q Hj Hq) as Hd.
  unfold binary_round_aux.
  assert (H1 : shr_fexp prec emax (Zpos q) (e - j) loc_Exact = (exact_record (Zpos m), e)).
  { unfold shr_fexp. simpl Zdigits2. rewrite Hd.
    replace (Zpos (digits2_pos m) + j + (e - j)) with (Zpos (digits2_pos m) + e) by lia.
    rewrite Hc. replace (e - (e - j)) with j by lia.
    change (shr_record_of_loc (Zpos q) loc_Exact) with (exact_record (Zpos q)).
    unfold shr. destruct j as [|p|p]; try lia.
    - rewrite Z.sub_0_r. f_equal. f_equal. simpl in Hq. lia.
    - rewrite (iter_pos_shr_1_exact p m q Hq). f_equal. lia. }
  rewrite H1.
  change (round_nearest_even (shr_m (exact_record (Zpos m)))
            (loc_of_shr_record (exact_record (Zpos m)))) with (Zpos m).
  assert (H2 : shr_fexp prec emax (Zpos m) e loc_Exact = (exact_record (Zpos m), e)).
  { unfold shr_fexp. simpl Zdigits2. rewrite Hc. rewrite Z.sub_diag. reflexivity. }
  rewrite H2. simpl shr_m.
  apply Z.leb_le in He. rewrite He. reflexivity.
Qed.

Lemma new_location_exact (n : Z) : new_location n 0 = loc_Exact.
Proof.
  unfold new_location, new_location_even, new_location_odd.
  destruct (Z.even n); reflexivity.
Qed.

(** The quotient of two integers whose value is the binary64 [m * 2^e]
    rounds to that binary64. *)
Lemma SFdiv_exact (P Q' m : positive) (e : Z) :
  bounded prec emax m e = true ->
  Zpos P * 2 ^ Z.max (- e) 0 = Zpos m * 2 ^ Z.max e 0 * Zpos Q' ->
  SFdiv prec emax (S754_finite false P 0) (S754_finite false Q' 0) = S754_finite false m e.
Proof.
  intros Hb Heq. destruct (bounded_canonical m e Hb) as [Hc He].
  unfold SFdiv, SFdiv_core_binary. simpl xorb. simpl Zdigits2.
  set (d1 := Zpos (digits2_pos P)). set (d2 := Zpos (digits2_pos Q')).
  set (e' := Z.min (fexp prec emax (d1 + 0 - (d2 + 0))) (0 - 0)).
  assert (He'0 : e' <= 0) by (subst e'; lia).
  assert (He'e : e' <= e).
  { destruct (Z.le_gt_cases 0 e) as [|Hneg]; [lia|].
    assert (Hfe : fexp prec emax (d1 + 0 - (d2 + 0)) <= e); [|subst e'; lia].
    unfold fexp in *. unfold SpecFloat.emin in *.
    change prec with 53 in *. change emax with 1024 in *.
    rewrite Z.max_l in Heq by lia. rewrite Z.max_r in Heq by lia.
    rewrite Z.mul_1_r in Heq.
    pose proof (digits2_bounds P) as [P1 P2]. fold d1 in P1, P2.
    pose proof (digits2_bounds Q') as [Q1 Q2]. fold d2 in Q1, Q2.
    pose proof (digits2_bounds m) as [M1 M2].
    set (dm := Zpos (digits2_pos m)) in *.
    assert (Hd : d1 - d2 <= dm + e).
    { destruct (Z.le_gt_cases (d1 - d2) (dm + e)) as [|Hgt]; [assumption|exfalso].
      assert (0 < d1) by (subst d1; lia). assert (0 < d2) by (subst d2; lia).
      assert (0 < dm) by (subst dm; lia).
      assert (Hpow : 2 ^ (dm + d2) <= 2 ^ (d1 - 1 + - e))
        by (apply Z.pow_le_mono_r; lia).
      rewrite !Z.pow_add_r in Hpow by lia.
      assert (0 < 2 ^ (- e)) by (apply Z.pow_pos_nonneg; lia).
      assert (0 < 2 ^ (d1 - 1)) by (apply Z.pow_pos_nonneg; lia).
      assert (0 < 2 ^ d2) by (apply Z.pow_pos_nonneg; lia).
      assert (0 < 2 ^ dm) by (apply Z.pow_pos_nonneg; lia).
      assert (Zpos m * Zpos Q' < 2 ^ dm * 2 ^ d2) by nia.
      assert (2 ^ (d1 - 1) * 2 ^ (- e) <= Zpos P * 2 ^ (- e)) by nia.
      lia. }
    lia. }
  replace (0 - 0 - e') with (- e') by lia.
  set (j := e - e').
  assert (Hm' : match - e' with
                | Zpos _ => Z.shiftl (Zpos P) (- e')
                | Z0 => Zpos P
                | Zneg _ => 0
                end = (Zpos m * 2 ^ j) * Zpos Q').
  { assert (Hsh : Zpos P * 2 ^ (- e') = Zpos m * 2 ^ j * Zpos Q').
    { subst j. destruct (Z.le_gt_cases 0 e) as [Hpos|Hneg].
      - rewrite Z.max_r in Heq by lia. rewrite Z.max_l in Heq by lia.
        rewrite Z.mul_1_r in Heq. rewrite Heq.
        replace (e - e') with (e + - e') by lia.
        rewrite Z.pow_add_r by lia. ring.
      - rewrite Z.max_l in Heq by lia. rewrite Z.max_r in Heq by lia.
        rewrite Z.mul_1_r in Heq.
        replace (- e') with (- e + (e - e')) by lia.
        rewrite Z.pow_add_r by lia. rewrite Z.mul_assoc, Heq. ring. }
    destruct (- e') as [|p|p] eqn:E; try lia.
    rewrite Z.shiftl_mul_pow2 by lia. exact Hsh. }
  rewrite Hm'.
  assert (Hj : 0 <= j) by (subst j; lia).
  assert (Hpj : 0 < 2 ^ j) by (apply Z.pow_pos_nonneg; lia).
  assert (Hde : Z.div_eucl (Zpos m * 2 ^ j * Zpos Q') (Zpos Q') = (Zpos m * 2 ^ j, 0)).
  { pose proof (Z.div_eucl_eq (Zpos m * 2 ^ j * Zpos Q') (Zpos Q')) as Hd.
    pose proof (Z.mod_pos_bound (Zpos m * 2 ^ j * Zpos Q') (Zpos Q')) as Hb'.
    unfold Z.modulo in Hb'.
    destruct (Z.div_eucl (Zpos m * 2 ^ j * Zpos Q') (Zpos Q')) as [q r].
    specialize (Hd ltac:(lia)). specialize (Hb' ltac:(lia)).
    assert (q = Zpos m * 2 ^ j) by nia. subst q. f_equal. lia. }
  rewrite Hde. rewrite new_location_exact.
  replace e' with (e - j) by (subst j; lia).
  replace (Zpos m * 2 ^ j) with (Zpos (Z.to_pos (Zpos m * 2 ^ j)))
    by (rewrite Z2Pos.id by nia; reflexivity).
  apply binary_round_aux_exact; [assumption | assumption |].
  rewrite Z2Pos.id by nia. reflexivity.
Qed.

Lemma SF_same_eq (a b : spec_float) : SF_same a b = true -> a = b.
Proof.
  destruct a as [s1|s1| |s1 m1 e1], b as [s2|s2| |s2 m2 e2]; simpl; try discriminate;
    try reflexivity.
  - intros H. apply Bool.eqb_prop in H. congruence.
  - intros H. apply Bool.eqb_prop in H. congruence.
  - intros H. apply andb_true_iff in H as [H H3]. apply andb_true_iff in H as [H1 H2].
    apply Bool.eqb_prop in H1. apply Pos.eqb_eq in H2. apply Z.eqb_eq in H3. congruence.
Qed.

(** Any rational equal to the binary64 [m * 2^e] rounds to it. *)
Lemma round_Q_binary (m : positive) (e : Z) (q : Q) :
  bounded prec emax m e = true ->
  q == Q_of_binary m e ->
  round_Q q = S754_finite false m e.
Proof.
  intros Hb Hq. unfold round_Q.
  assert (Hr : Qred q == Q_of_binary m e) by (rewrite Qred_correct; exact Hq).
  destruct (Qred q) as [P Q']. simpl Qnum. simpl Qden.
  unfold Q_of_binary, Qeq in Hr. simpl Qnum in Hr. simpl Qden in Hr.
  destruct e as [|pe|pe].
  - cbn [Qnum Qden inject_Z] in Hr. change (2 ^ 0) with 1 in Hr.
    destruct P as [|P|P]; try lia.
    apply SFdiv_exact; [exact Hb|]. change (2 ^ Z.max (- 0) 0) with 1.
    change (2 ^ Z.max 0 0) with 1. lia.
  - cbn [Qnum Qden inject_Z] in Hr.
    assert (0 < 2 ^ Zpos pe) by (apply Z.pow_pos_nonneg; lia).
    destruct P as [|P|P]; try nia.
    apply SFdiv_exact; [exact Hb|].
    rewrite Z.max_r by lia. rewrite Z.max_l by lia.
    change (2 ^ 0) with 1. lia.
  - simpl Qnum in Hr. simpl Qden in Hr.
    rewrite Pos2Z.inj_pow in Hr.
    assert (0 < 2 ^ Zpos pe) by (apply Z.pow_pos_nonneg; lia).
    destruct P as [|P|P]; try nia.
    apply SFdiv_exact; [exact Hb|].
    change (- Zneg pe) with (Zpos pe).
    rewrite Z.max_l by lia. rewrite Z.max_r by lia.
    change (2 ^ 0) with 1. lia.
Qed.

Lemma round_Q_Qeq (p q : Q) : p == q -> round_Q p = round_Q q.
Proof.
  intros H. unfold round_Q. rewrite (Qred_complete p q H). reflexivity.
Qed.

(** ** The digits found by the search convert back *)

Lemma shortest_converts (fuel : nat) (x : spec_float) (v : Q) (n0 k : Z) (d : N * Z) :
  shortest fuel x v n0 k = Some d -> converts_to x d = true.
Proof.
  revert k. induction fuel as [|f IH]; intros k; simpl; [discriminate|].
  destruct (converts_to x (normal_decimal _ _)) eqn:Hlo;
    destruct (converts_to x (normal_decimal (_ + 1) _)) eqn:Hhi.
  - destruct (Qcompare _ _); [destruct (N.even _)| |]; intros H; injection H as <-; assumption.
  - intros H; injection H as <-; assumption.
  - intros H; injection H as <-; assumption.
  - apply IH.
Qed.

Lemma Q_of_decimal_strip_step (s : N) (t : Z) :
  (s mod 10 = 0)%N -> Q_of_decimal (s / 10) (t + 1) == Q_of_decimal s t.
Proof.
  intros Hmod.
  assert (Hs : Z.of_N s = 10 * Z.of_N (s / 10)).
  { pose proof (N.div_mod s 10 ltac:(lia)) as Hd. rewrite Hmod in Hd. lia. }
  unfold Q_of_decimal. destruct t as [|p|p].
  - change (0 + 1) with 1. unfold Qeq. cbn [Qnum Qden inject_Z].
    change (10 ^ 1) with 10. change (10 ^ 0) with 1. lia.
  - replace (Zpos p + 1) with (Zpos (p + 1)%positive) by lia.
    unfold Qeq. cbn [Qnum Qden inject_Z].
    replace (Zpos (p + 1)%positive) with (Zpos p + 1) by lia.
    rewrite Z.pow_add_r by lia. change (10 ^ 1) with 10. lia.
  - destruct (Pos.eq_dec p 1%positive) as [->|Hp].
    + change (Zneg 1 + 1) with 0. unfold Qeq. cbn [Qnum Qden inject_Z].
      change (10 ^ 0) with 1. change (Zpos (10 ^ 1)) with 10. lia.
    + replace (Zneg p + 1) with (Zneg (p - 1)%positive) by lia.
      unfold Qeq. cbn [Qnum Qden inject_Z].
      rewrite !Pos2Z.inj_pow.
      replace (Zpos p) with (Zpos (p - 1)%positive + 1) by lia.
      rewrite Z.pow_add_r by lia. change (10 ^ 1) with 10. lia.
Qed.

Lemma strip_zeros_value (fuel : nat) (s : N) (t : Z) :
  Q_of_decimal (fst (strip_zeros fuel s t)) (snd (strip_zeros fuel s t)) == Q_of_decimal s t.
Proof.
  revert s t. induction fuel as [|f IH]; intros s t; simpl; [reflexivity|].
  destruct (s =? 0)%N eqn:E0; simpl; [reflexivity|].
  destruct (s mod 10 =? 0)%N eqn:E1; simpl; [|reflexivity].
  rewrite IH. apply Q_of_decimal_strip_step. apply N.eqb_eq. exact E1.
Qed.

Lemma exact_decimal_value (m : positive) (e : Z) :
  Q_of_decimal (fst (exact_decimal m e)) (snd (exact_decimal m e)) == Q_of_binary m e.
Proof.
  unfold exact_decimal, normal_decimal. destruct e as [|p|p]; rewrite strip_zeros_value.
  - unfold Q_of_decimal, Q_of_binary, Qeq. cbn [Qnum Qden inject_Z Z.to_N].
    rewrite N2Z.inj_mul, N2Z.inj_pow. cbn [Z.of_N].
    change (10 ^ 0) with 1. lia.
  - unfold Q_of_decimal, Q_of_binary, Qeq. cbn [Qnum Qden inject_Z Z.to_N].
    rewrite N2Z.inj_mul, N2Z.inj_pow. cbn [Z.of_N].
    change (10 ^ 0) with 1. lia.
  - unfold Q_of_decimal, Q_of_binary, Qeq. cbn [Qnum Qden inject_Z].
    rewrite N2Z.inj_mul, N2Z.inj_pow. cbn [Z.of_N].
    rewrite !Pos2Z.inj_pow.
    replace 10 with (5 * 2) at 1 by lia. rewrite Z.pow_mul_l. ring.
Qed.

Lemma round_Q_zero_decimal (t : Z) : round_Q (Q_of_decimal 0 t) = S754_zero false.
Proof.
  unfold Q_of_decimal. destruct t; reflexivity.
Qed.

(** The decimal chosen for a binary64 converts to it, and is not zero. *)
Lemma decimal_of_converts (m : positive) (e : Z) :
  bounded prec emax m e = true ->
  round_Q (Q_of_decimal (fst (decimal_of m e)) (snd (decimal_of m e)))
  = S754_finite false m e.
Proof.
  intros Hb. unfold decimal_of.
  destruct (shortest 17 _ _ _ 1) as [d|] eqn:Hs.
  - apply shortest_converts in Hs. apply SF_same_eq. exact Hs.
  - apply round_Q_binary; [exact Hb | apply exact_decimal_value].
Qed.

Lemma decimal_of_nonzero (m : positive) (e : Z) :
  bounded prec emax m e = true -> fst (decimal_of m e) <> 0%N.
Proof.
  intros Hb H0. pose proof (decimal_of_converts m e Hb) as Hc.
  rewrite H0, round_Q_zero_decimal in Hc. discriminate.
Qed.

Local Open Scope N_scope.

(** ** Decimal digits *)



Lemma dv_app (a : N) (x y : JsString) : dv a (x ++ y) = dv (dv a x) y.
Proof. apply fold_left_app. Qed.

Lemma dv_shift (ds : JsString) (a : N) :
  dv a ds = a * 10 ^ N.of_nat (length ds) + dv 0 ds.
Proof.
  revert a. induction ds as [|c ds IH]; intros a.
  - simpl. lia.
  - change (dv a (c :: ds)) with (dv (10 * a + (c - 48)) ds).
    change (dv 0 (c :: ds)) with (dv (10 * 0 + (c - 48)) ds).
    rewrite (IH (10 * a + (c - 48))), (IH (10 * 0 + (c - 48))).
    change (length (c :: ds)) with (S (length ds)).
    rewrite Nat2N.inj_succ, N.pow_succ_r'. lia.
Qed.

Lemma digits_value_dv (ds : JsString) : digits_value ds = dv 0 ds.
Proof. reflexivity. Qed.

Lemma is_digit_offset (d : N) : d < 10 -> is_digit (48 + d) = true.
Proof.
  intros H. unfold is_digit. apply andb_true_iff. split; apply N.leb_le; lia.
Qed.

Lemma digits_fuel_spec (fuel : nat) :
  forall (n : N) (acc : JsString),
    n < 2 ^ N.of_nat (S fuel) ->
    exists ds,
      digits_fuel (S fuel) n acc = ds ++ acc /\
      forallb is_digit ds = true /\
      dv 0 ds = n /\
      ds <> [] /\
      (n <> 0 -> exists c rest, ds = c :: rest /\ c <> 48).
Proof.
  assert (Hsmall : forall f n acc, n < 10 ->
            exists ds,
              digits_fuel (S f) n acc = ds ++ acc /\
              forallb is_digit ds = true /\
              dv 0 ds = n /\
              ds <> [] /\
              (n <> 0 -> exists c rest, ds = c :: rest /\ c <> 48)).
  { intros f n acc Hlt. cbn [digits_fuel].
    destruct (N.ltb_spec n 10) as [_|]; [|lia].
    rewrite N.mod_small by lia.
    exists [48 + n].
    split; [reflexivity|]. split.
    { cbn [forallb]. rewrite is_digit_offset by lia. reflexivity. }
    split; [unfold dv; cbn [fold_left]; lia|]. split; [discriminate|].
    intros H0. exists (48 + n), []. split; [reflexivity | lia]. }
  induction fuel as [|f IH]; intros n acc Hn.
  - change (2 ^ N.of_nat 1) with 2 in Hn. apply Hsmall. lia.
  - destruct (N.ltb_spec n 10) as [Hlt|Hge]; [apply Hsmall; exact Hlt|].
    remember (S f) as f' eqn:Ef. cbn [digits_fuel].
    destruct (N.ltb_spec n 10) as [|_]; [lia|].
    subst f'.
    pose proof (N.div_mod n 10 ltac:(lia)) as Hdm.
    pose proof (N.mod_lt n 10 ltac:(lia)) as Hm.
    set (r := n mod 10) in *. set (q := n / 10) in *. clearbody r q.
    assert (Hdiv : q < 2 ^ N.of_nat (S f)).
    { rewrite Nat2N.inj_succ, N.pow_succ_r' in Hn. lia. }
    destruct (IH q ((48 + r) :: acc) Hdiv)
      as (ds & Hds & Hdig & Hval & Hne & Hhd).
    exists (ds ++ [48 + r]).
    split; [rewrite Hds, <- app_assoc; reflexivity|].
    split.
    { rewrite forallb_app, Hdig. cbn [forallb andb].
      rewrite is_digit_offset by assumption. reflexivity. }
    split.
    { rewrite dv_app, Hval. unfold dv. cbn [fold_left]. lia. }
    split; [destruct ds; discriminate|].
    intros _.
    assert (Hq : q <> 0) by lia.
    destruct (Hhd Hq) as (c & rest & -> & Hc).
    exists c, (rest ++ [48 + r]). split; [reflexivity | exact Hc].
Qed.

Lemma digits_of_spec (n : N) :
  forallb is_digit (digits_of n) = true /\
  dv 0 (digits_of n) = n /\
  digits_of n <> [] /\
  (n <> 0 -> exists c rest, digits_of n = c :: rest /\ c <> 48).
Proof.
  unfold digits_of.
  destruct (digits_fuel_spec (N.to_nat (N.log2 n)) n []) as (ds & Hds & H).
  - rewrite Nat2N.inj_succ, N2Nat.id.
    destruct n as [|p]; [simpl; lia|]. apply N.log2_spec. lia.
  - rewrite Hds, app_nil_r. exact H.
Qed.

Lemma take_digits_app (ds rest : JsString) :
  forallb is_digit ds = true ->
  match rest with [] => True | c :: _ => is_digit c = false end ->
  take_digits (ds ++ rest) = (ds, rest).
Proof.
  intros Hds Hrest. induction ds as [|c ds IH]; cbn [app take_digits forallb] in *.
  - destruct rest as [|c r]; [reflexivity|]. cbn [take_digits]. rewrite Hrest. reflexivity.
  - apply andb_true_iff in Hds as [Hc Hds]. rewrite Hc, (IH Hds). reflexivity.
Qed.

Lemma zeros_digits (n : Z) : forallb is_digit (zeros n) = true.
Proof.
  unfold zeros. induction (Z.to_nat n) as [|k IH]; cbn [repeat forallb]; [reflexivity | exact IH].
Qed.

Lemma dv_zeros (n : Z) (a : N) : dv a (zeros n) = a * 10 ^ Z.to_N n.
Proof.
  rewrite dv_shift. unfold zeros. rewrite repeat_length.
  assert (H0 : dv 0 (repeat 48 (Z.to_nat n)) = 0).
  { induction (Z.to_nat n) as [|k IH]; [reflexivity | exact IH]. }
  rewrite H0. rewrite Z_nat_N. lia.
Qed.

Lemma length_zeros (n : Z) : length (zeros n) = Z.to_nat n.
Proof. apply repeat_length. Qed.


Lemma number_end_not_digit (rest : JsString) :
  number_end rest -> match rest with [] => True | c :: _ => is_digit c = false end.
Proof.
  destruct rest as [|c r]; [trivial|]. intros [->|[->|[->| ->]]]; reflexivity.
Qed.

Lemma parse_fraction_none (rest : JsString) :
  number_end rest -> parse_fraction rest = Some ([], rest).
Proof.
  destruct rest as [|c r]; [reflexivity|]. intros [->|[->|[->| ->]]]; reflexivity.
Qed.

Lemma parse_exponent_none (rest : JsString) :
  number_end rest -> parse_exponent rest = Some (0%Z, rest).
Proof.
  destruct rest as [|c r]; [reflexivity|]. intros [->|[->|[->| ->]]]; reflexivity.
Qed.

Lemma parse_fraction_digits (f s3 : JsString) :
  forallb is_digit f = true -> f <> [] ->
  match s3 with [] => True | c :: _ => is_digit c = false end ->
  parse_fraction (46 :: f ++ s3) = Some (f, s3).
Proof.
  intros Hf Hne Hs. unfold parse_fraction. rewrite take_digits_app by assumption.
  destruct f; [contradiction | reflexivity].
Qed.

Lemma parse_exponent_digits (e : Z) (rest : JsString) :
  number_end rest ->
  parse_exponent (101 :: (if (0 <=? e)%Z then 43 else 45)
                      :: digits_of (Z.to_N (Z.abs e)) ++ rest) = Some (e, rest).
Proof.
  intros Hr. destruct (digits_of_spec (Z.to_N (Z.abs e))) as (Hdig & Hval & Hne & _).
  unfold parse_exponent. change ((101 =? 101) || (101 =? 69)) with true. cbv iota.
  destruct (Z.leb_spec 0 e) as [Hpos|Hneg].
  - rewrite take_digits_app by (try assumption; apply number_end_not_digit; assumption).
    destruct (digits_of (Z.to_N (Z.abs e))) eqn:E; [contradiction|].
    rewrite digits_value_dv, Hval. f_equal. f_equal. lia.
  - rewrite take_digits_app by (try assumption; apply number_end_not_digit; assumption).
    destruct (digits_of (Z.to_N (Z.abs e))) eqn:E; [contradiction|].
    rewrite digits_value_dv, Hval. f_equal. f_equal. lia.
Qed.

Lemma parse_fraction_exp (s : JsString) : parse_fraction (101 :: s) = Some ([], 101 :: s).
Proof. reflexivity. Qed.

Lemma Q_of_decimal_scaled (d : N) (t : Z) :
  (0 <= t)%Z ->
  Q_of_decimal (d * 10 ^ Z.to_N t) 0 == Q_of_decimal d t.
Proof.
  intros Ht. unfold Q_of_decimal. destruct t as [|p|p]; try lia.
  - change (Z.to_N 0) with 0. rewrite N.pow_0_r, N.mul_1_r. reflexivity.
  - rewrite N2Z.inj_mul, N2Z.inj_pow. rewrite Z2N.id by lia.
    change (10 ^ 0)%Z with 1%Z. rewrite Z.mul_1_r. reflexivity.
Qed.

(** Reading back the text that [Number::toString] lays out for the
    digits of [d] and the exponent [t]. *)
Lemma parse_decimal_layout (d : N) (t : Z) (rest : JsString) :
  d <> 0 ->
  number_end rest ->
  exists D T,
    parse_decimal (decimal_text (digits_of d) (t + Z.of_nat (length (digits_of d))) ++ rest)
      = Some (D, T, rest) /\
    Q_of_decimal D T == Q_of_decimal d t.
Proof.
  intros Hd Hrest.
  destruct (digits_of_spec d) as (Hdig & Hval & _ & Hhd).
  destruct (Hhd Hd) as (c & r & Eds & Hc). clear Hhd.
  pose proof (number_end_not_digit rest Hrest) as Hrest'.
  set (ds := digits_of d) in *. clearbody ds. subst ds.
  remember (Z.of_nat (length (c :: r))) as k eqn:Ek.
  remember (t + k)%Z as n eqn:En.
  assert (Hk : (1 <= k)%Z) by (subst k; cbn [length]; lia).
  assert (Hcd : is_digit c = true).
  { cbn [forallb] in Hdig. apply andb_true_iff in Hdig. tauto. }
  assert (Hrd : forallb is_digit r = true).
  { cbn [forallb] in Hdig. apply andb_true_iff in Hdig. tauto. }
  assert (Hc48 : (c =? 48) = false) by (apply N.eqb_neq; exact Hc).
  unfold decimal_text. rewrite <- Ek.
  destruct ((-5 <=? n)%Z && (n <=? 21)%Z) eqn:Hfixed.
  - destruct (Z.leb_spec k n) as [Hkn|Hkn].
    + (* digits followed by zeros *)
      exists (d * 10 ^ Z.to_N (n - k)), 0%Z. split.
      * unfold parse_decimal.
        rewrite take_digits_app;
          [| rewrite forallb_app, Hdig, zeros_digits; reflexivity | exact Hrest'].
        cbn [app]. rewrite Hc48. cbn [andb].
        rewrite parse_fraction_none, parse_exponent_none by assumption.
        rewrite app_nil_r. f_equal. f_equal. f_equal.
        change (c :: r ++ zeros (n - k)) with ((c :: r) ++ zeros (n - k)).
        rewrite digits_value_dv, dv_app, Hval, dv_zeros. reflexivity.
      * replace t with (n - k)%Z by lia.
        apply Q_of_decimal_scaled. lia.
    + destruct (Z.ltb_spec 0 n) as [Hn0|Hn0].
      * (* a full stop inside the digits *)
        exists d, t. split; [|reflexivity].
        remember (Z.to_nat n) as n' eqn:En'.
        assert (Hn' : (1 <= n' < length (c :: r))%nat) by lia.
        pose proof (firstn_skipn n' (c :: r)) as Hfs.
        assert (Hfd : forallb is_digit (firstn n' (c :: r)) = true
                      /\ forallb is_digit (skipn n' (c :: r)) = true).
        { rewrite <- Hfs in Hdig. rewrite forallb_app in Hdig.
          apply andb_true_iff in Hdig. exact Hdig. }
        destruct Hfd as [Hf1 Hf2].
        assert (Hlen : length (skipn n' (c :: r)) = (length (c :: r) - n')%nat)
          by apply length_skipn.
        unfold parse_decimal. rewrite <- app_assoc.
        rewrite take_digits_app; [| exact Hf1 | reflexivity].
        destruct n' as [|m]; [lia|]. cbn [firstn].
        rewrite Hc48. cbn [andb].
        cbn [app]. rewrite parse_fraction_digits;
          [| exact Hf2 | intros E; rewrite E in Hlen; cbn [length] in *; lia | exact Hrest'].
        rewrite parse_exponent_none by assumption.
        f_equal. f_equal. f_equal.
        -- change (c :: firstn m r ++ skipn (S m) (c :: r))
             with (firstn (S m) (c :: r) ++ skipn (S m) (c :: r)).
           rewrite Hfs. exact Hval.
        -- rewrite Hlen. cbn [length] in *. lia.
      * (* a zero, a full stop, zeros, the digits *)
        exists d, t. split; [|reflexivity].
        unfold parse_decimal. cbn [app take_digits].
        change (is_digit 48) with true. change (is_digit 46) with false. cbv iota.
        change ((48 =? 48) && negb (Nat.eqb (length (@nil code_unit)) 0)) with false.
        cbv iota.
        rewrite parse_fraction_digits;
          [| rewrite forallb_app, zeros_digits, Hdig; reflexivity
           | destruct (zeros (- n)); discriminate
           | exact Hrest'].
        rewrite parse_exponent_none by assumption.
        f_equal. f_equal. f_equal.
        -- cbn [app]. rewrite digits_value_dv.
           change (dv 0 (48 :: zeros (- n) ++ c :: r)) with (dv 0 (zeros (- n) ++ c :: r)).
           rewrite dv_app, dv_zeros. rewrite N.mul_0_l. exact Hval.
        -- rewrite length_app, length_zeros. lia.
  - (* exponential notation *)
    exists d, t. split; [|reflexivity].
    destruct r as [|c2 r'].
    + unfold parse_decimal. cbn [app take_digits]. rewrite Hcd.
      change (is_digit 101) with false. cbv iota.
      rewrite Hc48. cbn [andb]. rewrite parse_fraction_exp.
      rewrite parse_exponent_digits by assumption.
      f_equal. f_equal. f_equal.
      * rewrite app_nil_r. exact Hval.
      * cbn [length] in *. lia.
    + unfold parse_decimal. cbn [app]. rewrite <- app_assoc. cbn [app take_digits].
      rewrite Hcd.
      change (is_digit 46) with false. cbv iota.
      rewrite Hc48. cbn [andb].
      change (c2 :: r' ++ 101 :: (if (0 <=? n - 1)%Z then 43 else 45)
                :: digits_of (Z.to_N (Z.abs (n - 1))) ++ rest)
        with ((c2 :: r') ++ 101 :: (if (0 <=? n - 1)%Z then 43 else 45)
                :: digits_of (Z.to_N (Z.abs (n - 1))) ++ rest).
      rewrite parse_fraction_digits; [| exact Hrd | discriminate | reflexivity].
      rewrite parse_exponent_digits by assumption.
      f_equal. f_equal. f_equal.
      * exact Hval.
      * cbn [length] in *. lia.
Qed.

(** ** Numbers: the text of a finite Number reads back as that Number *)

Lemma is_digit_cases (c : code_unit) :
  is_digit c = true ->
  c = 48 \/ c = 49 \/ c = 50 \/ c = 51 \/ c = 52 \/ c = 53 \/ c = 54 \/ c = 55
  \/ c = 56 \/ c = 57.
Proof.
  unfold is_digit. intros H. apply andb_true_iff in H as [H1 H2].
  apply N.leb_le in H1. apply N.leb_le in H2. lia.
Qed.

Lemma parse_decimal_starts (s : JsString) (r : N * Z * JsString) :
  parse_decimal s = Some r -> exists c s', s = c :: s' /\ is_digit c = true.
Proof.
  unfold parse_decimal. destruct s as [|c s']; [discriminate|].
  cbn [take_digits]. destruct (is_digit c) eqn:Hc; [|discriminate].
  intros _. exists c, s'. split; [reflexivity | exact Hc].
Qed.

Lemma parse_number_unsigned (s : JsString) (d : N) (t : Z) (rest : JsString) :
  parse_decimal s = Some (d, t, rest) ->
  parse_number s = Some (number_of_decimal false d t, rest) /\
  parse_number (45 :: s) = Some (number_of_decimal true d t, rest).
Proof.
  intros H. split.
  - destruct (parse_decimal_starts s _ H) as (c & s' & -> & Hc).
    unfold parse_number.
    destruct (N.eqb_spec c 45) as [->|_]; [discriminate Hc|].
    rewrite H. reflexivity.
  - unfold parse_number. change (45 =? 45) with true. cbv iota.
    rewrite H. reflexivity.
Qed.

Lemma finite_is_not_neg_zero (x : number) (s : bool) (m : positive) (e : Z) :
  Prim2SF x = S754_finite s m e -> is_neg_zero x = false.
Proof.
  intros E. unfold is_neg_zero, is_zero. rewrite FloatAxioms.eqb_spec, E.
  destruct s; reflexivity.
Qed.

Lemma parse_number_toString (x : number) (rest : JsString) :
  is_finite x = true ->
  number_end rest ->
  parse_number (toString_units x ++ rest)
  = Some (if is_neg_zero x then 0%float else x, rest).
Proof.
  intros Hfin Hrest.
  pose proof (Prim2SF_valid x) as Hvalid.
  pose proof (SF2Prim_Prim2SF x) as Hx.
  unfold toString_units.
  destruct (Prim2SF x) as [s|s| |s m e] eqn:E.
  - (* zeros *)
    assert (Hz : parse_decimal (utf16 "0" ++ rest) = Some (0%N, 0%Z, rest)).
    { unfold parse_decimal. change (utf16 "0") with [48%N].
      rewrite take_digits_app;
        [| reflexivity | apply number_end_not_digit; exact Hrest].
      cbv iota. cbn [andb length Nat.eqb negb N.eqb Pos.eqb].
      rewrite parse_fraction_none, parse_exponent_none by assumption.
      reflexivity. }
    destruct (parse_number_unsigned _ _ _ _ Hz) as [Hp _]. rewrite Hp.
    rewrite <- Hx. destruct s; reflexivity.
  - rewrite <- Hx in Hfin. destruct s; discriminate Hfin.
  - rewrite <- Hx in Hfin. discriminate Hfin.
  - cbn [valid_binary] in Hvalid.
    pose proof (decimal_of_converts m e Hvalid) as Hconv.
    pose proof (decimal_of_nonzero m e Hvalid) as Hnz.
    destruct (decimal_of m e) as [d t]. cbn [fst snd] in Hconv, Hnz.
    destruct (parse_decimal_layout d t rest Hnz Hrest) as (D & T & Hparse & HQ).
    rewrite (finite_is_not_neg_zero x s m e E).
    destruct (parse_number_unsigned _ _ _ _ Hparse) as [Hpos Hneg].
    assert (Hround : round_Q (Q_of_decimal D T) = S754_finite false m e).
    { rewrite (round_Q_Qeq _ _ HQ). exact Hconv. }
    destruct s.
    + transitivity (Some (number_of_decimal true D T, rest)); [exact Hneg|].
      f_equal. f_equal.
      unfold number_of_decimal. rewrite Hround.
      apply Prim2SF_inj. rewrite opp_spec.
      rewrite Prim2SF_SF2Prim by exact Hvalid. rewrite E. reflexivity.
    + transitivity (Some (number_of_decimal false D T, rest)); [exact Hpos|].
      f_equal. f_equal.
      unfold number_of_decimal. rewrite Hround. exact Hx.
Qed.

(** ** Strings: a quoted string reads back as the string *)

Lemma hex_value_digit (n : N) : n < 16 -> hex_value (hex_digit n) = Some n.
Proof.
  intros H. rewrite <- (N2Nat.id n).
  assert (Hk : (N.to_nat n < 16)%nat) by lia.
  revert Hk. generalize (N.to_nat n) as k. intros k Hk.
  do 16 (destruct k as [|k]; [reflexivity|]). lia.
Qed.

Lemma hex4_escape (c : code_unit) :
  c < 65536 ->
  hex4 (hex_digit (c / 4096 mod 16)) (hex_digit (c / 256 mod 16))
       (hex_digit (c / 16 mod 16)) (hex_digit (c mod 16)) = Some c.
Proof.
  intros Hc. unfold hex4.
  rewrite !hex_value_digit by (apply N.mod_lt; lia).
  f_equal.
  pose proof (N.div_mod c 16 ltac:(lia)) as H1.
  pose proof (N.div_mod (c / 16) 16 ltac:(lia)) as H2.
  pose proof (N.div_mod (c / 16 / 16) 16 ltac:(lia)) as H3.
  rewrite !N.Div0.div_div in H2, H3. change (16 * 16) with 256 in *.
  change (256 * 16) with 4096 in *.
  assert (Hq : c / 256 / 16 = c / 4096) by (rewrite N.Div0.div_div; reflexivity).
  rewrite ?Hq in H3.
  assert (H4 : c / 4096 < 16) by (apply N.Div0.div_lt_upper_bound; lia).
  rewrite (N.mod_small (c / 4096) 16) by exact H4.
  pose proof (N.mod_lt c 16 ltac:(lia)).
  pose proof (N.mod_lt (c / 16) 16 ltac:(lia)).
  pose proof (N.mod_lt (c / 256) 16 ltac:(lia)).
  set (a := c mod 16) in *. set (b := c / 16 mod 16) in *.
  set (d := c / 256 mod 16) in *. set (q0 := c / 16) in *.
  set (q1 := c / 256) in *. set (q2 := c / 4096) in *.
  clearbody a b d q0 q1 q2. lia.
Qed.

Lemma parse_string_unicode_escape (c : code_unit) (s : JsString) :
  c < 65536 ->
  parse_string (unicode_escape c ++ s) = push c (parse_string s).
Proof.
  intros Hc. unfold unicode_escape. cbn [app parse_string].
  change (92 =? 34) with false. change (92 =? 92) with true.
  change (117 =? 117) with true. cbv iota.
  rewrite hex4_escape by exact Hc. reflexivity.
Qed.

Lemma short_escape_cases (c x : code_unit) :
  short_escape c = Some x ->
  (c = 8 /\ x = 98) \/ (c = 9 /\ x = 116) \/ (c = 10 /\ x = 110) \/
  (c = 12 /\ x = 102) \/ (c = 13 /\ x = 114) \/ (c = 34 /\ x = 34) \/
  (c = 92 /\ x = 92).
Proof.
  unfold short_escape.
  repeat match goal with
         | |- context [N.eqb c ?k] =>
             destruct (N.eqb_spec c k);
             [intros H; injection H as <-; tauto|]
         end.
  discriminate.
Qed.

Lemma short_escape_none (c : code_unit) :
  short_escape c = None -> c <> 34 /\ c <> 92.
Proof.
  unfold short_escape.
  repeat match goal with
         | |- context [N.eqb c ?k] =>
             destruct (N.eqb_spec c k); [discriminate|]
         end.
  intros _. split; assumption.
Qed.

Lemma parse_string_short_escape (c x : code_unit) (s : JsString) :
  short_escape c = Some x ->
  parse_string (92 :: x :: s) = push c (parse_string s).
Proof.
  intros H.
  destruct (short_escape_cases c x H)
    as [[-> ->]|[[-> ->]|[[-> ->]|[[-> ->]|[[-> ->]|[[-> ->]|[-> ->]]]]]]];
    reflexivity.
Qed.

Lemma parse_string_copy (c : code_unit) (s : JsString) :
  c <> 34 -> c <> 92 -> 32 <= c ->
  parse_string (c :: s) = push c (parse_string s).
Proof.
  intros H1 H2 H3. cbn [parse_string].
  destruct (N.eqb_spec c 34); [contradiction|].
  destruct (N.eqb_spec c 92); [contradiction|].
  destruct (N.ltb_spec c 32); [lia|]. reflexivity.
Qed.

Lemma surrogate_bounds (c : code_unit) :
  is_leading_surrogate c = true \/ is_trailing_surrogate c = true -> 55296 <= c.
Proof.
  unfold is_leading_surrogate, is_trailing_surrogate.
  intros [H|H]; apply andb_true_iff in H as [H _]; apply N.leb_le in H;
    lia.
Qed.

Lemma parse_string_quote_body (n : nat) :
  forall (s rest : JsString),
    (length s <= n)%nat ->
    forallb is_code_unit s = true ->
    parse_string (quote_body s ++ 34 :: rest) = Some (s, rest).
Proof.
  induction n as [|n IH]; intros s rest Hlen Hs.
  - destruct s; [reflexivity | cbn [length] in Hlen; lia].
  - destruct s as [|c tl]; [reflexivity|].
    cbn [length] in Hlen. cbn [forallb] in Hs.
    apply andb_true_iff in Hs as [Hc Htl].
    assert (Hc' : c < 65536) by (apply N.ltb_lt; exact Hc).
    assert (IHtl : parse_string (quote_body tl ++ 34 :: rest) = Some (tl, rest))
      by (apply IH; [lia | exact Htl]).
    cbn [quote_body].
    destruct (short_escape c) as [x|] eqn:Hse.
    { cbn [app]. rewrite (parse_string_short_escape c x _ Hse), IHtl. reflexivity. }
    destruct (short_escape_none c Hse) as [H34 H92].
    destruct (N.ltb_spec c 32) as [Hlt|Hge].
    { rewrite <- app_assoc, parse_string_unicode_escape, IHtl by exact Hc'. reflexivity. }
    destruct (is_leading_surrogate c) eqn:Hlead.
    { destruct tl as [|d tl'].
      - rewrite parse_string_unicode_escape by exact Hc'. reflexivity.
      - destruct (is_trailing_surrogate d) eqn:Htrail.
        + cbn [app]. rewrite parse_string_copy by assumption.
          pose proof (surrogate_bounds d (or_intror Htrail)) as Hd.
          rewrite parse_string_copy by lia.
          cbn [forallb] in Htl. apply andb_true_iff in Htl as [_ Htl'].
          rewrite (IH tl' rest); [reflexivity | cbn [length] in Hlen; lia | exact Htl'].
        + rewrite <- app_assoc, parse_string_unicode_escape, IHtl by exact Hc'.
          reflexivity. }
    destruct (is_trailing_surrogate c) eqn:Htrail.
    { rewrite <- app_assoc, parse_string_unicode_escape, IHtl by exact Hc'. reflexivity. }
    cbn [app]. rewrite parse_string_copy, IHtl by assumption. reflexivity.
Qed.

Lemma parse_string_quote (s rest : JsString) :
  forallb is_code_unit s = true ->
  parse_string (quote_body s ++ 34 :: rest) = Some (s, rest).
Proof. apply (parse_string_quote_body (length s)). lia. Qed.

(** ** Objects: defining the listed properties in order gives the list *)

Lemma string_eqb_sym (a b : JsString) : string_eqb a b = string_eqb b a.
Proof.
  revert b. induction a as [|x a IH]; intros [|y b]; cbn [string_eqb]; try reflexivity.
  rewrite (N.eqb_sym x y), IH. reflexivity.
Qed.

Lemma define_property_last (k : JsString) (v : JsValue) (props : list (JsString * JsValue)) :
  Forall (fun k' => string_eqb k' k = false /\ key_before k k' = false) (map fst props) ->
  define_property k v props = props ++ [(k, v)].
Proof.
  induction props as [|[k' v'] props IH]; intros H; [reflexivity|].
  cbn [map fst] in H. apply Forall_cons_1 in H as [[H1 H2] H].
  cbn [define_property app]. rewrite string_eqb_sym, H1, H2, (IH H). reflexivity.
Qed.

Lemma keys_ok_before (ks1 : list JsString) (k : JsString) (ks2 : list JsString) :
  keys_ok (ks1 ++ k :: ks2) = true ->
  Forall (fun k' => string_eqb k' k = false /\ key_before k k' = false) ks1.
Proof.
  induction ks1 as [|k' ks1 IH]; intros H; [constructor|].
  cbn [app keys_ok] in H. apply andb_true_iff in H as [H1 H2].
  constructor; [|exact (IH H2)].
  rewrite forallb_app in H1. apply andb_true_iff in H1 as [_ H1].
  cbn [forallb] in H1. apply andb_true_iff in H1 as [H1 _].
  apply andb_true_iff in H1 as [Ha Hb].
  apply negb_true_iff in Ha. apply negb_true_iff in Hb. split; assumption.
Qed.

Lemma fold_define_property (l2 l1 : list (JsString * JsValue)) :
  keys_ok (map fst (l1 ++ l2)) = true ->
  fold_left (fun props m => define_property (fst m) (snd m) props) l2 l1 = l1 ++ l2.
Proof.
  revert l1. induction l2 as [|[k v] l2 IH]; intros l1 H.
  - rewrite app_nil_r. reflexivity.
  - cbn [fold_left fst snd].
    rewrite define_property_last.
    + rewrite IH; rewrite <- app_assoc; [reflexivity | exact H].
    + rewrite map_app in H. cbn [map fst] in H. exact (keys_ok_before _ _ _ H).
Qed.

Lemma object_of_members_ok (props : list (JsString * JsValue)) :
  keys_ok (map fst props) = true -> object_of_members props = JsObject props.
Proof.
  intros H. unfold object_of_members. rewrite fold_define_property; [reflexivity | exact H].
Qed.

(** ** White space *)

Lemma skip_ws_app (w s : JsString) :
  forallb is_ws w = true -> skip_ws (w ++ s) = skip_ws s.
Proof.
  induction w as [|c w IH]; intros H; [reflexivity|].
  cbn [forallb] in H. apply andb_true_iff in H as [Hc Hw].
  cbn [app skip_ws]. rewrite Hc. exact (IH Hw).
Qed.

Lemma skip_ws_stop (c : code_unit) (s : JsString) :
  is_ws c = false -> skip_ws (c :: s) = c :: s.
Proof. intros H. cbn [skip_ws]. rewrite H. reflexivity. Qed.

Lemma parse_value_skip (fuel : nat) (w s : JsString) :
  forallb is_ws w = true -> parse_value fuel (w ++ s) = parse_value fuel s.
Proof.
  intros H. destruct fuel as [|f]; [reflexivity|].
  cbn [parse_value]. rewrite (skip_ws_app w s H). reflexivity.
Qed.

(** ** Induction on values *)

Lemma JsValue_induction (P : JsValue -> Prop) :
  P JsUndefined -> P JsNull -> (forall b, P (JsBool b)) ->
  (forall x, P (JsNumber x)) -> (forall s, P (JsStr s)) ->
  (forall z, P (JsBigInt z)) -> P JsSymbol -> P JsFunction ->
  (forall items, Forall P items -> P (JsArray items)) ->
  (forall props, Forall (fun p => P (snd p)) props -> P (JsObject props)) ->
  P JsCircular -> (forall e, P (JsThrowing e)) ->
  forall v, P v.
Proof.
  intros Hu Hn Hb Hx Hs Hz Hy Hf Ha Ho Hc He.
  fix IH 1. intros [ | |b|x|s|z| | |items|props| |e].
  - exact Hu.
  - exact Hn.
  - apply Hb.
  - apply Hx.
  - apply Hs.
  - apply Hz.
  - exact Hy.
  - exact Hf.
  - apply Ha. induction items as [|v items IHl]; constructor; [apply IH | exact IHl].
  - apply Ho. induction props as [|[k v] props IHl]; constructor; [apply IH | exact IHl].
  - exact Hc.
  - apply He.
Qed.

(** ** Values *)




Lemma join_cons2 (sep t t2 : JsString) (ts : list JsString) :
  join sep (t :: t2 :: ts) = t ++ sep ++ join sep (t2 :: ts).
Proof. reflexivity. Qed.

Lemma reads_back_null : reads_back JsNull (utf16 "null").
Proof.
  split; [split; [reflexivity | discriminate]|].
  intros [|f] rest Hlen _; [cbn in Hlen; lia | reflexivity].
Qed.

Lemma reads_back_bool (b : bool) :
  reads_back (JsBool b) (if b then utf16 "true" else utf16 "false").
Proof.
  destruct b; (split; [split; [reflexivity | discriminate]|]);
    intros [|f] rest Hlen _; try (cbn in Hlen; lia); reflexivity.
Qed.

Lemma parse_value_number (f : nat) (c : code_unit) (s : JsString) :
  c = 45 \/ is_digit c = true ->
  parse_value (S f) (c :: s) =
    match parse_number (c :: s) with
    | Some (x, r') => Some (JsNumber x, r')
    | None => None
    end.
Proof.
  intros [->|Hd]; [reflexivity|].
  destruct (is_digit_cases c Hd) as [->|[->|[->|[->|[->|[->|[->|[->|[->| ->]]]]]]]]];
    reflexivity.
Qed.

Lemma toString_units_start (x : number) :
  is_finite x = true ->
  exists c r, toString_units x = c :: r /\ (c = 45 \/ is_digit c = true).
Proof.
  intros Hfin.
  pose proof (parse_number_toString x [] Hfin I) as Hp.
  rewrite app_nil_r in Hp.
  unfold parse_number in Hp.
  destruct (toString_units x) as [|c r] eqn:E; [discriminate Hp|].
  exists c, r. split; [reflexivity|].
  destruct (N.eqb_spec c 45) as [->|Hne]; [left; reflexivity | right].
  destruct (is_digit c) eqn:Hd; [reflexivity | exfalso].
  unfold parse_decimal in Hp. cbn [take_digits] in Hp.
  rewrite Hd in Hp. discriminate Hp.
Qed.

Lemma reads_back_number (x : number) :
  is_finite x = true -> reads_back (JsNumber x) (toString_units x).
Proof.
  intros Hfin. destruct (toString_units_start x Hfin) as (c & r & E & Hc).
  split.
  - rewrite E. destruct Hc as [->|Hd]; [split; [reflexivity | discriminate]|].
    destruct (is_digit_cases c Hd) as [->|[->|[->|[->|[->|[->|[->|[->|[->| ->]]]]]]]]];
      (split; [reflexivity | discriminate]).
  - intros [|f] rest Hlen Hrest; [rewrite E in Hlen; cbn in Hlen; lia|].
    pose proof (parse_number_toString x rest Hfin Hrest) as Hp.
    rewrite E in *. cbn [app] in *.
    rewrite (parse_value_number f c (r ++ rest) Hc), Hp. reflexivity.
Qed.

Lemma reads_back_string (s : JsString) :
  forallb is_code_unit s = true -> reads_back (JsStr s) (QuoteJSONString s).
Proof.
  intros Hs. split; [split; [reflexivity | discriminate]|].
  intros [|f] rest Hlen _; [cbn in Hlen; lia|].
  unfold QuoteJSONString. cbn [app parse_value skip_ws].
  change (is_ws 34) with false. cbv iota.
  change (34 =? 110) with false. change (34 =? 116) with false.
  change (34 =? 102) with false. change (34 =? 34) with true. cbv iota.
  rewrite <- app_assoc. cbn [app]. rewrite parse_string_quote by exact Hs.
  reflexivity.
Qed.

Section Containers.
Variables indent stepback : JsString.
Hypothesis indent_ws : forallb is_ws indent = true.
Hypothesis stepback_ws : forallb is_ws stepback = true.

Lemma lead_ws : forallb is_ws (10 :: indent) = true.
Proof. cbn [forallb]. rewrite indent_ws. reflexivity. Qed.

(** The elements of an array, one to a line, up to the closing
    bracket. *)
Lemma elements_read_back (items : list JsValue) (partial : list JsString) :
  Forall2 reads_back items partial ->
  partial <> [] ->
  forall fuel rest,
    (length (join (44%N :: 10%N :: indent) partial) < fuel)%nat ->
    parse_elements fuel
      (10 :: indent ++ join (44 :: 10 :: indent) partial ++ 10 :: stepback ++ 93 :: rest)
    = Some (map positive_zeros items, rest).
Proof.
  induction 1 as [|v t items partial Hvt Hrest IH]; intros Hne fuel rest Hfuel;
    [contradiction|].
  destruct fuel as [|f]; [lia|].
  cbn [parse_elements].
  change (10 :: indent ++ join (44 :: 10 :: indent) (t :: partial) ++ 10 :: stepback ++ 93 :: rest)
    with ((10 :: indent) ++ join (44 :: 10 :: indent) (t :: partial) ++ 10 :: stepback ++ 93 :: rest).
  rewrite (parse_value_skip f _ _ lead_ws).
  destruct Hvt as [_ Hparse].
  destruct partial as [|t2 partial].
  - inversion Hrest; subst. cbn [join map].
    cbn [join] in Hfuel.
    rewrite (Hparse f (10 :: stepback ++ 93 :: rest)); [|lia | right; left; reflexivity].
    change (10 :: stepback ++ 93 :: rest) with ((10 :: stepback) ++ 93 :: rest).
    rewrite skip_ws_app by (cbn [forallb]; rewrite stepback_ws; reflexivity).
    reflexivity.
  - rewrite join_cons2 in *. rewrite !length_app in Hfuel.
    cbn [length] in Hfuel.
    rewrite <- !app_assoc.
    rewrite (Hparse f); [| lia | left; reflexivity].
    cbn [app skip_ws].
    change (is_ws 44) with false. cbv iota.
    change (44 =? 44) with true. cbv iota.
    assert (Hrec := IH ltac:(discriminate) f rest ltac:(lia)).
    match goal with
    | |- context [parse_elements f ?x] =>
        replace (parse_elements f x) with (Some (map positive_zeros items, rest))
          by (symmetry; exact Hrec)
    end.
    reflexivity.
Qed.

(** The members of an object, one to a line, up to the closing brace. *)
Lemma members_read_back (props : list (JsString * JsValue)) (partial : list JsString) :
  Forall2 member_reads_back props partial ->
  partial <> [] ->
  forall fuel rest,
    (length (join (44%N :: 10%N :: indent) partial) < fuel)%nat ->
    parse_members fuel
      (10 :: indent ++ join (44 :: 10 :: indent) partial ++ 10 :: stepback ++ 125 :: rest)
    = Some (map (fun p => (fst p, positive_zeros (snd p))) props, rest).
Proof.
  induction 1 as [|[k v] m props partial Hm Hrest IH]; intros Hne fuel rest Hfuel;
    [contradiction|].
  destruct fuel as [|f]; [lia|].
  destruct Hm as (t & -> & [_ Hparse] & Hk). cbn [fst snd] in *.
  cbn [parse_members].
  change (10 :: indent ++ ?x) with ((10 :: indent) ++ x).
  rewrite (skip_ws_app _ _ lead_ws).
  assert (Hmember : forall X,
             (length t <= f)%nat -> number_end X ->
             exists X', skip_ws ((QuoteJSONString k ++ 58 :: 32 :: t) ++ X) = 34 :: X' /\
               match parse_string X' with
               | Some (k0, r1) =>
                   match skip_ws r1 with
                   | [] => None
                   | colon :: r2 =>
                       if colon =? 58 then parse_value f r2 else None
                   end
               | None => None
               end = Some (positive_zeros v, X)
               /\ parse_string X' = Some (k, 58 :: 32 :: t ++ X)).
  { intros X Hlen HX. unfold QuoteJSONString. cbn [app].
    eexists. split; [apply skip_ws_stop; reflexivity|].
    rewrite <- !app_assoc. cbn [app].
    rewrite (parse_string_quote k _ Hk). split; [|reflexivity].
    cbn [skip_ws]. change (is_ws 58) with false. cbv iota.
    change (58 =? 58) with true. cbv iota.
    change (32 :: t ++ X) with ([32] ++ t ++ X).
    rewrite parse_value_skip by reflexivity.
    apply Hparse; assumption. }
  destruct partial as [|m2 partial].
  - inversion Hrest; subst. cbn [join map fst snd].
    cbn [join] in Hfuel. rewrite !length_app in Hfuel.
    cbn [length] in Hfuel.
    destruct (Hmember (10 :: stepback ++ 125 :: rest)
                ltac:(lia) ltac:(right; left; reflexivity)) as (X' & -> & Hv & Hs).
    change (34 =? 34) with true. cbv iota.
    rewrite Hs in *. cbn [skip_ws] in *. change (is_ws 58) with false in *.
    cbv iota in *. change (58 =? 58) with true in *. cbv iota in *.
    rewrite Hv.
    change (10 :: stepback ++ 125 :: rest) with ((10 :: stepback) ++ 125 :: rest).
    rewrite skip_ws_app by (cbn [forallb]; rewrite stepback_ws; reflexivity).
    reflexivity.
  - rewrite join_cons2 in *. rewrite !length_app in Hfuel.
    cbn [length] in Hfuel.
    rewrite <- (app_assoc (QuoteJSONString k ++ 58 :: 32 :: t)).
    destruct (Hmember (((44 :: 10 :: indent) ++ join (44 :: 10 :: indent) (m2 :: partial))
                         ++ 10 :: stepback ++ 125 :: rest)
                ltac:(lia) ltac:(left; reflexivity)) as (X' & -> & Hv & Hs).
    change (34 =? 34) with true. cbv iota.
    rewrite Hs in *. cbn [skip_ws] in *. change (is_ws 58) with false in *.
    cbv iota in *. change (58 =? 58) with true in *. cbv iota in *.
    rewrite Hv.
    cbn [app skip_ws]. change (is_ws 44) with false. cbv iota.
    change (44 =? 44) with true. cbv iota.
    rewrite <- app_assoc.
    assert (Hrec := IH ltac:(discriminate) f rest ltac:(lia)).
    match goal with
    | |- context [parse_members f ?x] =>
        replace (parse_members f x)
          with (Some (map (fun p => (fst p, positive_zeros (snd p))) props, rest))
          by (symmetry; exact Hrec)
    end.
    reflexivity.
Qed.
End Containers.

Section RoundTrip.
Variables (g0 : code_unit) (gs : JsString).
Hypothesis gap_ws : forallb is_ws (g0 :: gs) = true.

Lemma indent_step (indent : JsString) :
  forallb is_ws indent = true -> forallb is_ws (indent ++ g0 :: gs) = true.
Proof. intros H. rewrite forallb_app, H, gap_ws. reflexivity. Qed.

Lemma serialize_elements_ok (indent : JsString) (items : list JsValue) :
  Forall (fun v => representable v = true ->
                   exists t, serialize (g0 :: gs) indent v = Normal (Some t)
                             /\ reads_back v t) items ->
  forallb representable items = true ->
  exists partial,
    serialize_elements (serialize (g0 :: gs) indent) items = Normal partial /\
    Forall2 reads_back items partial.
Proof.
  induction 1 as [|v items Hv _ IH]; intros Hrep.
  - exists []. split; [reflexivity | constructor].
  - cbn [forallb] in Hrep. apply andb_true_iff in Hrep as [Hr1 Hr2].
    destruct (Hv Hr1) as (t & Ht & Hback).
    destruct (IH Hr2) as (partial & Hp & Hall).
    exists (t :: partial). cbn [serialize_elements]. rewrite Ht, Hp.
    split; [reflexivity | constructor; assumption].
Qed.

Lemma serialize_members_ok (indent : JsString) (props : list (JsString * JsValue)) :
  Forall (fun p => representable (snd p) = true ->
                   exists t, serialize (g0 :: gs) indent (snd p) = Normal (Some t)
                             /\ reads_back (snd p) t) props ->
  forallb (fun p => let '(k, x) := p in
                    forallb is_code_unit k && representable x) props = true ->
  exists partial,
    serialize_members (serialize (g0 :: gs) indent) (g0 :: gs) props = Normal partial /\
    Forall2 member_reads_back props partial.
Proof.
  induction 1 as [|[k v] props Hv _ IH]; intros Hrep.
  - exists []. split; [reflexivity | constructor].
  - cbn [forallb] in Hrep. apply andb_true_iff in Hrep as [Hr1 Hr2].
    apply andb_true_iff in Hr1 as [Hk Hr1].
    destruct (Hv Hr1) as (t & Ht & Hback). cbn [snd] in Ht.
    destruct (IH Hr2) as (partial & Hp & Hall).
    exists ((QuoteJSONString k ++ 58 :: 32 :: t) :: partial).
    cbn [serialize_members]. rewrite Ht, Hp.
    split; [reflexivity|]. constructor; [|exact Hall].
    exists t. split; [reflexivity|]. split; assumption.
Qed.

(** Every representable value is serialized to a text that reads back
    as the value with positive zeros. *)
Lemma serialize_reads_back (v : JsValue) :
  representable v = true ->
  forall indent, forallb is_ws indent = true ->
    exists t, serialize (g0 :: gs) indent v = Normal (Some t) /\ reads_back v t.
Proof.
  induction v as [ | |b|x|s|z| | |items IH|props IH| |e] using JsValue_induction;
    intros Hrep indent Hind; try discriminate Hrep.
  - exists (utf16 "null"). split; [reflexivity | apply reads_back_null].
  - exists (if b then utf16 "true" else utf16 "false").
    split; [destruct b; reflexivity | apply reads_back_bool].
  - cbn [representable] in Hrep. exists (toString_units x).
    cbn [serialize]. rewrite Hrep. split; [reflexivity | apply reads_back_number; exact Hrep].
  - exists (QuoteJSONString s). split; [reflexivity | apply reads_back_string; exact Hrep].
  - (* arrays *)
    cbn [representable] in Hrep.
    assert (IH' : Forall (fun v => representable v = true ->
               exists t, serialize (g0 :: gs) (indent ++ g0 :: gs) v = Normal (Some t)
                         /\ reads_back v t) items).
    { eapply List.Forall_impl; [|exact IH]. intros v Hv Hr.
      apply (Hv Hr). apply indent_step. exact Hind. }
    destruct (serialize_elements_ok _ items IH' Hrep) as (partial & Hp & Hall).
    cbn [serialize]. rewrite Hp. eexists. split; [reflexivity|].
    pose proof (indent_step indent Hind) as HI.
    remember (indent ++ g0 :: gs) as I eqn:EI.
    unfold wrap. destruct partial as [|t partial].
    + inversion Hall; subst. split; [split; [reflexivity | discriminate]|].
      intros [|f] rest Hlen _; [cbn in Hlen; lia | reflexivity].
    + split; [split; [reflexivity | discriminate]|].
      intros [|f] rest Hlen _; [cbn in Hlen; lia|].
      cbn [length] in Hlen. rewrite !length_app in Hlen.
      cbn [app parse_value skip_ws]. change (is_ws 91) with false. cbv iota.
      change (91 =? 110) with false. change (91 =? 116) with false.
      change (91 =? 102) with false. change (91 =? 34) with false.
      change (91 =? 91) with true. cbv iota.
      rewrite <- !app_assoc. cbn [app]. rewrite <- !app_assoc. cbn [app].
      assert (Hstart : exists c r,
                 skip_ws (10 :: I ++ join (44 :: 10 :: I) (t :: partial)
                            ++ 10 :: indent ++ 93 :: rest) = c :: r /\ c <> 93).
      { change (10 :: I ++ ?x) with ((10 :: I) ++ x).
        rewrite skip_ws_app by (apply lead_ws; exact HI).
        inversion Hall as [|? ? ? ? [Hvs _] _]; subst.
        destruct t as [|c r]; [contradiction|]. destruct Hvs as [Hws Hc].
        destruct partial; cbn [join app]; rewrite (skip_ws_stop _ _ Hws);
          eexists; eexists; (split; [reflexivity | exact Hc]). }
      destruct Hstart as (c & r & -> & Hc).
      destruct (N.eqb_spec c 93) as [|_]; [contradiction|].
      rewrite (elements_read_back I indent HI Hind items (t :: partial) Hall
                 ltac:(discriminate) f rest) by lia.
      reflexivity.
  - (* objects *)
    cbn [representable] in Hrep. apply andb_true_iff in Hrep as [Hkeys Hrep].
    assert (IH' : Forall (fun p => representable (snd p) = true ->
               exists t, serialize (g0 :: gs) (indent ++ g0 :: gs) (snd p) = Normal (Some t)
                         /\ reads_back (snd p) t) props).
    { eapply List.Forall_impl; [|exact IH]. intros p Hv Hr.
      apply (Hv Hr). apply indent_step. exact Hind. }
    destruct (serialize_members_ok _ props IH' Hrep) as (partial & Hp & Hall).
    cbn [serialize]. rewrite Hp. eexists. split; [reflexivity|].
    assert (Hobj : object_of_members
                     (map (fun p => (fst p, positive_zeros (snd p))) props)
                   = positive_zeros (JsObject props)).
    { rewrite object_of_members_ok.
      - cbn [positive_zeros]. f_equal. apply map_ext. intros [k x]. reflexivity.
      - rewrite map_map. cbn [fst]. exact Hkeys. }
    pose proof (indent_step indent Hind) as HI.
    remember (indent ++ g0 :: gs) as I eqn:EI.
    unfold wrap. destruct partial as [|m partial].
    + inversion Hall; subst. split; [split; [reflexivity | discriminate]|].
      intros [|f] rest Hlen _; [cbn in Hlen; lia | reflexivity].
    + split; [split; [reflexivity | discriminate]|].
      intros [|f] rest Hlen _; [cbn in Hlen; lia|].
      cbn [length] in Hlen. rewrite !length_app in Hlen.
      cbn [app parse_value skip_ws]. change (is_ws 123) with false. cbv iota.
      change (123 =? 110) with false. change (123 =? 116) with false.
      change (123 =? 102) with false. change (123 =? 34) with false.
      change (123 =? 91) with false. change (123 =? 123) with true. cbv iota.
      rewrite <- !app_assoc. cbn [app]. rewrite <- !app_assoc. cbn [app].
      assert (Hstart : exists r,
                 skip_ws (10 :: I ++ join (44 :: 10 :: I) (m :: partial)
                            ++ 10 :: indent ++ 125 :: rest) = 34 :: r).
      { change (10 :: I ++ ?x) with ((10 :: I) ++ x).
        rewrite skip_ws_app by (apply lead_ws; exact HI).
        inversion Hall as [|[k x] ? ? ? (t & -> & _) _]; subst.
        unfold QuoteJSONString.
        destruct partial; cbn [join app]; rewrite skip_ws_stop by reflexivity;
          eexists; reflexivity. }
      destruct Hstart as (r & ->).
      change (34 =? 125) with false. cbv iota.
      rewrite (members_read_back I indent HI Hind props (m :: partial) Hall
                 ltac:(discriminate) f rest) by lia.
      rewrite Hobj. reflexivity.
Qed.
End RoundTrip.

Local Open Scope Z_scope.

(** ** [Math.min] with the ceiling 800 *)

Lemma Math_min_800_nan (h : number) :
  is_nan h = true -> Math_min [800%float; h] = nan.
Proof.
  intros Hn. unfold Math_min. simpl. rewrite Hn. reflexivity.
Qed.

Lemma Math_min_800_cases (h : number) :
  is_nan h = false ->
  Math_min [800%float; h] = if (h <? 800)%float then h else 800%float.
Proof.
  intros Hn. unfold Math_min. simpl existsb. rewrite Hn. simpl.
  unfold min_step at 1.
  replace (is_pos_zero 800) with false by reflexivity.
  rewrite andb_false_r. reflexivity.
Qed.

(** ** The order of Number values *)

Lemma SFcompare_antisym (a b : spec_float) :
  SFcompare b a = option_map CompOpp (SFcompare a b).
Proof.
  destruct a as [sa|sa| |sa ma ea], b as [sb|sb| |sb mb eb]; simpl;
    try reflexivity;
    try (destruct sa; reflexivity);
    try (destruct sb; reflexivity);
    try (destruct sa, sb; reflexivity).
  destruct sa, sb; simpl; try reflexivity;
    rewrite (Z.compare_antisym ea eb);
    destruct (ea ?= eb)%Z; simpl; try reflexivity;
    change (Pos.compare_cont Eq mb ma) with (Pos.compare_cont (CompOpp Eq) mb ma);
    rewrite <- (Pos.compare_cont_antisym ma mb Eq);
    try rewrite CompOpp_involutive; reflexivity.
Qed.

Lemma ltb_leb (a b : number) : (a <? b)%float = true -> (a <=? b)%float = true.
Proof.
  rewrite FloatAxioms.ltb_spec, FloatAxioms.leb_spec. unfold SFltb, SFleb.
  destruct (SFcompare (Prim2SF a) (Prim2SF b)) as [[ | | ]|]; congruence.
Qed.

Lemma ltb_asym (a b : number) : (a <? b)%float = true -> (b <? a)%float = false.
Proof.
  rewrite !FloatAxioms.ltb_spec. unfold SFltb. rewrite (SFcompare_antisym (Prim2SF a) (Prim2SF b)).
  destruct (SFcompare (Prim2SF a) (Prim2SF b)) as [[ | | ]|]; simpl; congruence.
Qed.

(** What the ceiling guarantees: the result is never above 800, and it is
    at most 800 unless it is NaN. *)
Lemma Math_min_800_bound (h : number) : capped (Math_min [800%float; h]).
Proof.
  unfold capped. destruct (is_nan h) eqn:Hn.
  - rewrite Math_min_800_nan by assumption. split; [reflexivity | left; reflexivity].
  - rewrite Math_min_800_cases by assumption.
    destruct (h <? 800)%float eqn:Hlt.
    + split; [apply ltb_asym; assumption | right; apply ltb_leb; assumption].
    + split; [reflexivity | right; reflexivity].
Qed.

(** ** Unfolding host calls *)

Ltac host_unfold :=
  unfold MeasuredHeight.onMount, LineCount.onMount, MeasuredHeight.resize,
    getDomNode, getModel, getLineCount, getContentHeight, layout,
    set_style_height, setTimeout, defineTheme, the_editor, bind, ret in *.

Lemma find_timer_app_fresh (ts : list Timer) (t : Timer) :
  Forall (fun x => timer_ident x <> timer_ident t) ts ->
  find_timer (timer_ident t) (ts ++ [t]) = Some t.
Proof.
  unfold find_timer. induction 1 as [|x l Hx Hl IH]; simpl.
  - rewrite Nat.eqb_refl. reflexivity.
  - destruct (Nat.eqb_spec (timer_ident x) (timer_ident t)); [contradiction | exact IH].
Qed.

Lemma find_drop_timer (id : timer_id) (ts : list Timer) :
  find_timer id (drop_timer id ts) = None.
Proof.
  unfold find_timer, drop_timer. induction ts as [|x l IH]; simpl; [reflexivity|].
  destruct (Nat.eqb (timer_ident x) id) eqn:E; simpl; [exact IH|].
  rewrite E. exact IH.
Qed.

(** C4: with [resizeOnMount = false] the mount callback of either
    revision returns at once: the world, and with it every element's
    style, the timer queue and the record of calls made on the editor, is
    exactly as before. *)
Theorem C4_no_sizing_without_resizeOnMount :
  forall (w : World) (ed : editor_ref),
    MeasuredHeight.onMount false ed w = (Normal tt, w) /\
    LineCount.onMount false ed w = (Normal tt, w).
Proof.
  intros w ed. split; reflexivity.
Qed.

(** C6: with [resizeOnMount = true] and an editor whose [getDomNode()]
    answers null, the mount callback of either revision returns normally
    after that one query: no style is assigned, no timer is queued,
    [layout()] is not called, nothing is thrown. *)
Theorem C6_missing_dom_node_is_silent :
  forall (w : World) (ed : editor_ref) (e : Editor),
    editors w !! ed = Some e ->
    domNode e = None ->
    MeasuredHeight.onMount true ed w = (Normal tt, log (EvGetDomNode ed) w) /\
    LineCount.onMount true ed w = (Normal tt, log (EvGetDomNode ed) w) /\
    elements (log (EvGetDomNode ed) w) = elements w /\
    timers (log (EvGetDomNode ed) w) = timers w /\
    trace (log (EvGetDomNode ed) w) = trace w ++ [EvGetDomNode ed].
Proof.
  intros w ed e He Hd. host_unfold. simpl. rewrite He, Hd. auto.
Qed.


(** An editor without a DOM node, in [world0]. *)
Lemma C6_witness :
  MeasuredHeight.onMount true 2%nat world0 = (Normal tt, log (EvGetDomNode 2%nat) world0) /\
    LineCount.onMount true 2%nat world0 = (Normal tt, log (EvGetDomNode 2%nat) world0) /\
    elements (log (EvGetDomNode 2%nat) world0) = elements world0 /\
    timers (log (EvGetDomNode 2%nat) world0) = timers world0 /\
    trace (log (EvGetDomNode 2%nat) world0) = trace world0 ++ [EvGetDomNode 2%nat].
Proof.
  apply (C6_missing_dom_node_is_silent world0 2%nat
           {| domNode := None; model := None; contentHeight := 0%float; disposed := false |});
    reflexivity.
Defined.

(** C2: in the line-count revision, with [resizeOnMount = true], a DOM
    node [el] and a model of [L] lines, the mount callback itself (no
    timer is queued) assigns [min(800, 18.81 * L)], as a [px] length, to
    the height of [el] and then calls [layout()]. *)
Theorem C2_line_count_height_applied_synchronously :
  forall (w : World) (ed : editor_ref) (e : Editor) (el : elem_ref) (m : TextModel),
    editors w !! ed = Some e ->
    domNode e = Some el ->
    model e = Some m ->
    let height := Math_min [800%float; (18.81 * lineCount m)%float] in
    exists w',
      LineCount.onMount true ed w = (Normal tt, w') /\
      elements w' = <[el := {| style_height := px height |}]> (elements w) /\
      timers w' = timers w /\
      trace w' = trace w ++ [EvGetDomNode ed; EvGetModel ed; EvGetLineCount ed;
                             EvSetStyleHeight el (px height);
                             EvLayout ed (disposed e)].
Proof.
  intros w ed e el m He Hd Hm height. host_unfold. simpl.
  rewrite He, Hd. simpl. rewrite He, Hm. simpl. rewrite He.
  eexists. split; [reflexivity|]. simpl.
  repeat split. rewrite <- !app_assoc. reflexivity.
Qed.

(** Three lines: 18.81 * 3 is 56.42999999999999. *)
Lemma C2_witness :
  exists w',
    LineCount.onMount true 1%nat world0 = (Normal tt, w') /\
    elements w' = <[7%nat := {| style_height := "56.42999999999999px" |}]> (elements world0) /\
    timers w' = timers world0 /\
    trace w' = trace world0 ++ [EvGetDomNode 1%nat; EvGetModel 1%nat; EvGetLineCount 1%nat;
                                EvSetStyleHeight 7%nat "56.42999999999999px";
                                EvLayout 1%nat false].
Proof.
  exact (C2_line_count_height_applied_synchronously world0 1%nat
           {| domNode := Some 7%nat; model := Some {| lineCount := 3%float |};
              contentHeight := 7000%float; disposed := false |}
           7%nat {| lineCount := 3%float |} eq_refl eq_refl eq_refl).
Defined.

(** C10: in the line-count revision a null model is not guarded: with
    [resizeOnMount = true] and a DOM node, [getModel()] answering null
    makes the height NaN, and the string "NaNpx" is assigned to the
    element's height before [layout()] is called. *)
Theorem C10_null_model_assigns_NaNpx :
  forall (w : World) (ed : editor_ref) (e : Editor) (el : elem_ref),
    editors w !! ed = Some e ->
    domNode e = Some el ->
    model e = None ->
    let height := Math_min [800%float; (18.81 * ToNumber_opt None)%float] in
    is_nan height = true /\
    (height <=? 800)%float = false /\
    px height = "NaNpx"%string /\
    exists w',
      LineCount.onMount true ed w = (Normal tt, w') /\
      elements w' = <[el := {| style_height := "NaNpx" |}]> (elements w) /\
      trace w' = trace w ++ [EvGetDomNode ed; EvGetModel ed;
                             EvSetStyleHeight el "NaNpx";
                             EvLayout ed (disposed e)].
Proof.
  intros w ed e el He Hd Hm height.
  split; [reflexivity|]. split; [reflexivity|]. split; [reflexivity|].
  host_unfold. simpl. rewrite He, Hd. simpl. rewrite He, Hm. simpl. rewrite He.
  eexists. split; [reflexivity|]. simpl.
  repeat split. rewrite <- !app_assoc. reflexivity.
Qed.

(** An editor without a model, in [world0]. *)
Lemma C10_witness :
  exists w',
    LineCount.onMount true 3%nat world0 = (Normal tt, w') /\
    elements w' = <[7%nat := {| style_height := "NaNpx" |}]> (elements world0) /\
    trace w' = trace world0 ++ [EvGetDomNode 3%nat; EvGetModel 3%nat;
                                EvSetStyleHeight 7%nat "NaNpx";
                                EvLayout 3%nat false].
Proof.
  exact (proj2 (proj2 (proj2 (C10_null_model_assigns_NaNpx world0 3%nat
           {| domNode := Some 7%nat; model := None;
              contentHeight := 56.5%float; disposed := false |}
           7%nat eq_refl eq_refl eq_refl)))).
Defined.

(** What calling the queued closure does, in any world where its editor
    is still known. *)
Lemma resize_run (u : World) (ed : editor_ref) (e : Editor) (el : elem_ref) :
  editors u !! ed = Some e ->
  let height := Math_min [800%float; contentHeight e] in
  exists u',
    MeasuredHeight.resize ed el u = (Normal tt, u') /\
    elements u' = <[el := {| style_height := px height |}]> (elements u) /\
    editors u' = editors u /\
    timers u' = timers u /\
    trace u' = trace u ++ [EvGetContentHeight ed; EvSetStyleHeight el (px height);
                           EvLayout ed (disposed e)].
Proof.
  intros He height. host_unfold. simpl. rewrite He. simpl. rewrite He.
  eexists. split; [reflexivity|]. simpl.
  repeat split. rewrite <- !app_assoc. reflexivity.
Qed.

Lemma run_timer_due (u : World) (t : Timer) (ed : editor_ref) (e : Editor) (el : elem_ref) :
  find_timer (timer_ident t) (timers u) = Some t ->
  timer_callback t = ResizeCallback ed el ->
  timer_due t <= clock u ->
  editors u !! ed = Some e ->
  let height := Math_min [800%float; contentHeight e] in
  exists u',
    run_timer (timer_ident t) u = (Normal tt, u') /\
    elements u' = <[el := {| style_height := px height |}]> (elements u) /\
    find_timer (timer_ident t) (timers u') = None /\
    trace u' = trace u ++ [EvGetContentHeight ed; EvSetStyleHeight el (px height);
                           EvLayout ed (disposed e)].
Proof.
  intros Hf Hcb Hdue He height. unfold run_timer. rewrite Hf.
  destruct (Z.leb_spec (timer_due t) (clock u)) as [_|Hlt]; [|lia].
  rewrite Hcb. simpl call.
  destruct (resize_run (with_timers (drop_timer (timer_ident t)) u) ed e el He)
    as (u' & Hrun & Hel & _ & Htm & Htr).
  exists u'. split; [exact Hrun|]. split; [exact Hel|]. split; [|exact Htr].
  rewrite Htm. simpl. apply find_drop_timer.
Qed.

Lemma run_timer_early (u : World) (t : Timer) :
  find_timer (timer_ident t) (timers u) = Some t ->
  clock u < timer_due t ->
  run_timer (timer_ident t) u = (Normal tt, u).
Proof.
  intros Hf Hlt. unfold run_timer. rewrite Hf.
  destruct (Z.leb_spec (timer_due t) (clock u)); [lia | reflexivity].
Qed.

Lemma measured_onMount_run (w : World) (ed : editor_ref) (e : Editor) (el : elem_ref) :
  editors w !! ed = Some e ->
  domNode e = Some el ->
  exists w1,
    MeasuredHeight.onMount true ed w = (Normal tt, w1) /\
    elements w1 = elements w /\
    editors w1 = editors w /\
    clock w1 = clock w /\
    timers w1 = timers w ++ [{| timer_ident := next_timer w; timer_due := clock w + 10;
                                timer_callback := ResizeCallback ed el |}] /\
    trace w1 = trace w ++ [EvGetDomNode ed; EvSetTimeout (next_timer w) 10].
Proof.
  intros He Hd. host_unfold. simpl. rewrite He, Hd. simpl.
  eexists. split; [reflexivity|]. simpl.
  repeat split. rewrite <- app_assoc. reflexivity.
Qed.

(** C1: in the measured-height revision, with [resizeOnMount = true] and
    a DOM node [el], the mount callback only queues a one-shot timer of
    10 ms and assigns nothing; the timer does nothing before it is due;
    when it runs, in whatever state [u] the world then is, it assigns
    [min(800, h)] as a [px] length to the height of [el], with [h] the
    content height the editor reports at that moment, calls [layout()]
    right after, and is gone from the queue. *)
Theorem C1_measured_height_applied_by_deferred_timer :
  forall (w : World) (ed : editor_ref) (e : Editor) (el : elem_ref),
    editors w !! ed = Some e ->
    domNode e = Some el ->
    let t := {| timer_ident := next_timer w; timer_due := clock w + 10;
                timer_callback := ResizeCallback ed el |} in
    exists w1,
      MeasuredHeight.onMount true ed w = (Normal tt, w1) /\
      elements w1 = elements w /\
      editors w1 = editors w /\
      clock w1 = clock w /\
      timers w1 = timers w ++ [t] /\
      trace w1 = trace w ++ [EvGetDomNode ed; EvSetTimeout (next_timer w) 10] /\
      (forall u : World,
          find_timer (next_timer w) (timers u) = Some t ->
          clock u < clock w + 10 ->
          run_timer (next_timer w) u = (Normal tt, u)) /\
      (forall (u : World) (e' : Editor),
          find_timer (next_timer w) (timers u) = Some t ->
          clock w + 10 <= clock u ->
          editors u !! ed = Some e' ->
          let height := Math_min [800%float; contentHeight e'] in
          exists u',
            run_timer (next_timer w) u = (Normal tt, u') /\
            elements u' = <[el := {| style_height := px height |}]> (elements u) /\
            find_timer (next_timer w) (timers u') = None /\
            trace u' = trace u ++ [EvGetContentHeight ed;
                                   EvSetStyleHeight el (px height);
                                   EvLayout ed (disposed e')]).
Proof.
  intros w ed e el He Hd t.
  destruct (measured_onMount_run w ed e el He Hd)
    as (w1 & Hrun & Hel & Hed & Hck & Htm & Htr).
  exists w1. do 6 (split; [assumption|]).
  split.
  - intros u Hf Hc. apply (run_timer_early u t); assumption.
  - intros u e' Hf Hc He'. apply (run_timer_due u t ed e' el); auto.
Qed.

(** A mount in [world0]; the widget settles at 56.5 pixels; the timer
    does nothing after 9 ms and applies the height after 10 ms. *)
Lemma C1_witness :
  exists w1,
    MeasuredHeight.onMount true 1%nat world0 = (Normal tt, w1) /\
    elements w1 = elements world0 /\
    run_timer 0%nat (advance 9 (settle 1%nat 56.5%float w1))
      = (Normal tt, advance 9 (settle 1%nat 56.5%float w1)) /\
    exists u',
      run_timer 0%nat (advance 10 (settle 1%nat 56.5%float w1)) = (Normal tt, u') /\
      elements u' !! 7%nat = Some {| style_height := "56.5px" |} /\
      find_timer 0%nat (timers u') = None.
Proof.
  destruct (C1_measured_height_applied_by_deferred_timer world0 1%nat
              {| domNode := Some 7%nat; model := Some {| lineCount := 3%float |};
                 contentHeight := 7000%float; disposed := false |}
              7%nat eq_refl eq_refl)
    as (w1 & Hrun & Hel & Hed & Hck & Htm & Htr & Hearly & Hfire).
  exists w1. split; [exact Hrun|]. split; [exact Hel|].
  split.
  - apply Hearly; simpl; [rewrite Htm; reflexivity | rewrite Hck; simpl; lia].
  - destruct (Hfire (advance 10 (settle 1%nat 56.5%float w1))
                {| domNode := Some 7%nat; model := Some {| lineCount := 3%float |};
                   contentHeight := 56.5%float; disposed := false |})
      as (u' & Hr & He & Hq & _).
    + simpl. rewrite Htm. reflexivity.
    + simpl. rewrite Hck. simpl. lia.
    + simpl. rewrite Hed. reflexivity.
    + exists u'. split; [exact Hr|]. split; [|exact Hq].
      rewrite He. rewrite lookup_insert_eq. reflexivity.
Defined.

(** C9: in the measured-height revision, after a mount with
    [resizeOnMount = true] and a DOM node, the unmount of the component
    cancels nothing: the mount callback returned no timer id, the queue
    still holds the timer, and once due it runs unguarded: it assigns the
    height of the captured element and calls [layout()] on the editor,
    which by then is disposed. *)
Theorem C9_timer_fires_after_unmount :
  forall (w : World) (ed : editor_ref) (e : Editor) (el : elem_ref),
    editors w !! ed = Some e ->
    domNode e = Some el ->
    Forall (fun x => timer_ident x <> next_timer w) (timers w) ->
    let t := {| timer_ident := next_timer w; timer_due := clock w + 10;
                timer_callback := ResizeCallback ed el |} in
    let height := Math_min [800%float; contentHeight e] in
    exists w1,
      MeasuredHeight.onMount true ed w = (Normal tt, w1) /\
      timers (unmount ed w1) = timers w1 /\
      find_timer (next_timer w) (timers (unmount ed w1)) = Some t /\
      (exists e', editors (unmount ed w1) !! ed = Some e' /\ disposed e' = true) /\
      forall ms : Z,
        10 <= ms ->
        exists w3,
          run_timer (next_timer w) (advance ms (unmount ed w1)) = (Normal tt, w3) /\
          elements w3 = <[el := {| style_height := px height |}]> (elements w) /\
          trace w3 = trace w ++ [EvGetDomNode ed; EvSetTimeout (next_timer w) 10;
                                 EvGetContentHeight ed;
                                 EvSetStyleHeight el (px height);
                                 EvLayout ed true].
Proof.
  intros w ed e el He Hd Hfresh t height.
  destruct (measured_onMount_run w ed e el He Hd)
    as (w1 & Hrun & Hel & Hed & Hck & Htm & Htr).
  fold t in Htm.
  exists w1. split; [exact Hrun|]. split; [reflexivity|].
  assert (Hfind : find_timer (next_timer w) (timers (unmount ed w1)) = Some t).
  { simpl. rewrite Htm. apply (find_timer_app_fresh (timers w) t). exact Hfresh. }
  split; [exact Hfind|].
  set (e' := {| domNode := domNode e; model := model e;
                contentHeight := contentHeight e; disposed := true |}).
  assert (He' : editors (unmount ed w1) !! ed = Some e').
  { simpl. rewrite Hed. rewrite lookup_alter_eq, He. reflexivity. }
  split; [exists e'; split; [exact He' | reflexivity]|].
  intros ms Hms.
  destruct (run_timer_due (advance ms (unmount ed w1)) t ed e' el)
    as (w3 & Hr & Hel3 & _ & Htr3); auto.
  - simpl. rewrite Hck. lia.
  - exists w3. split; [exact Hr|]. split.
    + rewrite Hel3. simpl. rewrite Hel. reflexivity.
    + rewrite Htr3. simpl. rewrite Htr. rewrite <- app_assoc. reflexivity.
Qed.

(** A mount in [world0] and an unmount; the content height is still
    the 7000 pixels of the first layout, and the ceiling applies. *)
Lemma C9_witness :
  exists w1,
    MeasuredHeight.onMount true 1%nat world0 = (Normal tt, w1) /\
    exists w3,
      run_timer 0%nat (advance 10 (unmount 1%nat w1)) = (Normal tt, w3) /\
      elements w3 = <[7%nat := {| style_height := "800px" |}]> (elements world0) /\
      trace w3 = [EvGetDomNode 1%nat; EvSetTimeout 0%nat 10;
                  EvGetContentHeight 1%nat;
                  EvSetStyleHeight 7%nat "800px";
                  EvLayout 1%nat true].
Proof.
  destruct (C9_timer_fires_after_unmount world0 1%nat
              {| domNode := Some 7%nat; model := Some {| lineCount := 3%float |};
                 contentHeight := 7000%float; disposed := false |}
              7%nat eq_refl eq_refl (List.Forall_nil _))
    as (w1 & Hrun & _ & _ & _ & Hfire).
  exists w1. split; [exact Hrun|].
  destruct (Hfire 10 ltac:(lia)) as (w3 & H3 & Hel & Htr).
  exists w3. split; [exact H3|]. split; [exact Hel | exact Htr].
Defined.

Lemma callbacks_capped (w : World) (ed : editor_ref) (resizeOnMount : bool) (id : timer_id) :
  (exists new, trace (snd (LineCount.onMount resizeOnMount ed w)) = trace w ++ new
               /\ Forall sizing_event_capped new) /\
  (exists new, trace (snd (MeasuredHeight.onMount resizeOnMount ed w)) = trace w ++ new
               /\ Forall sizing_event_capped new) /\
  (exists new, trace (snd (run_timer id w)) = trace w ++ new
               /\ Forall sizing_event_capped new).
Proof.
  rename resizeOnMount into r.
  assert (Hnil : exists new, trace w = trace w ++ new /\ Forall sizing_event_capped new).
  { exists []. split; [symmetry; apply app_nil_r | constructor]. }
  assert (Hcap : forall h el, sizing_event_capped (EvSetStyleHeight el (px (Math_min [800%float; h])))).
  { intros h el. exists (Math_min [800%float; h]). split; [reflexivity|].
    apply Math_min_800_bound. }
  split; [|split].
  - destruct r; [|exact Hnil]. host_unfold. simpl.
    destruct (editors w !! ed) as [e|] eqn:He; simpl; [|exact Hnil].
    destruct (domNode e) as [el|]; simpl.
    + rewrite He. simpl.
      destruct (model e) as [m|]; simpl; rewrite He; simpl;
        eexists; (split; [rewrite <- !app_assoc; reflexivity|]);
        repeat constructor; apply Hcap.
    + eexists. split; [reflexivity|]. repeat constructor.
  - destruct r; [|exact Hnil]. host_unfold. simpl.
    destruct (editors w !! ed) as [e|] eqn:He; simpl; [|exact Hnil].
    destruct (domNode e) as [el|]; simpl;
      eexists; (split; [rewrite <- ?app_assoc; reflexivity|]); repeat constructor.
  - unfold run_timer.
    destruct (find_timer id (timers w)) as [t|]; [|exact Hnil].
    destruct (timer_due t <=? clock w); [|exact Hnil].
    destruct (timer_callback t) as [ed' el]. simpl call.
    host_unfold. simpl.
    destruct (editors w !! ed') as [e|] eqn:He; simpl; [|exact Hnil].
    rewrite He. simpl.
    eexists. split; [rewrite <- !app_assoc; reflexivity|].
    repeat constructor. apply Hcap.
Qed.

Lemma turn_capped (T : ThemeData) (t : Turn) (w : World) :
  exists new, trace (turn T t w) = trace w ++ new /\ Forall sizing_event_capped new.
Proof.
  assert (Hnil : exists new, trace w = trace w ++ new /\ Forall sizing_event_capped new).
  { exists []. split; [symmetry; apply app_nil_r | constructor]. }
  destruct t as [|r ed|r ed|id|ed h|ed|ms]; cbn [turn]; try exact Hnil.
  - eexists. split; [reflexivity|]. repeat constructor.
  - apply (callbacks_capped w ed r 0%nat).
  - apply (callbacks_capped w ed r 0%nat).
  - apply (callbacks_capped w 0%nat true id).
Qed.

Lemma run_schedule_capped (T : ThemeData) (schedule : list Turn) (w : World) :
  exists new,
    trace (run_schedule T schedule w) = trace w ++ new /\ Forall sizing_event_capped new.
Proof.
  unfold run_schedule. revert w.
  induction schedule as [|t l IH]; intros w.
  - exists []. split; [symmetry; apply app_nil_r | constructor].
  - cbn [fold_left].
    destruct (turn_capped T t w) as (n1 & H1 & F1).
    destruct (IH (turn T t w)) as (n2 & H2 & F2).
    exists (n1 ++ n2). split.
    + rewrite H2, H1, app_assoc. reflexivity.
    + apply Forall_app. split; assumption.
Qed.

(** C3: whatever the editor answers (any line count, any content height,
    no model, no DOM node) and whatever the flag, every height that the
    mount callback of either revision, or any turn of the timer queue,
    assigns is [px h] for a Number [h] that is not above 800; [h] is at
    most 800 unless it is NaN.  So it is along every schedule of turns of
    the event loop. *)
Theorem C3_applied_height_never_above_800 :
  forall (EDITOR_THEME : ThemeData) (w : World) (ed : editor_ref)
         (resizeOnMount : bool) (id : timer_id) (schedule : list Turn),
    (exists new, trace (snd (LineCount.onMount resizeOnMount ed w)) = trace w ++ new
                 /\ Forall sizing_event_capped new) /\
    (exists new, trace (snd (MeasuredHeight.onMount resizeOnMount ed w)) = trace w ++ new
                 /\ Forall sizing_event_capped new) /\
    (exists new, trace (snd (run_timer id w)) = trace w ++ new
                 /\ Forall sizing_event_capped new) /\
    (exists new, trace (run_schedule EDITOR_THEME schedule w) = trace w ++ new
                 /\ Forall sizing_event_capped new).
Proof.
  intros T w ed r id schedule.
  destruct (callbacks_capped w ed r id) as (H1 & H2 & H3).
  split; [exact H1|]. split; [exact H2|]. split; [exact H3|].
  apply run_schedule_capped.
Qed.

Example ten_thousand_lines :
  px (Math_min [800%float; (18.81 * 10000)%float]) = "800px"%string.
Proof. reflexivity. Qed.

(** ** The theme registry *)


Lemma turn_themes (T : ThemeData) (t : Turn) (w : World) :
  themes (turn T t w)
  = if is_registration t then <["quickwit-light"%string := T]> (themes w) else themes w.
Proof.
  destruct t as [|r ed|r ed|id|ed h|ed|ms]; cbn [turn is_registration];
    try reflexivity.
  - destruct r; [|reflexivity]. host_unfold. simpl.
    destruct (editors w !! ed) as [e|]; simpl; [|reflexivity].
    destruct (domNode e); reflexivity.
  - destruct r; [|reflexivity]. host_unfold. simpl.
    destruct (editors w !! ed) as [e|] eqn:He; simpl; [|reflexivity].
    destruct (domNode e); simpl; [|reflexivity].
    rewrite He. simpl. destruct (model e); simpl; rewrite He; reflexivity.
  - unfold run_timer.
    destruct (find_timer id (timers w)) as [t|]; [|reflexivity].
    destruct (timer_due t <=? clock w); [|reflexivity].
    destruct (timer_callback t) as [ed el]. simpl call. host_unfold. simpl.
    destruct (editors w !! ed) as [e|] eqn:He; simpl; [|reflexivity].
    rewrite He. reflexivity.
Qed.

Lemma run_schedule_themes (T : ThemeData) (schedule : list Turn) (w : World) :
  themes (run_schedule T schedule w)
  = if existsb is_registration schedule
    then <["quickwit-light"%string := T]> (themes w)
    else themes w.
Proof.
  unfold run_schedule. revert w.
  induction schedule as [|t l IH]; intros w; [reflexivity|].
  cbn [fold_left existsb]. rewrite IH, turn_themes.
  destruct (is_registration t); cbn [orb].
  - destruct (existsb is_registration l); [apply insert_insert_eq | reflexivity].
  - reflexivity.
Qed.

(** C7: [beforeMount] is the same upsert in both revisions and cannot
    throw; run twice, or any number of times more, it leaves the theme
    registry, and everything else an editor renders from, as one run
    leaves it: "quickwit-light" names the descriptor [EDITOR_THEME].
    Only the record of the calls made grows.  The same holds of any
    schedule of turns of the event loop that follows one registration,
    whatever instances the turns belong to and however many of them
    register the theme again. *)
Theorem C7_theme_registration_idempotent :
  forall (EDITOR_THEME : ThemeData) (w : World) (n : nat) (schedule : list Turn),
    let register := MeasuredHeight.beforeMount EDITOR_THEME in
    let once := snd (register w) in
    let twice := snd (register once) in
    LineCount.beforeMount EDITOR_THEME = register /\
    fst (register w) = Normal tt /\
    themes once = <["quickwit-light"%string := EDITOR_THEME]> (themes w) /\
    themes once !! "quickwit-light"%string = Some EDITOR_THEME /\
    themes twice = themes once /\
    elements twice = elements once /\
    editors twice = editors once /\
    timers twice = timers once /\
    themes (repeat_call (S n) register w) = themes once /\
    themes (run_schedule EDITOR_THEME (CallBeforeMount :: schedule) w) = themes once.
Proof.
  intros T w n schedule register once twice.
  split; [reflexivity|]. split; [reflexivity|]. split; [reflexivity|].
  split; [apply lookup_insert_eq|].
  split; [apply insert_insert_eq|].
  do 3 (split; [reflexivity|]).
  split.
  - subst twice once. generalize w. induction n as [|k IH]; intros w0; [reflexivity|].
    change (repeat_call (S (S k)) register w0)
      with (repeat_call (S k) register (snd (register w0))).
    rewrite IH. simpl. apply insert_insert_eq.
  - rewrite run_schedule_themes. reflexivity.
Qed.

(** ** Serialization failure *)

(** C8: the component throws exactly when [JSON.stringify(content, null,
    2)] throws, and throws the same value; when it does not throw, the
    element it returns carries the serialized text. There is no
    fallback. *)
Theorem C8_serialization_failure_propagates :
  forall (EDITOR_THEME : ThemeData) (content : JsValue) (resizeOnMount : bool) (e : JsError),
    (MeasuredHeight.JsonEditor EDITOR_THEME content resizeOnMount = Throw e
       <-> JSON_stringify content 2 = Throw e) /\
    (LineCount.JsonEditor EDITOR_THEME content resizeOnMount = Throw e
       <-> JSON_stringify content 2 = Throw e) /\
    (forall props,
        MeasuredHeight.JsonEditor EDITOR_THEME content resizeOnMount = Normal props
        \/ LineCount.JsonEditor EDITOR_THEME content resizeOnMount = Normal props ->
        JSON_stringify content 2 = Normal (value props)).
Proof.
  intros T content r e.
  unfold MeasuredHeight.JsonEditor, LineCount.JsonEditor.
  destruct (JSON_stringify content 2) as [text|e']; repeat split;
    try congruence.
  - intros props [H|H]; injection H as <-; reflexivity.
  - intros props [H|H]; discriminate H.
Qed.

Example cyclic_content_throws (T : ThemeData) :
  MeasuredHeight.JsonEditor T
    (JsObject [(utf16 "a", JsNumber 1%float); (utf16 "self", JsArray [JsCircular])]) true
  = Throw (TypeError "Converting circular structure to JSON").
Proof. reflexivity. Qed.

Example bigint_content_throws (T : ThemeData) :
  LineCount.JsonEditor T (JsArray [JsNull; JsBigInt 1]) false
  = Throw (TypeError "Do not know how to serialize a BigInt").
Proof. reflexivity. Qed.

(** ** The round trip through JSON *)

Lemma positive_zeros_id (v : JsValue) :
  no_negative_zero v = true -> positive_zeros v = v.
Proof.
  induction v as [ | |b|x|s|z| | |items IH|props IH| |e] using JsValue_induction;
    intros H; try reflexivity.
  - cbn [no_negative_zero positive_zeros] in *.
    apply negb_true_iff in H. rewrite H. reflexivity.
  - cbn [no_negative_zero positive_zeros] in *. f_equal.
    induction IH as [|v items Hv _ IHl]; [reflexivity|].
    cbn [forallb] in H. apply andb_true_iff in H as [H1 H2].
    cbn [map]. rewrite (Hv H1), (IHl H2). reflexivity.
  - cbn [no_negative_zero positive_zeros] in *. f_equal.
    induction IH as [|[k v] props Hv _ IHl]; [reflexivity|].
    cbn [forallb] in H. apply andb_true_iff in H as [H1 H2].
    cbn [map]. cbn [snd] in Hv. rewrite (Hv H1), (IHl H2). reflexivity.
Qed.

Lemma stringify_parse (content : JsValue) :
  representable content = true ->
  exists text,
    JSON_stringify content 2 = Normal (Some text) /\
    JSON_parse text = Normal (positive_zeros content).
Proof.
  intros Hrep.
  destruct (serialize_reads_back 32%N [32%N] eq_refl content Hrep [] eq_refl)
    as (text & Hser & _ & Hparse).
  exists text. split; [exact Hser|].
  unfold JSON_parse.
  pose proof (Hparse (S (length text)) [] ltac:(lia) I) as Hp.
  rewrite app_nil_r in Hp. rewrite Hp. reflexivity.
Qed.

(** C5 (amended): for every JSON-representable [content] the component,
    in either revision, passes [JSON.stringify(content, null, 2)] to the
    editor as [value], and [JSON.parse] of that text is [content] with
    every negative zero replaced by the positive zero; it is [content]
    itself when [content] holds no negative zero. *)
Theorem C5_rendered_text_parses_back :
  forall (EDITOR_THEME : ThemeData) (content : JsValue) (resizeOnMount : bool),
    representable content = true ->
    exists text,
      JSON_stringify content 2 = Normal (Some text) /\
      (exists props,
          MeasuredHeight.JsonEditor EDITOR_THEME content resizeOnMount = Normal props /\
          value props = Some text) /\
      (exists props,
          LineCount.JsonEditor EDITOR_THEME content resizeOnMount = Normal props /\
          value props = Some text) /\
      JSON_parse text = Normal (positive_zeros content) /\
      (no_negative_zero content = true -> JSON_parse text = Normal content).
Proof.
  intros T content r Hrep.
  destruct (stringify_parse content Hrep) as (text & Hs & Hp).
  exists text. split; [exact Hs|].
  unfold MeasuredHeight.JsonEditor, LineCount.JsonEditor. rewrite Hs.
  split; [eexists; split; reflexivity|].
  split; [eexists; split; reflexivity|].
  split; [exact Hp|].
  intros Hnz. rewrite Hp, (positive_zeros_id content Hnz). reflexivity.
Qed.

(** The sample content. *)
Lemma C5_witness :
  exists text,
    JSON_stringify sample_content 2 = Normal (Some text) /\
    JSON_parse text = Normal sample_content.
Proof.
  destruct (C5_rendered_text_parses_back
              {| theme_base := "vs"; theme_inherit := true;
                 theme_rules := []; theme_colors := [] |}
              sample_content true eq_refl)
    as (text & Hs & _ & _ & _ & Hid).
  exists text. split; [exact Hs | exact (Hid eq_refl)].
Defined.

(** C5 as stated fails at the Number -0, which JSON can represent (the
    text "-0" parses to it): it is rendered as "0", which parses to +0. *)
Lemma C5_counterexample :
  representable (JsNumber (-0)%float) = true /\
  JSON_parse (utf16 "-0") = Normal (JsNumber (-0)%float) /\
  JSON_stringify (JsNumber (-0)%float) 2 = Normal (Some (utf16 "0")) /\
  JSON_parse (utf16 "0") = Normal (JsNumber 0%float) /\
  JsNumber 0%float <> JsNumber (-0)%float /\
  ~ (forall content text,
        representable content = true ->
        JSON_stringify content 2 = Normal (Some text) ->
        JSON_parse text = Normal content).
Proof.
  assert (Hne : JsNumber 0%float <> JsNumber (-0)%float).
  { intros H.
    apply (f_equal (fun v => match v with JsNumber x => get_sign x | _ => false end)) in H.
    vm_compute in H. discriminate H. }
  split; [reflexivity|]. split; [reflexivity|]. split; [reflexivity|].
  split; [reflexivity|]. split; [exact Hne|].
  intros Hall.
  specialize (Hall (JsNumber (-0)%float) (utf16 "0") eq_refl eq_refl).
  apply (f_equal (fun c => match c with
                            | Normal (JsNumber x) => get_sign x
                            | _ => false
                            end)) in Hall.
  vm_compute in Hall. discriminate Hall.
Qed.

(* ===================================================================== *)
(** * The text in the editor, for any content                             *)
(* ===================================================================== *)

Import Rendering.
Local Open Scope N_scope.

(** ** What is rendered is the JSON image *)

Lemma omitted_serialize (g i : JsString) (v : JsValue) :
  omitted v = true -> serialize g i v = Normal None.
Proof. destruct v; try discriminate; reflexivity. Qed.

Lemma serialize_none (g i : JsString) (v : JsValue) :
  serialize g i v = Normal None -> omitted v = true.
Proof.
  destruct v as [ | |b|x|s|z| | |items|props| |e]; cbn [serialize omitted];
    try reflexivity; try discriminate.
  - destruct b; discriminate.
  - destruct (is_finite x); discriminate.
  - destruct (serialize_elements _ items); discriminate.
  - destruct (serialize_members _ _ props); discriminate.
Qed.

Lemma forallb_kept {A B : Type} (P : A -> bool) (keep : A * B -> bool) (f : A * B -> B)
    (props : list (A * B)) :
  forallb P (map fst props) = true ->
  forallb P (map fst (flat_map (fun p => if keep p then [] else [(fst p, f p)]) props)) = true.
Proof.
  induction props as [|p props IH]; [reflexivity|].
  cbn [map forallb flat_map]. intros H. apply andb_true_iff in H as [H1 H2].
  destruct (keep p); cbn [app map forallb fst]; [|rewrite H1]; apply IH; exact H2.
Qed.

Lemma keys_ok_kept {B : Type} (keep : JsString * B -> bool) (f : JsString * B -> B)
    (props : list (JsString * B)) :
  keys_ok (map fst props) = true ->
  keys_ok (map fst (flat_map (fun p => if keep p then [] else [(fst p, f p)]) props)) = true.
Proof.
  induction props as [|p props IH]; [reflexivity|].
  cbn [map keys_ok flat_map]. intros H. apply andb_true_iff in H as [H1 H2].
  destruct (keep p); cbn [app map keys_ok fst]; [exact (IH H2)|].
  rewrite (IH H2), andb_true_r.
  apply (forallb_kept _ keep f props H1).
Qed.

(** What is serialized is the JSON image, and the image is representable. *)
Lemma serialize_image (g : JsString) (v : JsValue) :
  forall (i t : JsString),
    well_formed v = true ->
    serialize g i v = Normal (Some t) ->
    representable (json_image v) = true /\
    serialize g i (json_image v) = Normal (Some t).
Proof.
  induction v as [ | |b|x|s|z| | |items IH|props IH| |e] using JsValue_induction;
    intros i t Hwf Hser; try discriminate Hser.
  - split; [reflexivity | exact Hser].
  - split; [reflexivity | exact Hser].
  - cbn [json_image serialize] in *. destruct (is_finite x) eqn:Hfin.
    + split; [exact Hfin|]. cbn [serialize]. rewrite Hfin. exact Hser.
    + split; [reflexivity | exact Hser].
  - split; [exact Hwf | exact Hser].
  - (* arrays *)
    cbn [well_formed] in Hwf. cbn [serialize] in Hser. cbn [json_image representable serialize].
    set (f := fun x => if omitted x then JsNull else json_image x).
    assert (Hl : forall partial,
               serialize_elements (serialize g (i ++ g)) items = Normal partial ->
               forallb representable (map f items) = true /\
               serialize_elements (serialize g (i ++ g)) (map f items) = Normal partial).
    { clear Hser. induction IH as [|x items Hx _ IHl]; intros partial Hp.
      - split; [reflexivity | exact Hp].
      - cbn [forallb] in Hwf. apply andb_true_iff in Hwf as [Hw1 Hw2].
        cbn [serialize_elements] in Hp. cbn [map forallb serialize_elements].
        destruct (serialize g (i ++ g) x) as [[tx|]|ex] eqn:Ex; [| |discriminate Hp].
        + destruct (serialize_elements (serialize g (i ++ g)) items) as [rest|e'] eqn:Er;
            [|discriminate Hp].
          destruct (IHl Hw2 rest eq_refl) as [Hr Hs].
          assert (Ho : omitted x = false).
          { destruct (omitted x) eqn:Ho; [|reflexivity].
            rewrite (omitted_serialize g (i ++ g) x Ho) in Ex. discriminate Ex. }
          unfold f at 1 3. rewrite Ho.
          destruct (Hx (i ++ g) tx Hw1 Ex) as [Hrx Hsx].
          rewrite Hrx, Hr, Hsx, Hs. split; [reflexivity | exact Hp].
        + destruct (serialize_elements (serialize g (i ++ g)) items) as [rest|e'] eqn:Er;
            [|discriminate Hp].
          destruct (IHl Hw2 rest eq_refl) as [Hr Hs].
          unfold f at 1 3. rewrite (serialize_none g (i ++ g) x Ex).
          cbn [representable serialize]. rewrite Hr, Hs. split; [reflexivity | exact Hp]. }
    destruct (serialize_elements (serialize g (i ++ g)) items) as [partial|e'] eqn:Ep;
      [|discriminate Hser].
    destruct (Hl partial eq_refl) as [Hr Hs]. rewrite Hs. split; [exact Hr | exact Hser].
  - (* objects *)
    cbn [well_formed] in Hwf. apply andb_true_iff in Hwf as [Hkeys Hwf].
    cbn [serialize] in Hser. cbn [json_image representable serialize].
    set (F := fun p : JsString * JsValue =>
                if omitted (snd p) then [] else [(fst p, json_image (snd p))]).
    assert (Hl : forall partial,
               serialize_members (serialize g (i ++ g)) g props = Normal partial ->
               forallb (fun p => let '(k, x) := p in
                                 forallb is_code_unit k && representable x)
                       (flat_map F props) = true /\
               serialize_members (serialize g (i ++ g)) g (flat_map F props) = Normal partial).
    { clear Hser Hkeys. induction IH as [|[k x] props Hx _ IHl]; intros partial Hp.
      - split; [reflexivity | exact Hp].
      - cbn [forallb fst snd] in Hwf. apply andb_true_iff in Hwf as [Hw1 Hw2].
        apply andb_true_iff in Hw1 as [Hk Hw1]. cbn [snd] in Hx.
        cbn [serialize_members] in Hp. cbn [flat_map]. unfold F at 1 3. cbn [fst snd].
        destruct (serialize g (i ++ g) x) as [[tx|]|ex] eqn:Ex; [| |discriminate Hp].
        + destruct (serialize_members (serialize g (i ++ g)) g props) as [rest|e'] eqn:Er;
            [|discriminate Hp].
          destruct (IHl Hw2 rest eq_refl) as [Hr Hs].
          assert (Ho : omitted x = false).
          { destruct (omitted x) eqn:Ho; [|reflexivity].
            rewrite (omitted_serialize g (i ++ g) x Ho) in Ex. discriminate Ex. }
          rewrite Ho. cbn [app forallb serialize_members].
          destruct (Hx (i ++ g) tx Hw1 Ex) as [Hrx Hsx].
          rewrite Hk, Hrx, Hr, Hsx, Hs. split; [reflexivity | exact Hp].
        + destruct (serialize_members (serialize g (i ++ g)) g props) as [rest|e'] eqn:Er;
            [|discriminate Hp].
          destruct (IHl Hw2 rest eq_refl) as [Hr Hs].
          rewrite (serialize_none g (i ++ g) x Ex). cbn [app].
          rewrite Hr, Hs. split; [reflexivity | exact Hp]. }
    destruct (serialize_members (serialize g (i ++ g)) g props) as [partial|e'] eqn:Ep;
      [|discriminate Hser].
    destruct (Hl partial eq_refl) as [Hr Hs]. rewrite Hs, Hr, andb_true_r.
    split; [|exact Hser].
    apply (keys_ok_kept (fun p => omitted (snd p)) (fun p => json_image (snd p)) props Hkeys).
Qed.

Lemma neg_zero_text (x : number) :
  is_neg_zero x = true ->
  is_finite x = true /\ toString_units x = toString_units 0%float.
Proof.
  intros H. unfold is_neg_zero in H. apply andb_true_iff in H as [Hz _].
  unfold is_zero in Hz. rewrite FloatAxioms.eqb_spec in Hz.
  pose proof (SF2Prim_Prim2SF x) as Hx.
  destruct (Prim2SF x) as [s|s| |s m e] eqn:E;
    try (destruct s; discriminate Hz); try discriminate Hz.
  split.
  - rewrite <- Hx. destruct s; reflexivity.
  - unfold toString_units. rewrite E. reflexivity.
Qed.

(** Negative zero is rendered as positive zero is. *)
Lemma serialize_positive_zeros (g : JsString) (v : JsValue) :
  forall i, serialize g i (positive_zeros v) = serialize g i v.
Proof.
  induction v as [ | |b|x|s|z| | |items IH|props IH| |e] using JsValue_induction;
    intros i; try reflexivity.
  - cbn [positive_zeros serialize]. destruct (is_neg_zero x) eqn:Hz; [|reflexivity].
    destruct (neg_zero_text x Hz) as [Hfin Ht]. rewrite Hfin, Ht. reflexivity.
  - cbn [positive_zeros serialize].
    replace (serialize_elements (serialize g (i ++ g)) (map positive_zeros items))
      with (serialize_elements (serialize g (i ++ g)) items); [reflexivity|].
    induction IH as [|x items Hx _ IHl]; [reflexivity|].
    cbn [map serialize_elements]. rewrite Hx, <- IHl. reflexivity.
  - cbn [positive_zeros serialize].
    replace (serialize_members (serialize g (i ++ g)) g
               (map (fun p => let '(k, x) := p in (k, positive_zeros x)) props))
      with (serialize_members (serialize g (i ++ g)) g props); [reflexivity|].
    induction IH as [|[k x] props Hx _ IHl]; [reflexivity|].
    cbn [map serialize_members]. cbn [snd] in Hx. rewrite Hx, <- IHl. reflexivity.
Qed.




(** ** Failures *)

Lemma serialize_first_throw (g : JsString) (v : JsValue) :
  forall i,
    match first_throw v with
    | Some e => serialize g i v = Throw e
    | None => exists t, serialize g i v = Normal t
    end.
Proof.
  induction v as [ | |b|x|s|z| | |items IH|props IH| |e] using JsValue_induction;
    intros i; cbn [first_throw serialize]; try (eexists; reflexivity); try reflexivity.
  - destruct b; eexists; reflexivity.
  - destruct (is_finite x); eexists; reflexivity.
  - assert (Hl : match fold_right (fun x later => match first_throw x with
                                                  | Some e => Some e
                                                  | None => later
                                                  end) None items with
                 | Some e => serialize_elements (serialize g (i ++ g)) items = Throw e
                 | None => exists p, serialize_elements (serialize g (i ++ g)) items = Normal p
                 end).
    { induction IH as [|x items Hx _ IHl]; [eexists; reflexivity|].
      cbn [fold_right serialize_elements]. specialize (Hx (i ++ g)).
      destruct (first_throw x) as [e|].
      - rewrite Hx. reflexivity.
      - destruct Hx as [t ->].
        destruct (fold_right _ None items) as [e|].
        + rewrite IHl. reflexivity.
        + destruct IHl as [p ->]. eexists. reflexivity. }
    destruct (fold_right _ None items) as [e|].
    + rewrite Hl. reflexivity.
    + destruct Hl as [p ->]. eexists. reflexivity.
  - assert (Hl : match fold_right (fun p later => match first_throw (snd p) with
                                                  | Some e => Some e
                                                  | None => later
                                                  end) None props with
                 | Some e => serialize_members (serialize g (i ++ g)) g props = Throw e
                 | None => exists p, serialize_members (serialize g (i ++ g)) g props = Normal p
                 end).
    { induction IH as [|[k x] props Hx _ IHl]; [eexists; reflexivity|].
      cbn [fold_right serialize_members snd]. cbn [snd] in Hx. specialize (Hx (i ++ g)).
      destruct (first_throw x) as [e|].
      - rewrite Hx. reflexivity.
      - destruct Hx as [t ->].
        destruct (fold_right _ None props) as [e|].
        + rewrite IHl. reflexivity.
        + destruct IHl as [p ->]. eexists. reflexivity. }
    destruct (fold_right _ None props) as [e|].
    + rewrite Hl. reflexivity.
    + destruct Hl as [p ->]. eexists. reflexivity.
Qed.


(** The error of the first of two values that cannot be serialized. *)
Example first_of_two_throws (T : ThemeData) :
  MeasuredHeight.JsonEditor T
    (JsObject [(utf16 "a", JsArray [JsNumber 1%float; JsThrowing (SyntaxError "toJSON")]);
               (utf16 "b", JsBigInt 1)]) true
  = Throw (SyntaxError "toJSON").
Proof. reflexivity. Qed.

(** ** Lines *)

Lemma line_feeds_app (a b : JsString) :
  line_feeds (a ++ b) = (line_feeds a + line_feeds b)%nat.
Proof. unfold line_feeds. rewrite List.filter_app, length_app. reflexivity. Qed.

Lemma line_feeds_cons (c : code_unit) (t : JsString) :
  line_feeds (c :: t) = ((if (10 =? c)%N then 1 else 0) + line_feeds t)%nat.
Proof. unfold line_feeds. cbn [List.filter]. destruct (10 =? c); reflexivity. Qed.

Lemma plain_app (a b : JsString) : plain (a ++ b) = plain a && plain b.
Proof. apply forallb_app. Qed.

Lemma plain_no_line_feed (t : JsString) : plain t = true -> line_feeds t = 0%nat.
Proof.
  induction t as [|c t IH]; [reflexivity|]. cbn [plain forallb].
  intros H. apply andb_true_iff in H as [Hc Ht]. rewrite line_feeds_cons, (IH Ht).
  apply N.leb_le in Hc. destruct (N.eqb_spec 10 c); [lia | reflexivity].
Qed.

Lemma digits_plain (ds : JsString) : forallb is_digit ds = true -> plain ds = true.
Proof.
  induction ds as [|c ds IH]; [reflexivity|]. cbn [forallb plain].
  intros H. apply andb_true_iff in H as [Hc Hds].
  fold (plain ds). rewrite (IH Hds), andb_true_r.
  unfold is_digit in Hc. apply andb_true_iff in Hc as [Hc _].
  apply N.leb_le in Hc. apply N.leb_le. lia.
Qed.

Lemma plain_firstn (n : nat) (t : JsString) : plain t = true -> plain (firstn n t) = true.
Proof.
  revert n. induction t as [|c t IH]; intros [|n] H; try reflexivity.
  cbn [firstn plain forallb] in *. apply andb_true_iff in H as [Hc Ht].
  rewrite Hc. apply (IH n Ht).
Qed.

Lemma plain_skipn (n : nat) (t : JsString) : plain t = true -> plain (skipn n t) = true.
Proof.
  revert n. induction t as [|c t IH]; intros [|n] H; try reflexivity; try exact H.
  cbn [skipn plain forallb] in *. apply andb_true_iff in H as [_ Ht]. apply (IH n Ht).
Qed.

Lemma decimal_text_plain (ds : JsString) (n : Z) :
  forallb is_digit ds = true -> plain (decimal_text ds n) = true.
Proof.
  intros Hd. pose proof (digits_plain ds Hd) as Hp.
  unfold decimal_text.
  destruct ((-5 <=? n)%Z && (n <=? 21)%Z).
  - destruct (Z.of_nat (length ds) <=? n)%Z.
    + rewrite plain_app, Hp. apply digits_plain, zeros_digits.
    + destruct (0 <? n)%Z.
      * rewrite plain_app, plain_firstn by exact Hp. cbn [plain forallb andb].
        change (32 <=? 46) with true. apply plain_skipn. exact Hp.
      * cbn [plain forallb]. change (32 <=? 48) with true. change (32 <=? 46) with true.
        cbn [andb]. fold (plain (zeros (- n) ++ ds)).
        rewrite plain_app, Hp, andb_true_r. apply digits_plain, zeros_digits.
  - pose proof (digits_plain _ (proj1 (digits_of_spec (Z.to_N (Z.abs (n - 1)))))) as He.
    assert (Hs : (32 <=? (if (0 <=? n - 1)%Z then 43 else 45)) = true)
      by (destruct (0 <=? n - 1)%Z; reflexivity).
    destruct ds as [|d [|d2 rest]]; [reflexivity| |].
    + cbn [plain forallb] in *. rewrite Hs. apply andb_true_iff in Hp as [-> _].
      change (32 <=? 101) with true. cbn [andb]. exact He.
    + cbn [plain forallb] in Hp. apply andb_true_iff in Hp as [Hd1 Hp].
      cbn [plain forallb]. rewrite Hd1. change (32 <=? 46) with true. cbn [andb].
      change (d2 :: rest ++ ?x) with ((d2 :: rest) ++ x).
      fold (plain ((d2 :: rest) ++ 101 :: (if (0 <=? n - 1)%Z then 43 else 45)
                      :: digits_of (Z.to_N (Z.abs (n - 1))))).
      rewrite plain_app. cbn [plain forallb]. rewrite Hp, Hs.
      change (32 <=? 101) with true. cbn [andb]. exact He.
Qed.

Lemma toString_units_plain (x : number) : plain (toString_units x) = true.
Proof.
  unfold toString_units. destruct (Prim2SF x) as [s|s| |s m e]; try reflexivity.
  - destruct s; reflexivity.
  - destruct (decimal_of m e) as [d t].
    rewrite plain_app.
    rewrite decimal_text_plain by apply (proj1 (digits_of_spec d)).
    destruct s; reflexivity.
Qed.

Lemma hex_digit_plain (n : N) : (32 <=? hex_digit n) = true.
Proof. unfold hex_digit. apply N.leb_le. destruct (n <? 10); lia. Qed.

Lemma unicode_escape_plain (c : code_unit) : plain (unicode_escape c) = true.
Proof.
  unfold unicode_escape. cbn [plain forallb]. rewrite !hex_digit_plain. reflexivity.
Qed.

Lemma short_escape_plain (c x : code_unit) : short_escape c = Some x -> (32 <=? x) = true.
Proof.
  unfold short_escape.
  repeat match goal with
         | |- (if ?b then _ else _) = _ -> _ => destruct b
         end; intros H; try discriminate H; injection H as <-; reflexivity.
Qed.

Lemma quote_body_plain (n : nat) :
  forall s : JsString, (length s <= n)%nat -> plain (quote_body s) = true.
Proof.
  induction n as [|n IH]; intros [|c rest] Hlen; try reflexivity; [cbn in Hlen; lia|].
  cbn [length] in Hlen.
  assert (Hrest : plain (quote_body rest) = true) by (apply IH; lia).
  assert (Hesc : plain (unicode_escape c ++ quote_body rest) = true)
    by (rewrite plain_app, unicode_escape_plain, Hrest; reflexivity).
  cbn [quote_body].
  destruct (short_escape c) as [x|] eqn:Ex.
  - cbn [plain forallb]. rewrite (short_escape_plain c x Ex). exact Hrest.
  - destruct (N.ltb_spec c 32) as [Hlt|Hge]; [exact Hesc|].
    assert (Hc : (32 <=? c) = true) by (apply N.leb_le; exact Hge).
    destruct (is_leading_surrogate c) eqn:Hl.
    + destruct rest as [|d rest']; [apply unicode_escape_plain|].
      destruct (is_trailing_surrogate d) eqn:Ht; [|exact Hesc].
      cbn [plain forallb]. rewrite Hc. cbn [andb].
      assert (Hd : (32 <=? d) = true).
      { unfold is_trailing_surrogate in Ht. apply andb_true_iff in Ht as [Ht _].
        apply N.leb_le in Ht. apply N.leb_le. lia. }
      rewrite Hd. cbn [andb]. apply IH. cbn [length] in Hlen. lia.
    + destruct (is_trailing_surrogate c); [exact Hesc|].
      cbn [plain forallb]. rewrite Hc. exact Hrest.
Qed.

Lemma QuoteJSONString_plain (s : JsString) : plain (QuoteJSONString s) = true.
Proof.
  unfold QuoteJSONString. cbn [plain forallb]. change (32 <=? 34) with true. cbn [andb].
  fold (plain (quote_body s ++ [34])).
  rewrite plain_app, (quote_body_plain (length s) s (le_n _)). reflexivity.
Qed.

Lemma list_sum_cons (a : nat) (l : list nat) : list_sum (a :: l) = (a + list_sum l)%nat.
Proof. reflexivity. Qed.

Lemma join_lines (sep : JsString) (partial : list JsString) :
  line_feeds sep = 1%nat ->
  partial <> [] ->
  S (line_feeds (join sep partial)) = list_sum (map (fun p => S (line_feeds p)) partial).
Proof.
  intros Hsep. induction partial as [|p partial IH]; [contradiction|]. intros _.
  destruct partial as [|q partial].
  - cbn [join map list_sum fold_right]. lia.
  - rewrite join_cons2. rewrite !line_feeds_app, Hsep.
    specialize (IH ltac:(discriminate)).
    change (list_sum (map (fun p => S (line_feeds p)) (p :: q :: partial)))
      with (S (line_feeds p) + list_sum (map (fun p => S (line_feeds p)) (q :: partial)))%nat.
    rewrite <- IH. lia.
Qed.

Lemma wrap_lines (open close : code_unit) (g0 : code_unit) (gs stepback indent : JsString)
    (partial : list JsString) :
  (10 =? open) = false -> (10 =? close) = false ->
  plain stepback = true -> plain indent = true ->
  S (line_feeds (wrap open close (g0 :: gs) stepback indent partial))
  = match partial with
    | [] => 1%nat
    | _ => (2 + list_sum (map (fun p => S (line_feeds p)) partial))%nat
    end.
Proof.
  intros Ho Hc Hs Hi. unfold wrap. destruct partial as [|p partial].
  - rewrite !line_feeds_cons, Ho, Hc. reflexivity.
  - rewrite <- (join_lines (44 :: 10 :: indent) (p :: partial)); [|
      rewrite !line_feeds_cons; rewrite (plain_no_line_feed indent Hi); reflexivity |
      discriminate].
    rewrite !line_feeds_cons, !line_feeds_app, !line_feeds_cons, !line_feeds_app, Ho.
    rewrite (plain_no_line_feed indent Hi), (plain_no_line_feed stepback Hs).
    rewrite line_feeds_cons, Hc. change (10 =? 10) with true.
    change (line_feeds []) with 0%nat. cbv iota. lia.
Qed.

Section Lines.
Variables (g0 : code_unit) (gs : JsString).
Hypothesis gap_plain : plain (g0 :: gs) = true.

Lemma serialize_lines (v : JsValue) :
  forall (indent t : JsString),
    plain indent = true ->
    serialize (g0 :: gs) indent v = Normal (Some t) ->
    S (line_feeds t) = json_lines v.
Proof.
  induction v as [ | |b|x|s|z| | |items IH|props IH| |e] using JsValue_induction;
    intros indent t Hind Hser; try discriminate Hser.
  - injection Hser as <-. reflexivity.
  - destruct b; injection Hser as <-; reflexivity.
  - cbn [serialize] in Hser. cbn [json_lines].
    destruct (is_finite x); injection Hser as <-; [|reflexivity].
    rewrite (plain_no_line_feed _ (toString_units_plain x)). reflexivity.
  - injection Hser as <-. cbn [json_lines].
    rewrite (plain_no_line_feed _ (QuoteJSONString_plain s)). reflexivity.
  - (* arrays *)
    cbn [serialize] in Hser.
    assert (HI : plain (indent ++ g0 :: gs) = true) by (rewrite plain_app, Hind; exact gap_plain).
    assert (Hl : forall partial,
               serialize_elements (serialize (g0 :: gs) (indent ++ g0 :: gs)) items
               = Normal partial ->
               map (fun p => S (line_feeds p)) partial = map json_lines items).
    { clear Hser. induction IH as [|x items Hx _ IHl]; intros partial Hp.
      - injection Hp as <-. reflexivity.
      - cbn [serialize_elements] in Hp.
        destruct (serialize (g0 :: gs) (indent ++ g0 :: gs) x) as [[tx|]|ex] eqn:Ex;
          [| |discriminate Hp];
          (destruct (serialize_elements (serialize (g0 :: gs) (indent ++ g0 :: gs)) items)
             as [rest|e'] eqn:Er; [|discriminate Hp]);
          injection Hp as <-; cbn [map]; rewrite (IHl rest eq_refl); f_equal.
        + apply (Hx _ _ HI Ex).
        + apply serialize_none in Ex. destruct x; try discriminate Ex; reflexivity. }
    destruct (serialize_elements (serialize (g0 :: gs) (indent ++ g0 :: gs)) items)
      as [partial|e'] eqn:Ep; [|discriminate Hser].
    injection Hser as <-.
    rewrite wrap_lines by (try reflexivity; assumption).
    specialize (Hl partial eq_refl). rewrite Hl.
    cbn [json_lines]. destruct items, partial; try discriminate Hl; reflexivity.
  - (* objects *)
    cbn [serialize] in Hser.
    assert (HI : plain (indent ++ g0 :: gs) = true) by (rewrite plain_app, Hind; exact gap_plain).
    assert (Hl : forall partial,
               serialize_members (serialize (g0 :: gs) (indent ++ g0 :: gs)) (g0 :: gs) props
               = Normal partial ->
               list_sum (map (fun p => S (line_feeds p)) partial)
               = list_sum (map (fun p => if omitted (snd p) then 0%nat
                                         else json_lines (snd p)) props)
               /\ (partial = [] <-> forallb (fun p => omitted (snd p)) props = true)).
    { clear Hser. induction IH as [|[k x] props Hx _ IHl]; intros partial Hp.
      - injection Hp as <-. split; [reflexivity | split; reflexivity].
      - cbn [serialize_members] in Hp. cbn [snd] in Hx.
        destruct (serialize (g0 :: gs) (indent ++ g0 :: gs) x) as [[tx|]|ex] eqn:Ex;
          [| |discriminate Hp];
          (destruct (serialize_members (serialize (g0 :: gs) (indent ++ g0 :: gs))
                       (g0 :: gs) props) as [rest|e'] eqn:Er; [|discriminate Hp]);
          injection Hp as <-; destruct (IHl rest eq_refl) as [Hsum Hnil];
          cbn [map forallb snd]; rewrite ?list_sum_cons.
        + assert (Ho : omitted x = false).
          { destruct (omitted x) eqn:Ho; [|reflexivity].
            rewrite (omitted_serialize _ _ x Ho) in Ex. discriminate Ex. }
          rewrite Ho. split; [|split; discriminate].
          rewrite Hsum, <- (Hx _ _ HI Ex).
          f_equal. f_equal.
          change (34 :: (quote_body k ++ [34]) ++ 58 :: 32 :: tx)
            with (QuoteJSONString k ++ 58 :: 32 :: tx).
          rewrite line_feeds_app, !line_feeds_cons.
          rewrite (plain_no_line_feed _ (QuoteJSONString_plain k)). reflexivity.
        + rewrite (serialize_none _ _ x Ex). cbn [andb]. split; [exact Hsum | exact Hnil]. }
    destruct (serialize_members (serialize (g0 :: gs) (indent ++ g0 :: gs)) (g0 :: gs) props)
      as [partial|e'] eqn:Ep; [|discriminate Hser].
    injection Hser as <-.
    rewrite wrap_lines by (try reflexivity; assumption).
    destruct (Hl partial eq_refl) as [Hsum Hnil]. cbn [json_lines].
    destruct partial as [|m partial].
    + rewrite (proj1 Hnil eq_refl). reflexivity.
    + destruct (forallb (fun p => omitted (snd p)) props).
      * destruct Hnil as [_ Hnil]. discriminate (Hnil eq_refl).
      * rewrite Hsum. reflexivity.
Qed.
End Lines.



Local Open Scope Z_scope.

(* ===================================================================== *)
(** * The heights assigned                                                *)
(* ===================================================================== *)

Import Sizing.

(** ** The order of Number values, continued *)

Lemma SFcompare_refl (a : spec_float) :
  a <> S754_nan -> SFcompare a a = Some Eq.
Proof.
  destruct a as [s|s| |s m e]; intros H; try contradiction; simpl.
  - reflexivity.
  - destruct s; reflexivity.
  - destruct s; rewrite Z.compare_refl;
      change (Pos.compare_cont Eq m m) with (Pos.compare m m);
      rewrite Pos.compare_refl; reflexivity.
Qed.

Lemma leb_not_nan (a b : number) : (a <=? b)%float = true -> is_nan b = false.
Proof.
  rewrite FloatAxioms.leb_spec. unfold SFleb. intros H.
  unfold is_nan. rewrite FloatAxioms.eqb_spec. unfold SFeqb.
  rewrite SFcompare_refl; [reflexivity|].
  intros E. rewrite E in H. destruct (Prim2SF a); discriminate H.
Qed.

Lemma leb_not_ltb (a b : number) : (a <=? b)%float = true -> (b <? a)%float = false.
Proof.
  rewrite FloatAxioms.leb_spec, FloatAxioms.ltb_spec. unfold SFleb, SFltb.
  rewrite (SFcompare_antisym (Prim2SF a) (Prim2SF b)).
  destruct (SFcompare (Prim2SF a) (Prim2SF b)) as [[ | | ]|]; simpl; congruence.
Qed.

Lemma ltb_not_nan (a b : number) : (a <? b)%float = true -> is_nan a = false.
Proof.
  rewrite FloatAxioms.ltb_spec. unfold SFltb. intros H.
  unfold is_nan. rewrite FloatAxioms.eqb_spec. unfold SFeqb.
  rewrite SFcompare_refl; [reflexivity|].
  intros E. rewrite E in H. discriminate H.
Qed.

(** The three cases of the ceiling. *)
Lemma Math_min_800_below (h : number) :
  (h <? 800)%float = true -> Math_min [800%float; h] = h.
Proof.
  intros H. rewrite Math_min_800_cases by (apply (ltb_not_nan h 800 H)).
  rewrite H. reflexivity.
Qed.

Lemma Math_min_800_above (h : number) :
  (800 <=? h)%float = true -> Math_min [800%float; h] = 800%float.
Proof.
  intros H. rewrite Math_min_800_cases by (apply (leb_not_nan 800 h H)).
  rewrite (leb_not_ltb 800 h H). reflexivity.
Qed.

Lemma number_trichotomy (h : number) :
  (h <? 800)%float = true \/ (800 <=? h)%float = true \/ is_nan h = true.
Proof.
  rewrite FloatAxioms.ltb_spec, FloatAxioms.leb_spec. unfold SFltb, SFleb, is_nan.
  rewrite FloatAxioms.eqb_spec. unfold SFeqb.
  rewrite (SFcompare_antisym (Prim2SF h) (Prim2SF 800%float)).
  destruct (Prim2SF h) as [s|s| |s m e] eqn:E.
  - left. destruct s; reflexivity.
  - destruct s; [left | right; left]; reflexivity.
  - right. right. reflexivity.
  - destruct (SFcompare (S754_finite s m e) (Prim2SF 800%float)) as [[ | | ]|] eqn:C;
      simpl; auto.
    destruct s; simpl in C; discriminate C.
Qed.

(** X4: the height the timer's callback assigns, by the content height
    [h] the editor reports: [h] itself, as a [px] length, when [h] is
    below 800 (there is no floor: zero, negative heights and -Infinity
    pass); exactly "800px" when [h] is 800 or more, +Infinity included;
    "NaNpx" when [h] is NaN.  The three cases are all there are. *)
Theorem X4_measured_height_by_cases :
  forall (u : World) (ed : editor_ref) (e : Editor) (el : elem_ref),
    editors u !! ed = Some e ->
    let h := contentHeight e in
    ((h <? 800)%float = true \/ (800 <=? h)%float = true \/ is_nan h = true) /\
    ((h <? 800)%float = true -> sized el (px h) (MeasuredHeight.resize ed el u)) /\
    ((800 <=? h)%float = true -> sized el "800px" (MeasuredHeight.resize ed el u)) /\
    (is_nan h = true -> sized el "NaNpx" (MeasuredHeight.resize ed el u)).
Proof.
  intros u ed e el He h.
  assert (HB : forall v, px (Math_min [800%float; h]) = v ->
                         sized el v (MeasuredHeight.resize ed el u)).
  { intros v <-. destruct (resize_run u ed e el He) as (u' & Hr & Hel & _).
    unfold sized. rewrite Hr. cbn [fst snd]. rewrite Hel, lookup_insert_eq. auto. }
  split; [apply number_trichotomy|].
  split; [intros H; apply HB; rewrite Math_min_800_below by exact H; reflexivity|].
  split; [intros H; apply HB; rewrite Math_min_800_above by exact H; reflexivity|].
  intros H; apply HB; rewrite Math_min_800_nan by exact H; reflexivity.
Qed.

(** In [world0]: 56.5 pixels pass, 7000 pixels and +Infinity give the
    ceiling, and a negative height passes. *)
Lemma X4_witness :
  sized 7%nat "56.5px" (MeasuredHeight.resize 3%nat 7%nat world0) /\
  sized 7%nat "800px" (MeasuredHeight.resize 1%nat 7%nat world0) /\
  sized 7%nat "800px" (MeasuredHeight.resize 1%nat 7%nat (settle 1%nat infinity world0)) /\
  sized 7%nat "-5px" (MeasuredHeight.resize 1%nat 7%nat (settle 1%nat (-5)%float world0)).
Proof.
  split; [|split; [|split]].
  - exact (proj1 (proj2 (X4_measured_height_by_cases world0 3%nat
             {| domNode := Some 7%nat; model := None;
                contentHeight := 56.5%float; disposed := false |} 7%nat eq_refl)) eq_refl).
  - exact (proj1 (proj2 (proj2 (X4_measured_height_by_cases world0 1%nat
             {| domNode := Some 7%nat; model := Some {| lineCount := 3%float |};
                contentHeight := 7000%float; disposed := false |} 7%nat eq_refl))) eq_refl).
  - exact (proj1 (proj2 (proj2 (X4_measured_height_by_cases
             (settle 1%nat infinity world0) 1%nat
             {| domNode := Some 7%nat; model := Some {| lineCount := 3%float |};
                contentHeight := infinity; disposed := false |} 7%nat eq_refl))) eq_refl).
  - exact (proj1 (proj2 (X4_measured_height_by_cases
             (settle 1%nat (-5)%float world0) 1%nat
             {| domNode := Some 7%nat; model := Some {| lineCount := 3%float |};
                contentHeight := (-5)%float; disposed := false |} 7%nat eq_refl)) eq_refl).
Defined.

(** ** Rounding never goes below the truncated value *)

Lemma shr_1_half (mrs : shr_record) :
  0 <= shr_m mrs -> shr_m (shr_1 mrs) = shr_m mrs / 2 /\ 0 <= shr_m (shr_1 mrs).
Proof.
  destruct mrs as [m r s]. cbn [shr_m]. intros Hm.
  destruct m as [|q|q]; [split; reflexivity | | lia].
  destruct q as [q|q|]; cbn [shr_1 shr_m].
  - split; [|lia]. apply (Z.div_unique _ 2 _ 1); lia.
  - split; [|lia]. apply (Z.div_unique _ 2 _ 0); lia.
  - split; [reflexivity | lia].
Qed.

Lemma iter_pos_shr_1_floor (p : positive) :
  forall mrs : shr_record,
    0 <= shr_m mrs ->
    shr_m (SpecFloat.iter_pos shr_1 p mrs) = shr_m mrs / 2 ^ Zpos p
    /\ 0 <= shr_m (SpecFloat.iter_pos shr_1 p mrs).
Proof.
  induction p as [p IH|p IH|]; intros mrs Hm.
  - assert (Hp : 0 < 2 ^ Zpos p) by (apply Z.pow_pos_nonneg; lia).
    simpl SpecFloat.iter_pos.
    destruct (shr_1_half mrs Hm) as [H1 N1].
    destruct (IH _ N1) as [H2 N2]. destruct (IH _ N2) as [H3 N3].
    split; [|exact N3]. rewrite H3, H2, H1.
    rewrite !Z.div_div by lia.
    replace (Zpos p~1) with (1 + Zpos p + Zpos p) by lia.
    rewrite !Z.pow_add_r by lia. change (2 ^ 1) with 2. f_equal. lia.
  - assert (Hp : 0 < 2 ^ Zpos p) by (apply Z.pow_pos_nonneg; lia).
    simpl SpecFloat.iter_pos.
    destruct (IH _ Hm) as [H2 N2]. destruct (IH _ N2) as [H3 N3].
    split; [|exact N3]. rewrite H3, H2.
    rewrite !Z.div_div by lia.
    replace (Zpos p~0) with (Zpos p + Zpos p) by lia.
    rewrite !Z.pow_add_r by lia. reflexivity.
  - simpl SpecFloat.iter_pos. change (2 ^ 1) with 2. apply shr_1_half. exact Hm.
Qed.

Lemma round_nearest_even_bounds (m : Z) (l : location) :
  m <= round_nearest_even m l <= m + 1.
Proof.
  unfold round_nearest_even. destruct l as [|[ | | ]]; try lia.
  destruct (IntDef.Z.even m); lia.
Qed.

(** A positive integer of [53 + p] binary digits times [2^E] rounds to
    infinity, or to a binary64 that is not below the truncation of the
    integer to 53 digits. *)
Lemma binary_round_aux_lower (M : positive) (E : Z) (p : positive) :
  Zpos (digits2_pos M) = 53 + Zpos p ->
  SpecFloat.emin prec emax <= E + Zpos p ->
  let R := binary_round_aux prec emax false (Zpos M) E loc_Exact in
  R = S754_infinity false \/
  exists m e,
    R = S754_finite false m e /\
    ((e = E + Zpos p /\ Zpos M / 2 ^ Zpos p <= Zpos m) \/ e = E + Zpos p + 1).
Proof.
  intros Hd Hmin R. subst R.
  pose proof (digits2_bounds M) as [Mlo Mhi]. rewrite Hd in Mlo, Mhi.
  assert (Hp : 0 < 2 ^ Zpos p) by (apply Z.pow_pos_nonneg; lia).
  unfold binary_round_aux.
  assert (H1 : shr_fexp prec emax (Zpos M) E loc_Exact
               = (SpecFloat.iter_pos shr_1 p (exact_record (Zpos M)), E + Zpos p)).
  { unfold shr_fexp. simpl Zdigits2. rewrite Hd.
    unfold fexp. change prec with 53 in *.
    replace (Z.max (53 + Zpos p + E - 53) (SpecFloat.emin 53 emax) - E) with (Zpos p) by lia.
    reflexivity. }
  rewrite H1.
  destruct (iter_pos_shr_1_floor p (exact_record (Zpos M)) ltac:(cbn; lia)) as [HF _].
  cbn [shr_m] in HF.
  set (mrs := SpecFloat.iter_pos shr_1 p (exact_record (Zpos M))) in *.
  set (F := Zpos M / 2 ^ Zpos p) in *.
  assert (Flo : 2 ^ 52 <= F).
  { subst F. apply Z.div_le_lower_bound; [lia|].
    replace (53 + Zpos p - 1) with (Zpos p + 52) in Mlo by lia.
    rewrite Z.pow_add_r in Mlo by lia. lia. }
  assert (Fhi : F < 2 ^ 53).
  { subst F. apply Z.div_lt_upper_bound; [lia|].
    rewrite Z.pow_add_r in Mhi by lia. lia. }
  pose proof (round_nearest_even_bounds (shr_m mrs) (loc_of_shr_record mrs)) as Hr.
  set (mr := round_nearest_even (shr_m mrs) (loc_of_shr_record mrs)) in *.
  rewrite HF in Hr.
  clearbody mr. clear H1 HF. clearbody mrs.
  destruct mr as [|q|q]; try lia.
  destruct (Z.eq_dec (Zpos q) (2 ^ 53)) as [Hcarry|Hno].
  - (* the carry: one more digit *)
    assert (Hq : q = (2 ^ 53)%positive) by (change (2 ^ 53) with 9007199254740992 in Hcarry; lia).
    subst q.
    assert (H2 : shr_fexp prec emax (Zpos (2 ^ 53)) (E + Zpos p) loc_Exact
                 = (exact_record (Zpos (2 ^ 52)), E + Zpos p + 1)).
    { unfold shr_fexp. change (Zdigits2 (Zpos (2 ^ 53))) with 54.
      unfold fexp. change prec with 53 in *.
      replace (Z.max (54 + (E + Zpos p) - 53) (SpecFloat.emin 53 emax) - (E + Zpos p))
        with 1 by lia.
      reflexivity. }
    rewrite H2. cbn [shr_m].
    destruct (_ <=? _); [right | left; reflexivity].
    eexists. eexists. split; [reflexivity|]. right. reflexivity.
  - assert (Hdq : Zpos (digits2_pos q) = 53).
    { apply digits2_unique; [|lia]. change (53 - 1) with 52. lia. }
    assert (H2 : shr_fexp prec emax (Zpos q) (E + Zpos p) loc_Exact
                 = (exact_record (Zpos q), E + Zpos p)).
    { unfold shr_fexp. simpl Zdigits2. rewrite Hdq.
      unfold fexp. change prec with 53 in *.
      replace (Z.max (53 + (E + Zpos p) - 53) (SpecFloat.emin 53 emax) - (E + Zpos p))
        with 0 by lia.
      reflexivity. }
    rewrite H2. cbn [shr_m].
    destruct (_ <=? _); [right | left; reflexivity].
    eexists. eexists. split; [reflexivity|]. left. split; [reflexivity | lia].
Qed.

(** ** Forty-three lines reach the ceiling *)

Lemma estimate_reaches_ceiling (L : number) :
  (43 <=? L)%float = true -> (800 <=? 18.81 * L)%float = true.
Proof.
  rewrite !FloatAxioms.leb_spec, mul_spec. unfold SFleb.
  pose proof (Prim2SF_valid L) as Hvalid.
  change (Prim2SF 43%float) with (S754_finite false 6051711999279104 (-47)).
  change (Prim2SF 800%float) with (S754_finite false 7036874417766400 (-43)).
  change (Prim2SF 18.81%float) with (S754_finite false 5294544311927439 (-48)).
  destruct (Prim2SF L) as [s|s| |s m e]; try (destruct s; discriminate).
  - destruct s; [discriminate | reflexivity].
  - discriminate.
  - destruct s; [discriminate|]. cbn [SFcompare]. intros H.
    cbn [valid_binary] in Hvalid. destruct (bounded_canonical m e Hvalid) as [Hc He].
    assert (Hexp : -47 <= e /\ (e = -47 -> 6051711999279104 <= Zpos m)).
    { destruct (Z.compare_spec (-47) e) as [<-|Hlt|Hgt]; [| lia | discriminate H].
      split; [lia|]. intros _.
      change (PosDef.Pos.compare_cont Eq 6051711999279104 m)
        with (Pos.compare 6051711999279104 m) in H.
      destruct (Pos.compare_spec 6051711999279104 m); try discriminate H; lia. }
    clear H. destruct Hexp as [He47 Hm43].
    pose proof (digits2_bounds m) as [mlo mhi].
    assert (Hd : Zpos (digits2_pos m) = 53).
    { unfold fexp, SpecFloat.emin in Hc. change prec with 53 in Hc.
      change emax with 1024 in Hc. lia. }
    rewrite Hd in mlo, mhi. change (2 ^ (53 - 1)) with 4503599627370496 in mlo.
    change (2 ^ 53) with 9007199254740992 in mhi.
    unfold SF64mul, SFmul. cbn [xorb].
    remember (5294544311927439 * m)%positive as M eqn:EM.
    assert (HM : Zpos M = 5294544311927439 * Zpos m) by (subst M; lia).
    clear EM.
    pose proof (digits2_bounds M) as [Mlo Mhi].
    remember (Zpos (digits2_pos M)) as d eqn:Ed.
    assert (Hd105 : d = 105 \/ d = 106).
    { assert (0 < d) by (subst d; lia).
      destruct (Z.le_gt_cases d 104) as [Hle|Hgt].
      - exfalso.
        assert (Hpow : 2 ^ d <= 2 ^ 104) by (apply Z.pow_le_mono_r; lia).
        change (2 ^ 104) with 20282409603651670423947251286016 in Hpow. lia.
      - destruct (Z.le_gt_cases 107 d) as [Hge|Hlt]; [|lia].
        exfalso.
        assert (Hpow : 2 ^ 106 <= 2 ^ (d - 1)) by (apply Z.pow_le_mono_r; lia).
        change (2 ^ 106) with 81129638414606681695789005144064 in Hpow. lia. }
    assert (Hround : forall p : positive,
               d = 53 + Zpos p ->
               match binary_round_aux prec emax false (Zpos M) (-48 + e) loc_Exact with
               | S754_infinity false => True
               | S754_finite false m' e' =>
                   (e' = -48 + e + Zpos p /\ Zpos M / 2 ^ Zpos p <= Zpos m')
                   \/ e' = -48 + e + Zpos p + 1
               | _ => False
               end).
    { intros p Hp. rewrite Ed in Hp.
      destruct (binary_round_aux_lower M (-48 + e) p Hp) as [->|(m' & e' & -> & Hcase)].
      - unfold SpecFloat.emin. change prec with 53. change emax with 1024. lia.
      - exact I.
      - exact Hcase. }
    destruct Hd105 as [Hd'|Hd'].
    + specialize (Hround 52%positive ltac:(clear - Hd'; lia)).
      destruct (binary_round_aux prec emax false (Zpos M) (-48 + e) loc_Exact)
        as [s'|s'| |s' m' e']; try contradiction.
      * destruct s'; [contradiction | reflexivity].
      * destruct s'; [contradiction|]. cbn [SFcompare].
        destruct Hround as [[-> Hfloor]| ->].
        -- destruct (Z.compare_spec (-43) (-48 + e + 52)) as [Heq|Hlt|Hgt];
             [| reflexivity | exfalso; clear - He47 Hgt; lia].
           assert (e = -47) as E47 by (clear - Heq; lia).
           specialize (Hm43 E47).
           assert (Hge : 7036874417766400 <= Zpos m').
           { etransitivity; [|exact Hfloor].
             apply Z.div_le_lower_bound; [reflexivity|].
             change (2 ^ 52) with 4503599627370496. clear - HM Hm43. lia. }
           change (PosDef.Pos.compare_cont Eq 7036874417766400 m')
             with (Z.compare 7036874417766400 (Zpos m')).
           destruct (Z.compare_spec 7036874417766400 (Zpos m')) as [_|_|Hlt];
             try reflexivity.
           exfalso. apply (Z.lt_irrefl (Zpos m')).
           apply (Z.lt_le_trans _ _ _ Hlt Hge).
        -- destruct (Z.compare_spec (-43) (-48 + e + 52 + 1)) as [Heq|Hlt|Hgt];
             [exfalso; clear - He47 Heq; lia | reflexivity | exfalso; clear - He47 Hgt; lia].
    + specialize (Hround 53%positive ltac:(clear - Hd'; lia)).
      destruct (binary_round_aux prec emax false (Zpos M) (-48 + e) loc_Exact)
        as [s'|s'| |s' m' e']; try contradiction.
      * destruct s'; [contradiction | reflexivity].
      * destruct s'; [contradiction|]. cbn [SFcompare].
        destruct Hround as [[-> _]| ->].
        -- destruct (Z.compare_spec (-43) (-48 + e + 53)) as [Heq|Hlt|Hgt];
             [exfalso; clear - He47 Heq; lia | reflexivity | exfalso; clear - He47 Hgt; lia].
        -- destruct (Z.compare_spec (-43) (-48 + e + 53 + 1)) as [Heq|Hlt|Hgt];
             [exfalso; clear - He47 Heq; lia | reflexivity | exfalso; clear - He47 Hgt; lia].
Qed.

Lemma estimate_below_ceiling (n : nat) :
  (n <= 42)%nat -> (18.81 * count n <? 800)%float = true.
Proof.
  intros H.
  do 43 (destruct n as [|n]; [vm_compute; reflexivity|]).
  lia.
Qed.

Lemma line_count_run (u : World) (ed : editor_ref) (e : Editor) (el : elem_ref) (m : TextModel) :
  editors u !! ed = Some e ->
  domNode e = Some el ->
  model e = Some m ->
  fst (LineCount.onMount true ed u) = Normal tt /\
  elements (snd (LineCount.onMount true ed u)) !! el
  = Some {| style_height := px (Math_min [800%float; (18.81 * lineCount m)%float]) |}.
Proof.
  intros He Hd Hm. host_unfold. simpl.
  rewrite He, Hd. simpl. rewrite He, Hm. simpl. rewrite He. simpl.
  rewrite lookup_insert_eq. auto.
Qed.

(** X5: in the line-count revision the ceiling is reached from 43 lines
    on: with a line count of 43 or more, whatever Number it is, the
    height assigned is exactly "800px"; with a count of 0 to 42 lines
    the estimate 18.81 times the count is below 800 and is assigned as it
    is. *)
Theorem X5_ceiling_from_43_lines :
  forall (u : World) (ed : editor_ref) (e : Editor) (el : elem_ref) (m : TextModel),
    editors u !! ed = Some e ->
    domNode e = Some el ->
    model e = Some m ->
    ((43 <=? lineCount m)%float = true ->
       sized el "800px" (LineCount.onMount true ed u)) /\
    (forall n : nat,
        (n <= 42)%nat -> lineCount m = count n ->
        (18.81 * count n <? 800)%float = true /\
        sized el (px (18.81 * count n)) (LineCount.onMount true ed u)).
Proof.
  intros u ed e el m He Hd Hm.
  destruct (line_count_run u ed e el m He Hd Hm) as [Hn Hel].
  unfold sized. rewrite Hn, Hel. split.
  - intros H43. rewrite (Math_min_800_above _ (estimate_reaches_ceiling _ H43)). auto.
  - intros n Hn42 ->. pose proof (estimate_below_ceiling n Hn42) as Hlt.
    split; [exact Hlt|]. rewrite (Math_min_800_below _ Hlt). auto.
Qed.

(** Forty-two lines take 790.02 pixels, forty-three take the ceiling. *)
Lemma X5_witness :
  sized 7%nat "790.02px" (LineCount.onMount true 1%nat (world_of_lines (count 42))) /\
  sized 7%nat "800px" (LineCount.onMount true 1%nat (world_of_lines (count 43))).
Proof.
  split.
  - exact (proj2 (proj2 (X5_ceiling_from_43_lines (world_of_lines (count 42)) 1%nat
             {| domNode := Some 7%nat; model := Some {| lineCount := count 42 |};
                contentHeight := 0%float; disposed := false |}
             7%nat {| lineCount := count 42 |} eq_refl eq_refl eq_refl)
             42%nat (le_n 42) eq_refl)).
  - exact (proj1 (X5_ceiling_from_43_lines (world_of_lines (count 43)) 1%nat
             {| domNode := Some 7%nat; model := Some {| lineCount := count 43 |};
                contentHeight := 0%float; disposed := false |}
             7%nat {| lineCount := count 43 |} eq_refl eq_refl eq_refl) eq_refl).
Defined.

(** ** Along a schedule *)

Lemma find_timer_In (id : timer_id) (ts : list Timer) (t : Timer) :
  find_timer id ts = Some t -> In t ts.
Proof. unfold find_timer. intros H. apply (List.find_some _ _ H). Qed.

Lemma drop_timer_Forall (P : Timer -> Prop) (id : timer_id) (ts : list Timer) :
  Forall P ts -> Forall P (drop_timer id ts).
Proof.
  unfold drop_timer. induction 1 as [|x l Hx Hl IH]; cbn [List.filter]; [constructor|].
  destruct (negb _); [constructor; assumption | exact IH].
Qed.

Lemma drop_timer_shorter (id : timer_id) (ts : list Timer) (t : Timer) :
  find_timer id ts = Some t -> (length (drop_timer id ts) < length ts)%nat.
Proof.
  unfold find_timer, drop_timer. induction ts as [|x l IH]; cbn [List.find List.filter];
    [discriminate|].
  destruct (Nat.eqb (timer_ident x) id) eqn:E; cbn [negb length].
  - intros _. pose proof (List.filter_length_le (fun t => negb (Nat.eqb (timer_ident t) id)) l).
    lia.
  - intros H. specialize (IH H). lia.
Qed.

(** Each turn keeps [unsized] and the element. *)
Lemma turn_unsized (T : ThemeData) (el : elem_ref) (t : Turn) (w : World) :
  unsized el w ->
  unsized el (turn T t w) /\ elements (turn T t w) !! el = elements w !! el.
Proof.
  intros [Hed Htm].
  assert (Hsame : unsized el w /\ elements w !! el = elements w !! el)
    by (split; [split; assumption | reflexivity]).
  assert (Halter : forall (f : Editor -> Editor) ed,
             (forall e, domNode (f e) = domNode e) ->
             unsized el (with_editors (alter f ed) w)
             /\ elements (with_editors (alter f ed) w) !! el = elements w !! el).
  { intros f ed Hf. split; [|reflexivity]. split; [|exact Htm].
    cbn [editors with_editors]. intros i x Hx.
    destruct (decide (i = ed)) as [->|Hne].
    - rewrite lookup_alter_eq in Hx.
      destruct (editors w !! ed) as [e|] eqn:E; [|discriminate Hx].
      injection Hx as <-. rewrite Hf. apply (Hed ed e E).
    - rewrite lookup_alter_ne in Hx by congruence. apply (Hed i x Hx). }
  destruct t as [|r ed|r ed|id|ed h|ed|ms]; cbn [turn].
  - exact Hsame.
  - destruct r; [|exact Hsame]. host_unfold. simpl.
    destruct (editors w !! ed) as [e|] eqn:He; simpl; [|exact Hsame].
    destruct (domNode e) as [el'|] eqn:Hd; simpl; [|exact Hsame].
    split; [|reflexivity]. split; [exact Hed|]. cbn [timers].
    apply Forall_app. split; [exact Htm|]. constructor; [|constructor].
    cbn [timer_callback]. intros ->. apply (Hed ed e He). exact Hd.
  - destruct r; [|exact Hsame]. host_unfold. simpl.
    destruct (editors w !! ed) as [e|] eqn:He; simpl; [|exact Hsame].
    destruct (domNode e) as [el'|] eqn:Hd; simpl; [|exact Hsame].
    rewrite He. simpl.
    assert (Hne : el' <> el) by (intros ->; apply (Hed ed e He); exact Hd).
    destruct (model e); simpl; rewrite He; simpl;
      (split; [split; assumption | apply lookup_insert_ne; exact Hne]).
  - unfold run_timer.
    destruct (find_timer id (timers w)) as [t|] eqn:Hf; [|exact Hsame].
    destruct (timer_due t <=? clock w); [|exact Hsame].
    pose proof (find_timer_In _ _ _ Hf) as Hin.
    pose proof (proj1 (List.Forall_forall _ _) Htm t Hin) as Ht. cbv beta in Ht.
    destruct (timer_callback t) as [ed el']. simpl call.
    assert (Hdrop : Forall (fun t => match timer_callback t with
                                     | ResizeCallback _ el' => el' <> el
                                     end) (drop_timer id (timers w)))
      by (apply drop_timer_Forall; exact Htm).
    host_unfold. simpl.
    destruct (editors w !! ed) as [e|] eqn:He; simpl.
    + rewrite He. simpl.
      split; [split; assumption | apply lookup_insert_ne; exact Ht].
    + split; [split; assumption | reflexivity].
  - apply Halter. reflexivity.
  - apply Halter. reflexivity.
  - exact Hsame.
Qed.

(** X6: the component sizes nothing but the DOM nodes of editors: an
    element that is the DOM node of no editor and is captured by no
    queued timer keeps its height, whatever it is, along every schedule
    of turns of the event loop, and remains such an element. *)
Theorem X6_only_editor_nodes_are_sized :
  forall (EDITOR_THEME : ThemeData) (el : elem_ref) (schedule : list Turn) (w : World),
    unsized el w ->
    elements (run_schedule EDITOR_THEME schedule w) !! el = elements w !! el /\
    unsized el (run_schedule EDITOR_THEME schedule w).
Proof.
  intros T el schedule. unfold run_schedule.
  induction schedule as [|t l IH]; intros w H; [split; [reflexivity | exact H]|].
  cbn [fold_left]. destruct (turn_unsized T el t w H) as [H1 H2].
  destruct (IH (turn T t w) H1) as [H3 H4]. split; [rewrite H3; exact H2 | exact H4].
Qed.

(** In [world0] every editor is on element 7; element 8 is left alone by
    a registration, two mounts and a timer. *)
Lemma X6_witness :
  elements (run_schedule {| theme_base := "vs"; theme_inherit := true;
                            theme_rules := []; theme_colors := [] |}
              [CallBeforeMount; CallOnMountMeasured true 1%nat; CallOnMountLineCount true 3%nat;
               TurnAdvance 10; TurnTimer 0%nat] world0) !! 8%nat
  = elements world0 !! 8%nat.
Proof.
  apply X6_only_editor_nodes_are_sized.
  split.
  - apply (bool_decide_unpack _). vm_compute. exact I.
  - constructor.
Defined.

(** ** Assignments and timers *)

Lemma assignments_app (a b : list Event) :
  assignments (a ++ b) = (assignments a + assignments b)%nat.
Proof. unfold assignments. rewrite List.filter_app, length_app. reflexivity. Qed.

Lemma timeouts_app (a b : list Event) :
  timeouts (a ++ b) = (timeouts a + timeouts b)%nat.
Proof. unfold timeouts. rewrite List.filter_app, length_app. reflexivity. Qed.

Ltac count_events :=
  unfold assignments, timeouts;
  cbn [trace timers log with_timers with_themes with_elements with_editors];
  rewrite ?List.filter_app, ?length_app;
  cbn [List.filter is_assignment is_timeout length app]; lia.

Lemma turn_balance (T : ThemeData) (t : Turn) (w : World) :
  measured_turn t = true -> balance w (turn T t w).
Proof.
  intros Hm. unfold balance.
  destruct t as [|r ed|r ed|id|ed h|ed|ms]; cbn [turn]; try discriminate Hm;
    try (cbn [trace timers with_editors advance settle unmount]; lia).
  - unfold MeasuredHeight.beforeMount, defineTheme. cbn [snd]. count_events.
  - destruct r; [|cbn [MeasuredHeight.onMount negb ret snd]; lia]. host_unfold. simpl.
    destruct (editors w !! ed) as [e|] eqn:He; simpl; [|lia].
    destruct (domNode e) as [el'|] eqn:Hd; simpl; count_events.
  - unfold run_timer.
    destruct (find_timer id (timers w)) as [t|] eqn:Hf; [|cbn [snd]; lia].
    destruct (timer_due t <=? clock w); [|cbn [snd]; lia].
    pose proof (drop_timer_shorter _ _ _ Hf) as Hlen.
    destruct (timer_callback t) as [ed el']. simpl call.
    host_unfold. simpl.
    destruct (editors w !! ed) as [e|] eqn:He; simpl.
    + rewrite He. simpl. count_events.
    + lia.
Qed.

(** X7: in the measured-height revision a height is assigned only by a
    timer, and by each timer at most once: along every schedule without
    a mount of the line-count revision, the heights assigned and the
    timers still queued never outnumber the timers that were queued at
    the start or set since.  From a world with an empty queue, no more
    heights are assigned than [setTimeout] was called. *)
Theorem X7_one_assignment_per_timer :
  forall (EDITOR_THEME : ThemeData) (schedule : list Turn) (w : World),
    forallb measured_turn schedule = true ->
    balance w (run_schedule EDITOR_THEME schedule w).
Proof.
  intros T schedule. unfold run_schedule.
  induction schedule as [|t l IH]; intros w H; cbn [fold_left]; [unfold balance; lia|].
  cbn [forallb] in H. apply andb_true_iff in H as [H1 H2].
  pose proof (turn_balance T t w H1) as Hb.
  specialize (IH (turn T t w) H2). unfold balance in *. lia.
Qed.

(** Two mounts of one editor, and each of the two timers run twice: two
    heights assigned, two timers set, none left. *)
Lemma X7_witness :
  let w' := run_schedule {| theme_base := "vs"; theme_inherit := true;
                            theme_rules := []; theme_colors := [] |}
              [CallOnMountMeasured true 1%nat; CallOnMountMeasured true 1%nat;
               TurnAdvance 10; TurnTimer 0%nat; TurnTimer 0%nat;
               TurnTimer 1%nat; TurnTimer 1%nat] world0 in
  balance world0 w' /\
  assignments (trace w') = 2%nat /\ timeouts (trace w') = 2%nat /\ timers w' = [].
Proof.
  split; [apply X7_one_assignment_per_timer; reflexivity|].
  vm_compute. repeat split.
Defined.

Local Open Scope N_scope.

(** ** The text of a Number tells the Number *)

Lemma not_finite_cases (x : number) :
  is_finite x = false ->
  Prim2SF x = S754_nan \/ exists s, Prim2SF x = S754_infinity s.
Proof.
  intros H. pose proof (SF2Prim_Prim2SF x) as Hx.
  destruct (Prim2SF x) as [s|s| |s m e] eqn:E.
  - rewrite <- Hx in H. destruct s; discriminate H.
  - right. exists s. reflexivity.
  - left. reflexivity.
  - exfalso. unfold is_finite, is_nan, is_infinity in H.
    rewrite !FloatAxioms.eqb_spec, abs_spec, E in H. unfold SFeqb in H.
    rewrite SFcompare_refl in H by discriminate.
    cbn in H. discriminate H.
Qed.

Lemma toString_units_not_finite (x : number) :
  is_finite x = false -> parse_number (toString_units x) = None.
Proof.
  intros H. unfold toString_units.
  destruct (not_finite_cases x H) as [->|[s ->]]; [reflexivity|].
  destruct s; reflexivity.
Qed.

Lemma neg_zero_is_zero (x : number) : is_neg_zero x = true -> is_zero x = true.
Proof. unfold is_neg_zero. intros H. apply andb_true_iff in H as [H _]. exact H. Qed.

Lemma toString_units_inj (x y : number) :
  toString_units x = toString_units y ->
  x = y \/ (is_zero x = true /\ is_zero y = true).
Proof.
  intros Heq.
  destruct (is_finite x) eqn:Fx, (is_finite y) eqn:Fy.
  - pose proof (parse_number_toString x [] Fx I) as Px.
    pose proof (parse_number_toString y [] Fy I) as Py.
    rewrite app_nil_r in Px, Py. rewrite Heq, Py in Px.
    injection Px as Hxy.
    destruct (is_neg_zero x) eqn:Zx, (is_neg_zero y) eqn:Zy.
    + right. split; apply neg_zero_is_zero; assumption.
    + right. split; [apply neg_zero_is_zero; assumption | subst y; reflexivity].
    + right. split; [rewrite <- Hxy; reflexivity | apply neg_zero_is_zero; assumption].
    + left. symmetry. exact Hxy.
  - pose proof (parse_number_toString x [] Fx I) as Px.
    rewrite app_nil_r, Heq, (toString_units_not_finite y Fy) in Px. discriminate Px.
  - pose proof (parse_number_toString y [] Fy I) as Py.
    rewrite app_nil_r, <- Heq, (toString_units_not_finite x Fx) in Py. discriminate Py.
  - left. apply Prim2SF_inj. unfold toString_units in Heq.
    destruct (not_finite_cases x Fx) as [Ex|[sx Ex]],
             (not_finite_cases y Fy) as [Ey|[sy Ey]];
      rewrite Ex, Ey in *; try reflexivity;
      try (destruct sx; discriminate Heq); try (destruct sy; discriminate Heq).
    destruct sx, sy; try reflexivity; discriminate Heq.
Qed.

Lemma basic_app (a b : JsString) : basic (a ++ b) = basic a && basic b.
Proof. apply forallb_app. Qed.

Lemma digits_basic (ds : JsString) : forallb is_digit ds = true -> basic ds = true.
Proof.
  induction ds as [|c ds IH]; [reflexivity|]. cbn [forallb basic].
  intros H. apply andb_true_iff in H as [Hc Hds].
  fold (basic ds). rewrite (IH Hds), andb_true_r.
  unfold is_digit in Hc. apply andb_true_iff in Hc as [_ Hc].
  apply N.leb_le in Hc. apply N.ltb_lt. lia.
Qed.

Lemma basic_firstn (n : nat) (t : JsString) : basic t = true -> basic (firstn n t) = true.
Proof.
  revert n. induction t as [|c t IH]; intros [|n] H; try reflexivity.
  cbn [firstn basic forallb] in *. apply andb_true_iff in H as [Hc Ht].
  rewrite Hc. apply (IH n Ht).
Qed.

Lemma basic_skipn (n : nat) (t : JsString) : basic t = true -> basic (skipn n t) = true.
Proof.
  revert n. induction t as [|c t IH]; intros [|n] H; try reflexivity; try exact H.
  cbn [skipn basic forallb] in *. apply andb_true_iff in H as [_ Ht]. apply (IH n Ht).
Qed.

Lemma decimal_text_basic (ds : JsString) (n : Z) :
  forallb is_digit ds = true -> basic (decimal_text ds n) = true.
Proof.
  intros Hd. pose proof (digits_basic ds Hd) as Hp.
  unfold decimal_text.
  destruct ((-5 <=? n)%Z && (n <=? 21)%Z).
  - destruct (Z.of_nat (length ds) <=? n)%Z.
    + rewrite basic_app, Hp. apply digits_basic, zeros_digits.
    + destruct (0 <? n)%Z.
      * rewrite basic_app, basic_firstn by exact Hp. cbn [basic forallb andb].
        change (46 <? 128) with true. apply basic_skipn. exact Hp.
      * cbn [basic forallb]. change (48 <? 128) with true. change (46 <? 128) with true.
        cbn [andb]. fold (basic (zeros (- n) ++ ds)).
        rewrite basic_app, Hp, andb_true_r. apply digits_basic, zeros_digits.
  - pose proof (digits_basic _ (proj1 (digits_of_spec (Z.to_N (Z.abs (n - 1)))))) as He.
    assert (Hs : ((if (0 <=? n - 1)%Z then 43 else 45) <? 128) = true)
      by (destruct (0 <=? n - 1)%Z; reflexivity).
    destruct ds as [|d [|d2 rest]]; [reflexivity| |].
    + cbn [basic forallb] in *. rewrite Hs. apply andb_true_iff in Hp as [-> _].
      change (101 <? 128) with true. cbn [andb]. exact He.
    + cbn [basic forallb] in Hp. apply andb_true_iff in Hp as [Hd1 Hp].
      cbn [basic forallb]. rewrite Hd1. change (46 <? 128) with true. cbn [andb].
      change (d2 :: rest ++ ?x) with ((d2 :: rest) ++ x).
      fold (basic ((d2 :: rest) ++ 101 :: (if (0 <=? n - 1)%Z then 43 else 45)
                      :: digits_of (Z.to_N (Z.abs (n - 1))))).
      rewrite basic_app. cbn [basic forallb]. rewrite Hp, Hs.
      change (101 <? 128) with true. cbn [andb]. exact He.
Qed.

Lemma toString_units_basic (x : number) : basic (toString_units x) = true.
Proof.
  unfold toString_units. destruct (Prim2SF x) as [s|s| |s m e]; try reflexivity.
  - destruct s; reflexivity.
  - destruct (decimal_of m e) as [d t].
    rewrite basic_app.
    rewrite decimal_text_basic by apply (proj1 (digits_of_spec d)).
    destruct s; reflexivity.
Qed.

Lemma string_of_units_inj (s t : JsString) :
  basic s = true -> basic t = true ->
  string_of_units s = string_of_units t -> s = t.
Proof.
  unfold string_of_units. intros Hs Ht H.
  apply (f_equal list_ascii_of_string) in H.
  rewrite !list_ascii_of_string_of_list_ascii in H.
  revert t Ht H. induction s as [|c s IH]; intros [|d t] Ht H; try discriminate H;
    [reflexivity|].
  cbn [map] in H. injection H as Hc Hrest.
  cbn [basic forallb] in Hs, Ht.
  apply andb_true_iff in Hs as [Hc1 Hs]. apply andb_true_iff in Ht as [Hd1 Ht].
  apply N.ltb_lt in Hc1. apply N.ltb_lt in Hd1.
  apply (f_equal N_of_ascii) in Hc.
  rewrite !N_ascii_embedding in Hc by lia.
  rewrite Hc, (IH Hs t Ht Hrest). reflexivity.
Qed.

Lemma list_ascii_of_string_app (s t : string) :
  list_ascii_of_string (String.append s t)
  = (list_ascii_of_string s ++ list_ascii_of_string t)%list.
Proof.
  induction s as [|c s IH]; [reflexivity|].
  change (String.append (String c s) t) with (String c (String.append s t)).
  cbn [list_ascii_of_string app]. f_equal. exact IH.
Qed.

Lemma append_inj_l (s1 s2 t : string) :
  String.append s1 t = String.append s2 t -> s1 = s2.
Proof.
  intros H. apply (f_equal list_ascii_of_string) in H.
  rewrite !list_ascii_of_string_app in H. apply app_inv_tail in H.
  apply (f_equal string_of_list_ascii) in H.
  rewrite !string_of_list_ascii_of_string in H. exact H.
Qed.

(** X11: the string assigned to the height tells the height: two Numbers
    give the same [px] string only if they are the same Number, or are
    both zero (0 and -0 both give "0px").  Nothing of a height is lost in
    the template literal. *)
Theorem X11_style_string_tells_the_height :
  forall h1 h2 : number,
    px h1 = px h2 ->
    h1 = h2 \/ (is_zero h1 = true /\ is_zero h2 = true).
Proof.
  intros h1 h2 H. unfold px, toString in H.
  apply append_inj_l in H.
  apply string_of_units_inj in H; try apply toString_units_basic.
  apply toString_units_inj. exact H.
Qed.

(** The two zeros. *)
Lemma X11_witness :
  px 0%float = px (-0)%float /\
  ((0 = -0)%float \/ (is_zero 0%float = true /\ is_zero (-0)%float = true)).
Proof.
  split; [reflexivity|].
  apply X11_style_string_tells_the_height. reflexivity.
Defined.

Local Open Scope Z_scope.

(* ===================================================================== *)
(** * The installation script                                             *)
(* ===================================================================== *)

(** The cases of a run: how each of the five tests went. *)
Ltac transcript_cases a :=
  unfold Transcript.transcript, Transcript.cmake_part, Transcript.python_part,
    Transcript.protoc_part, Transcript.rustup_part, Transcript.summary_part;
  generalize (Transcript.cmake_ok (Transcript.a_cmake a));
  generalize (Transcript.python_ok (Transcript.a_python a));
  generalize (Transcript.protoc_ok (Transcript.a_protoc a));
  generalize (Transcript.nightly_ok (Transcript.a_toolchains a));
  generalize (Transcript.rustfmt_ok (Transcript.a_components a));
  clear; intros [] [] [] [] [].

Section Script.
Import Shell Transcript.
Variable Machine : Type.
Variable exec : Command -> Vars -> Machine -> Outcome * Machine.

Local Abbreviation State := (Shell.State Machine).

Ltac shell_run :=
  unfold substitute, run, echo_e, echo, act, assign, get, bind, ret;
  cbn [vars machine actions fst snd];
  repeat (match goal with
          | |- context [exec ?c ?v ?m] =>
              let o := fresh "o" in let m' := fresh "m" in
              destruct (exec c v m) as [o m']
          end;
          cbn [vars machine actions fst snd]).

Ltac shell_vars :=
  cbn [SUCCESS_COLOR ERROR_COLOR RESET_COLOR cmakeInstalled protocInstalled
       rustupToolchainNightlyInstalled set_PATH set_PB_REL set_cmakeInstalled
       set_protocInstalled set_rustupToolchainNightlyInstalled].

(** The answer the run has for a command. *)
Ltac answer_of c :=
  match goal with
  | |- context [Ran c ?o] => exists o
  end.

Ltac shell_done Hc :=
  eexists; split; [reflexivity|];
  unfold leaves, colored; cbn [vars machine actions]; shell_vars;
  split; [rewrite <- ?app_assoc; unfold success, error; shell_vars;
          let Hs := fresh in let He := fresh in let Hr := fresh in
          destruct Hc as (Hs & He & Hr); rewrite ?Hs, ?He, ?Hr; reflexivity|];
  split; [exact Hc|]; repeat split; rewrite ?orb_false_l; reflexivity.

Lemma install_cmake_run (s : State) :
  colored (vars s) ->
  exists (update install version : Outcome) (s' : State),
    install_cmake Machine exec s = (tt, s') /\
    leaves s s' (cmake_part update install version)
      (cmake_ok version || cmakeInstalled (vars s)) (protocInstalled (vars s))
      (rustupToolchainNightlyInstalled (vars s)).
Proof.
  destruct s as [v m a]. cbn [vars]. intros Hc. unfold install_cmake. shell_run.
  exists o, o0, o1. unfold cmake_part, cmake_ok.
  destruct (contains _ _); shell_run; shell_done Hc.
Qed.

Lemma configure_python_environment_run (s : State) :
  colored (vars s) ->
  exists (found link : Outcome) (s' : State),
    configure_python_environment Machine exec s = (tt, s') /\
    leaves s s' (python_part found link)
      (cmakeInstalled (vars s)) (protocInstalled (vars s))
      (rustupToolchainNightlyInstalled (vars s)).
Proof.
  destruct s as [v m a]. cbn [vars]. intros Hc. unfold configure_python_environment. shell_run.
  exists o. unfold python_part, python_ok.
  destruct (Nat.eqb _ _); shell_run.
  - exists o0. shell_done Hc.
  - exists o. shell_done Hc.
Qed.

Lemma install_protoc_run (s : State) :
  colored (vars s) ->
  exists (curl unzip version rm : Outcome) (s' : State),
    install_protoc Machine exec s = (tt, s') /\
    leaves s s' (protoc_part curl unzip version rm)
      (cmakeInstalled (vars s)) (protoc_ok version || protocInstalled (vars s))
      (rustupToolchainNightlyInstalled (vars s)).
Proof.
  destruct s as [v m a]. cbn [vars]. intros Hc. unfold install_protoc. shell_run.
  exists o, o0, o1. unfold protoc_part, protoc_ok.
  destruct (contains _ _); shell_run; exists o2; shell_done Hc.
Qed.

Lemma install_rustup_toolchain_nightly_run (s : State) :
  colored (vars s) ->
  exists (install add toolchains components : Outcome) (s' : State),
    install_rustup_toolchain_nightly Machine exec s = (tt, s') /\
    leaves s s' (rustup_part install add toolchains components)
      (cmakeInstalled (vars s)) (protocInstalled (vars s))
      (nightly_ok toolchains && rustfmt_ok components
       || rustupToolchainNightlyInstalled (vars s)).
Proof.
  destruct s as [v m a]. cbn [vars]. intros Hc.
  unfold install_rustup_toolchain_nightly. shell_run.
  exists o, o0, o1. unfold rustup_part, nightly_ok, rustfmt_ok.
  destruct (contains "nightly" _); shell_run.
  - exists o2. destruct (contains "installed" _); shell_done Hc.
  - exists o1. shell_done Hc.
Qed.

Lemma echo_all_run (lines : list string) (s : State) :
  echo_all Machine lines s
  = (tt, {| vars := vars s; machine := machine s;
            actions := (actions s ++ map (Echo false) lines)%list |}).
Proof.
  revert s. induction lines as [|l lines IH]; intros [v m a].
  - cbn. rewrite app_nil_r. reflexivity.
  - cbn [echo_all]. unfold bind, echo, act. cbn [vars machine actions map].
    rewrite IH. cbn [vars machine actions]. rewrite <- app_assoc. reflexivity.
Qed.

(** The run of the script, from what its commands answered. *)
Lemma script_transcript (s0 : State) :
  exists a : Answers,
    actions (snd (script Machine exec s0)) = (actions s0 ++ transcript a)%list /\
    cmakeInstalled (vars (snd (script Machine exec s0))) = cmake_ok (a_cmake a) /\
    protocInstalled (vars (snd (script Machine exec s0))) = protoc_ok (a_protoc a) /\
    rustupToolchainNightlyInstalled (vars (snd (script Machine exec s0)))
    = nightly_ok (a_toolchains a) && rustfmt_ok (a_components a).
Proof.
  destruct s0 as [v0 m0 a0].
  set (s1 := {| vars := initialize v0; machine := m0; actions := a0 |}).
  assert (Hc1 : colored (vars s1)) by (repeat split).
  destruct (install_cmake_run s1 Hc1)
    as (o1 & o2 & o3 & s2 & E1 & Ha2 & Hc2 & Hf2 & Hp2 & Hr2).
  destruct (configure_python_environment_run s2 Hc2)
    as (o4 & o5 & s3 & E2 & Ha3 & Hc3 & Hf3 & Hp3 & Hr3).
  destruct (install_protoc_run s3 Hc3)
    as (o6 & o7 & o8 & o9 & s4 & E3 & Ha4 & Hc4 & Hf4 & Hp4 & Hr4).
  destruct (install_rustup_toolchain_nightly_run s4 Hc4)
    as (o10 & o11 & o12 & o13 & s5 & E4 & Ha5 & Hc5 & Hf5 & Hp5 & Hr5).
  exists {| a_update := o1; a_install_cmake := o2; a_cmake := o3;
            a_python := o4; a_link := o5;
            a_curl := o6; a_unzip := o7; a_protoc := o8; a_rm := o9;
            a_install_nightly := o10; a_add_rustfmt := o11;
            a_toolchains := o12; a_components := o13 |}.
  cbn [a_update a_install_cmake a_cmake a_python a_link a_curl a_unzip a_protoc a_rm
       a_install_nightly a_add_rustfmt a_toolchains a_components transcript].
  unfold transcript.
  cbn [a_update a_install_cmake a_cmake a_python a_link a_curl a_unzip a_protoc a_rm
       a_install_nightly a_add_rustfmt a_toolchains a_components].
  assert (Hcm : cmakeInstalled (vars s5) = cmake_ok o3).
  { rewrite Hf5, Hf4, Hf3, Hf2. apply orb_false_r. }
  assert (Hpr : protocInstalled (vars s5) = protoc_ok o8).
  { rewrite Hp5, Hp4, Hp3, Hp2. apply orb_false_r. }
  assert (Hru : rustupToolchainNightlyInstalled (vars s5) = nightly_ok o12 && rustfmt_ok o13).
  { rewrite Hr5, Hr4, Hr3, Hr2. apply orb_false_r. }
  assert (Hac : actions s5 = (a0 ++ cmake_part o1 o2 o3 ++ python_part o4 o5
                                ++ protoc_part o6 o7 o8 o9
                                ++ rustup_part o10 o11 o12 o13)%list).
  { rewrite Ha5, Ha4, Ha3, Ha2. rewrite <- !app_assoc. reflexivity. }
  assert (E : script Machine exec {| vars := v0; machine := m0; actions := a0 |}
              = (tt, {| vars := vars s5; machine := machine s5;
                        actions := (actions s5 ++
                          summary_part (cmake_ok o3 && protoc_ok o8
                                        && (nightly_ok o12 && rustfmt_ok o13)))%list |})).
  { unfold script. unfold bind at 1. unfold assign at 1. cbn [vars machine actions].
    fold s1. unfold bind at 1. rewrite E1. unfold bind at 1. rewrite E2.
    unfold bind at 1. rewrite E3. unfold bind at 1. rewrite E4.
    unfold bind at 1. unfold get at 1. rewrite Hcm, Hpr, Hru.
    unfold summary_part.
    destruct (cmake_ok o3 && protoc_ok o8 && (nightly_ok o12 && rustfmt_ok o13)).
    - unfold bind, echo_e, act. rewrite echo_all_run. cbn [vars machine actions].
      rewrite <- app_assoc. unfold success.
      destruct Hc5 as (Hs & _ & Hr). rewrite Hs, Hr. reflexivity.
    - unfold echo_e, act. unfold error.
      destruct Hc5 as (_ & He & Hr). rewrite He, Hr. reflexivity. }
  rewrite E. cbn [snd vars actions]. rewrite Hac.
  split; [rewrite <- !app_assoc; reflexivity|].
  split; [exact Hcm|]. split; [exact Hpr | exact Hru].
Qed.


(** What the run of the script has for the answers of its commands. *)
Lemma answers_of_transcript (a : Answers) :
  answer_to cmake_version (transcript a) = Some (a_cmake a) /\
  answer_to command_v_python3 (transcript a) = Some (a_python a) /\
  answer_to protoc_version (transcript a) = Some (a_protoc a) /\
  answer_to rustup_toolchain_list (transcript a) = Some (a_toolchains a) /\
  answer_to rustup_component_list_grep_rustfmt (transcript a)
  = if nightly_ok (a_toolchains a) then Some (a_components a) else None.
Proof.
  destruct a as [o1 o2 o3 o4 o5 o6 o7 o8 o9 o10 o11 o12 o13].
  unfold transcript, cmake_part, python_part, protoc_part, rustup_part, summary_part.
  cbn [a_update a_install_cmake a_cmake a_python a_link a_curl a_unzip a_protoc a_rm
       a_install_nightly a_add_rustfmt a_toolchains a_components].
  destruct (python_ok o4), (nightly_ok o12);
    destruct (cmake_ok o3 && protoc_ok o8 && _); repeat split.
Qed.

(** The tests of the script, on what its run has heard. *)
Lemma tests_of_transcript (a : Answers) :
  contains "cmake version" (heard cmake_version (transcript a)) = cmake_ok (a_cmake a) /\
  succeeded command_v_python3 (transcript a) = python_ok (a_python a) /\
  contains "libprotoc 3.15.8" (heard protoc_version (transcript a)) = protoc_ok (a_protoc a) /\
  contains "nightly" (heard rustup_toolchain_list (transcript a))
  = nightly_ok (a_toolchains a) /\
  contains "installed" (heard rustup_component_list_grep_rustfmt (transcript a))
  = nightly_ok (a_toolchains a) && rustfmt_ok (a_components a).
Proof.
  destruct (answers_of_transcript a) as (Hcm & Hpy & Hpr & Hlist & Hcomp).
  unfold heard, succeeded. rewrite Hcm, Hpy, Hpr, Hlist, Hcomp.
  repeat split. destruct (nightly_ok (a_toolchains a)); reflexivity.
Qed.

(** X8: whatever the commands print and however they exit, the script
    stops at none of them: it runs the same commands in the same order,
    from [apt-get update] to [rustup toolchain list].  Only two commands
    depend on an answer: the link from python to python3 is made exactly
    when [command -v python3] exits with 0, which is also when the line
    "Python 3 is installed" is written, and the components of the nightly
    toolchain are listed exactly when the list of toolchains contains
    "nightly".  The archive of protoc is removed whether protoc runs or
    not. *)
Theorem X8_script_runs_every_step :
  forall s0 : State,
  exists new : list Action,
    actions (snd (script Machine exec s0)) = (actions s0 ++ new)%list /\
    commands new
    = ([ apt_get_update; apt_get_install_cmake; cmake_version; command_v_python3 ]
       ++ (if succeeded command_v_python3 new then [ ln_s_python3_python ] else [])
       ++ [ curl_protoc_zip; unzip_protoc_zip; protoc_version; rm_protoc_zip;
            rustup_toolchain_install_nightly; rustup_component_add_rustfmt;
            rustup_toolchain_list ]
       ++ (if contains "nightly" (heard rustup_toolchain_list new)
           then [ rustup_component_list_grep_rustfmt ] else []))%list /\
    said (green "Python 3 is installed") new = succeeded command_v_python3 new.
Proof.
  intros s0.
  destruct (script_transcript s0) as (a & Ha & _).
  exists (transcript a). split; [exact Ha|].
  destruct (tests_of_transcript a) as (_ & Hpy & _ & Hlist & _).
  rewrite Hpy, Hlist.
  transcript_cases a; vm_compute; split; reflexivity.
Qed.

(** X9: each of the three flags ends as the test on the output of its
    commands: "cmake version" in what [cmake --version] prints,
    "libprotoc 3.15.8" in what [protoc --version] prints, and "nightly"
    in the list of toolchains together with "installed" in the rustfmt
    line of the components.  The success line of each tool is written
    exactly when its flag is set, and the script ends with "All tools
    installed successfully." and the ten lines of useful commands exactly
    when the three flags are set, with the failure line otherwise.
    Whether Python 3 was found has no part in it. *)
Theorem X9_script_summary_follows_checks :
  forall s0 : State,
  exists new : list Action,
    actions (snd (script Machine exec s0)) = (actions s0 ++ new)%list /\
    let v := vars (snd (script Machine exec s0)) in
    let all := cmakeInstalled v && protocInstalled v && rustupToolchainNightlyInstalled v in
    cmakeInstalled v = contains "cmake version" (heard cmake_version new) /\
    protocInstalled v = contains "libprotoc 3.15.8" (heard protoc_version new) /\
    rustupToolchainNightlyInstalled v
    = contains "nightly" (heard rustup_toolchain_list new)
      && contains "installed" (heard rustup_component_list_grep_rustfmt new) /\
    said (green "CMake installed successfully.") new = cmakeInstalled v /\
    said (green "protoc installed successfully.") new = protocInstalled v /\
    said (green "Rustup nightly toolchain and rustfmt installed successfully.") new
    = rustupToolchainNightlyInstalled v /\
    said (green "All tools installed successfully.") new = all /\
    said (red "One or more tools failed to install. Please check the output for errors and install the failed tools manually.") new
    = negb all /\
    List.filter (fun a => match a with Echo false _ => true | _ => false end) new
    = (if all then map (Echo false) useful_commands else []).
Proof.
  intros s0.
  destruct (script_transcript s0) as (a & Ha & Hc & Hp & Hr).
  exists (transcript a). split; [exact Ha|]. cbv zeta. rewrite Hc, Hp, Hr.
  destruct (tests_of_transcript a) as (Hcm & _ & Hpr & Hlist & Hcomp).
  rewrite Hcm, Hpr, Hlist, Hcomp.
  transcript_cases a; vm_compute; repeat split.
Qed.

(** X10: each of the four checks, and the summary, writes exactly one
    of its two lines, and writes it once. *)
Theorem X10_script_reports_each_check_once :
  forall s0 : State,
  exists new : list Action,
    actions (snd (script Machine exec s0)) = (actions s0 ++ new)%list /\
    (times (green "CMake installed successfully.") new
     + times (red "CMake installation failed. Please install it manually.") new = 1)%nat /\
    (times (green "Python 3 is installed") new
     + times (red "Python 3 is not installed. Please install it manually.") new = 1)%nat /\
    (times (green "protoc installed successfully.") new
     + times (red "protoc installation failed. Please install it manually.") new = 1)%nat /\
    (times (green "Rustup nightly toolchain and rustfmt installed successfully.") new
     + times (red "Rustup nightly toolchain and/or rustfmt installation failed. Please install them manually.") new = 1)%nat /\
    (times (green "All tools installed successfully.") new
     + times (red "One or more tools failed to install. Please check the output for errors and install the failed tools manually.") new = 1)%nat.
Proof.
  intros s0.
  destruct (script_transcript s0) as (a & Ha & _).
  exists (transcript a). split; [exact Ha|].
  transcript_cases a; vm_compute; repeat split.
Qed.

(** A machine with the three tools and without python3: the summary is
    the success, after the line that Python 3 is not installed. *)
Example tools_without_python :
  let run := actions (snd (script unit answers
               {| vars := {| SUCCESS_COLOR := EmptyString; ERROR_COLOR := EmptyString;
                             RESET_COLOR := EmptyString; cmakeInstalled := true;
                             protocInstalled := true;
                             rustupToolchainNightlyInstalled := true;
                             PB_REL := EmptyString; PATH := "/usr/bin"; HOME := "/root" |};
                  machine := tt; actions := [] |})) in
  said (red "Python 3 is not installed. Please install it manually.") run = true /\
  said (green "All tools installed successfully.") run = true /\
  commands run
  = [ apt_get_update; apt_get_install_cmake; cmake_version; command_v_python3;
      curl_protoc_zip; unzip_protoc_zip; protoc_version; rm_protoc_zip;
      rustup_toolchain_install_nightly; rustup_component_add_rustfmt;
      rustup_toolchain_list; rustup_component_list_grep_rustfmt ].
Proof. vm_compute. repeat split. Qed.

(** A machine on which no command prints anything: three failures, and
    the components are not listed. *)
Example silent_machine :
  let run := actions (snd (script unit
               (fun _ _ m => ({| stdout := EmptyString; status := 0 |}, m))
               {| vars := {| SUCCESS_COLOR := EmptyString; ERROR_COLOR := EmptyString;
                             RESET_COLOR := EmptyString; cmakeInstalled := true;
                             protocInstalled := true;
                             rustupToolchainNightlyInstalled := true;
                             PB_REL := EmptyString; PATH := "/usr/bin"; HOME := "/root" |};
                  machine := tt; actions := [] |})) in
  said (green "Python 3 is installed") run = true /\
  said (green "All tools installed successfully.") run = false /\
  commands run
  = [ apt_get_update; apt_get_install_cmake; cmake_version; command_v_python3;
      ln_s_python3_python;
      curl_protoc_zip; unzip_protoc_zip; protoc_version; rm_protoc_zip;
      rustup_toolchain_install_nightly; rustup_component_add_rustfmt;
      rustup_toolchain_list ].
Proof. vm_compute. repeat split. Qed.

End Script.

(** ** The variables the commands are run with *)

Section Environment.
Import Shell Transcript.
Variable Machine : Type.
Variable exec : Command -> Vars -> Machine -> Outcome * Machine.

Local Abbreviation Log := (list (Command * Vars)).
Local Abbreviation LState := (Shell.State (Machine * Log)).

Lemma commands_app (l1 l2 : list Action) :
  commands (l1 ++ l2) = (commands l1 ++ commands l2)%list.
Proof. unfold commands. apply flat_map_app. Qed.

Lemma follows_refl (v0 : Vars) (s s' : LState) :
  snd (machine s') = snd (machine s) -> actions s' = actions s -> follows v0 s s'.
Proof.
  intros Hl Ha. exists [], []. rewrite !app_nil_r. repeat split; assumption.
Qed.

Lemma follows_trans (v0 : Vars) (s1 s2 s3 : LState) :
  follows v0 s1 s2 -> follows v0 s2 s3 -> follows v0 s1 s3.
Proof.
  intros (l1 & a1 & Hl1 & Ha1 & E1) (l2 & a2 & Hl2 & Ha2 & E2).
  exists (l1 ++ l2)%list, (a1 ++ a2)%list.
  rewrite Hl2, Hl1, Ha2, Ha1, <- !app_assoc, map_app, commands_app, map_app, E1, E2.
  repeat split.
Qed.

Ltac logged_run :=
  unfold substitute, run, echo_e, echo, act, assign, get, bind, ret, logged;
  cbn [vars machine actions fst snd];
  repeat (match goal with
          | |- context [exec ?c ?v ?m] =>
              let o := fresh "o" in let m' := fresh "m" in
              destruct (exec c v m) as [o m']
          end;
          cbn [vars machine actions fst snd]).

Ltac env_vars :=
  cbn [PB_REL PATH HOME set_PATH set_PB_REL set_cmakeInstalled
       set_protocInstalled set_rustupToolchainNightlyInstalled].

Ltac logged_done :=
  eexists; split; [reflexivity|]; split;
  [ unfold env; cbn [vars]; env_vars; try reflexivity
  | eexists; eexists; cbn [vars machine actions snd];
    split; [rewrite <- ?app_assoc; reflexivity|];
    split; [rewrite <- ?app_assoc; reflexivity|];
    cbn [map app fst snd commands flat_map]; unfold env, env_at; env_vars;
    cbn [after_line_40 after_line_43]; try reflexivity ].

Lemma install_cmake_env (v0 : Vars) (s : LState) :
  env (vars s) = env v0 ->
  exists s', install_cmake _ (logged exec) s = (tt, s') /\
             env (vars s') = env v0 /\ follows v0 s s'.
Proof.
  intros He. destruct s as [v [m log] acts]. cbn [vars] in He.
  unfold env in He. injection He as H1 H2 H3.
  unfold install_cmake. logged_run.
  destruct (contains _ _); logged_run; logged_done;
    rewrite ?H1, ?H2, ?H3; reflexivity.
Qed.

Lemma configure_python_environment_env (v0 : Vars) (s : LState) :
  env (vars s) = env v0 ->
  exists s', configure_python_environment _ (logged exec) s = (tt, s') /\
             env (vars s') = env v0 /\ follows v0 s s'.
Proof.
  intros He. destruct s as [v [m log] acts]. cbn [vars] in He.
  unfold env in He. injection He as H1 H2 H3.
  unfold configure_python_environment. logged_run.
  destruct (Nat.eqb _ _); logged_run; logged_done;
    rewrite ?H1, ?H2, ?H3; reflexivity.
Qed.

Lemma install_protoc_env (v0 : Vars) (s : LState) :
  env (vars s) = env v0 ->
  exists s', install_protoc _ (logged exec) s = (tt, s') /\
             env (vars s') = env_at v0 rm_protoc_zip /\ follows v0 s s'.
Proof.
  intros He. destruct s as [v [m log] acts]. cbn [vars] in He.
  unfold env in He. injection He as H1 H2 H3.
  unfold install_protoc. logged_run.
  destruct (contains _ _); logged_run; logged_done;
    rewrite ?H1, ?H2, ?H3; reflexivity.
Qed.

Lemma install_rustup_toolchain_nightly_env (v0 : Vars) (s : LState) :
  env (vars s) = env_at v0 rm_protoc_zip ->
  exists s', install_rustup_toolchain_nightly _ (logged exec) s = (tt, s') /\
             env (vars s') = env_at v0 rm_protoc_zip /\ follows v0 s s'.
Proof.
  intros He. destruct s as [v [m log] acts]. cbn [vars] in He.
  unfold env, env_at in He. cbn [after_line_40 after_line_43] in He.
  injection He as H1 H2 H3.
  unfold install_rustup_toolchain_nightly. logged_run.
  destruct (contains "nightly" _); logged_run;
    try destruct (contains "installed" _); logged_run; logged_done;
    rewrite ?H1, ?H2, ?H3; reflexivity.
Qed.

Lemma same_places {A B C : Type} (f : A -> C) (g : B -> C) (l : list A) (l' : list B) :
  map f l = map g l' -> Forall (fun p => exists c, f p = g c) l.
Proof.
  revert l'. induction l as [|p l IH]; intros [|c l'] E; try discriminate E.
  - constructor.
  - injection E as E1 E2. constructor; [exists c; exact E1 | exact (IH _ E2)].
Qed.

Lemma script_env (s0 : LState) :
  follows (vars s0) s0 (snd (script _ (logged exec) s0)).
Proof.
  destruct s0 as [v0 m0 a0]. cbn [vars].
  set (s1 := {| vars := initialize v0; machine := m0; actions := a0 |}).
  assert (F1 : follows v0 {| vars := v0; machine := m0; actions := a0 |} s1)
    by (apply follows_refl; reflexivity).
  destruct (install_cmake_env v0 s1 eq_refl) as (s2 & E1 & H2 & F2).
  destruct (configure_python_environment_env v0 s2 H2) as (s3 & E2 & H3 & F3).
  destruct (install_protoc_env v0 s3 H3) as (s4 & E3 & H4 & F4).
  destruct (install_rustup_toolchain_nightly_env v0 s4 H4) as (s5 & E4 & H5 & F5).
  assert (F : follows v0 {| vars := v0; machine := m0; actions := a0 |} s5) by (repeat (eapply follows_trans; [|eassumption]); exact F1).
  unfold script. unfold bind at 1. unfold assign at 1. cbn [vars machine actions].
  fold s1. unfold bind at 1. rewrite E1. unfold bind at 1. rewrite E2.
  unfold bind at 1. rewrite E3. unfold bind at 1. rewrite E4.
  unfold bind at 1. unfold get at 1.
  eapply follows_trans; [exact F|].
  destruct (_ && _).
  - unfold bind, echo_e, act. rewrite echo_all_run. cbn [snd vars machine actions].
    exists [], (Echo true (success (vars s5) "All tools installed successfully.")
                :: map (Echo false) useful_commands).
    cbn [snd machine actions]. rewrite app_nil_r, <- app_assoc.
    repeat split.
  - unfold echo_e, act. cbn [snd vars machine actions].
    eexists [], [_]. cbn [snd machine actions]. rewrite app_nil_r. repeat split.
Qed.

(** X13: every command of the script is run with the shell's variables
    as they are at its line.  [HOME] is never changed.  The commands up
    to the link of python see [PB_REL] as the caller left it, and [curl]
    and every command after it see the address of the protobuf releases.
    The commands up to [unzip] are looked up on the caller's [PATH];
    [protoc --version], [rm] and the four [rustup] commands are looked up
    on that path with [$HOME/.local/bin] appended, once. *)
Theorem X13_commands_run_in_the_environment_of_their_line :
  forall s0 : LState,
  exists (log : Log) (new : list Action),
    snd (machine (snd (script _ (logged exec) s0))) = (snd (machine s0) ++ log)%list /\
    actions (snd (script _ (logged exec) s0)) = (actions s0 ++ new)%list /\
    map fst log = commands new /\
    Forall (fun c => In c (map fst log))
      [ apt_get_update; apt_get_install_cmake; cmake_version; command_v_python3;
        curl_protoc_zip; unzip_protoc_zip; protoc_version; rm_protoc_zip;
        rustup_toolchain_install_nightly; rustup_component_add_rustfmt;
        rustup_toolchain_list ] /\
    Forall (fun p =>
              HOME (snd p) = HOME (vars s0) /\
              PB_REL (snd p)
              = (if after_line_40 (fst p)
                 then "https://github.com/protocolbuffers/protobuf/releases"
                 else PB_REL (vars s0)) /\
              PATH (snd p)
              = (if after_line_43 (fst p)
                 then (PATH (vars s0) ++ ":" ++ HOME (vars s0) ++ "/.local/bin")%string
                 else PATH (vars s0))) log.
Proof.
  intros s0. destruct (script_env s0) as (log & new & Hl & Ha & E).
  exists log, new. split; [exact Hl|]. split; [exact Ha|].
  assert (Hc : map fst log = commands new).
  { apply (f_equal (map fst)) in E. rewrite !map_map in E. cbn [fst] in E.
    rewrite map_id in E. exact E. }
  split; [exact Hc|]. split.
  - rewrite Hc.
    destruct (script_transcript _ (logged exec) s0) as (a & Ht & _).
    rewrite Ha in Ht. apply app_inv_head in Ht. rewrite Ht.
    transcript_cases a; vm_compute;
      repeat (constructor; [repeat first [left; reflexivity | right]|]); constructor.
  - apply same_places in E. eapply Forall_impl; [exact E|].
    intros [c v] (c' & Ec). cbn [fst snd] in *. unfold env, env_at in Ec.
    injection Ec as -> H1 H2 H3. rewrite H1, H2, H3. repeat split.
Qed.

End Environment.
